(** * Electricity analytics dashboard: data preparation and metrics pipeline

    A shallow embedding of [data_loader.py], of the metrics engine and the
    quick statistics of [metrics_calculator.py], of the data preparation and
    the chart builders of [chart_utils.py] and of the control flow of
    [app.py], together with the parts of the Python [datetime] module and of
    pandas that these functions call.

    Conventions of the model.
    - A [datetime.date] is the record of its three fields; dates are compared
      the way CPython compares them (field by field) and converted to and
      from proleptic Gregorian ordinals with CPython's [_ymd2ord] and
      [_ord2ymd].
    - A [pandas.Timestamp] is its integer value: nanoseconds since
      1970-01-01T00:00:00, with no bound.  A date is sliced by only when it
      is among the days whose bounds fit in an int64 ([in_bounds]): pandas
      raises [OutOfBoundsDatetime] for the others, and the properties that
      say the filter returns assume the days of the window in bounds.
    - A numeric cell is a binary64 float (Rocq's primitive [float]); a missing
      value is NaN, as in pandas.  The sum, the mean and the standard
      deviation of a column are those of [pandas.core.nanops], which add with
      numpy's pairwise summation ([pairwise_sum]); the sums and the means of
      the bins of [resample] are those of the group-by kernels, which add
      with a compensation ([kahan_step]).  The optional bottleneck package,
      which replaces the mean and the standard deviation of [nanops] when it
      is installed, is taken to be absent.
    - A [DataFrame] keeps its column labels, so that a column that is looked
      up under a label the frame does not have raises [KeyError].
    - Label slicing and resampling follow pandas 2: a slice by date strings
      of an index that is not ascending raises [KeyError] unless both bounds
      occur in it, and ['W'] is the weekly frequency anchored on Sunday.
    - A Python function that can raise returns [py A]; a function that also
      writes to the Streamlit page returns [ST A], the calls in order. *)

From Stdlib Require Import ZArith Lia List Bool Sorted Permutation.
From Stdlib Require Import Uint63 Floats.
From stdpp Require Import base option list strings gmap.

Open Scope Z_scope.

(* ================================================================= *)
(** ** Calendar dates ([datetime.date]) *)

Record date := mkdate { year : Z; month : Z; day : Z }.

Definition is_leap (y : Z) : bool :=
  (y mod 4 =? 0) && (negb (y mod 100 =? 0) || (y mod 400 =? 0)).

Definition days_before_year (y : Z) : Z :=
  let y' := y - 1 in y' * 365 + y' / 4 - y' / 100 + y' / 400.

Definition DAYS_IN_MONTH (m : Z) : Z :=
  match m with
  | 1 => 31 | 2 => 28 | 3 => 31 | 4 => 30 | 5 => 31 | 6 => 30
  | 7 => 31 | 8 => 31 | 9 => 30 | 10 => 31 | 11 => 30 | 12 => 31
  | _ => -1
  end.

Definition DAYS_BEFORE_MONTH (m : Z) : Z :=
  match m with
  | 1 => 0 | 2 => 31 | 3 => 59 | 4 => 90 | 5 => 120 | 6 => 151
  | 7 => 181 | 8 => 212 | 9 => 243 | 10 => 273 | 11 => 304 | 12 => 334
  | _ => -1
  end.

Definition days_in_month (y m : Z) : Z :=
  if (m =? 2) && is_leap y then 29 else DAYS_IN_MONTH m.

Definition days_before_month (y m : Z) : Z :=
  DAYS_BEFORE_MONTH m + (if (2 <? m) && is_leap y then 1 else 0).

Definition ymd2ord (y m d : Z) : Z :=
  days_before_year y + days_before_month y m + d.

(** [date.toordinal()] *)
Definition toordinal (d : date) : Z := ymd2ord (year d) (month d) (day d).

Definition DI400Y : Z := 146097.
Definition DI100Y : Z := 36524.
Definition DI4Y : Z := 1461.

(** The month and day of the [n]-th day (from 0) of a year: the second half
    of [_ord2ymd]. *)
Definition doy2md (leapyear : bool) (n : Z) : Z * Z :=
  let m := Z.shiftr (n + 50) 5 in
  let preceding := DAYS_BEFORE_MONTH m + (if (2 <? m) && leapyear then 1 else 0) in
  if n <? preceding then
    let m := m - 1 in
    let preceding :=
      preceding - (DAYS_IN_MONTH m + (if (m =? 2) && leapyear then 1 else 0)) in
    (m, n - preceding + 1)
  else (m, n - preceding + 1).

Definition ord2ymd (n : Z) : date :=
  let n := n - 1 in
  let n400 := n / DI400Y in
  let n := n mod DI400Y in
  let n100 := n / DI100Y in
  let n := n mod DI100Y in
  let n4 := n / DI4Y in
  let n := n mod DI4Y in
  let n1 := n / 365 in
  let n := n mod 365 in
  let y := n400 * 400 + 1 + n100 * 100 + n4 * 4 + n1 in
  if (n1 =? 4) || (n100 =? 4) then mkdate (y - 1) 12 31
  else
    let leapyear := (n1 =? 3) && (negb (n4 =? 24) || (n100 =? 3)) in
    let '(m, d) := doy2md leapyear n in
    mkdate y m d.

(** [date.fromordinal(n)] *)
Definition fromordinal (n : Z) : date := ord2ymd n.

(** What the constructor of [datetime.date] checks of the month and day. *)
Definition valid_date (d : date) : Prop :=
  1 <= month d <= 12 /\ 1 <= day d <= days_in_month (year d) (month d).

Definition valid_dateb (d : date) : bool :=
  (1 <=? month d) && (month d <=? 12) && (1 <=? day d)
  && (day d <=? days_in_month (year d) (month d)).

(** [date._cmp]: the comparison of the triples (year, month, day). *)
Definition date_cmp (a b : date) : comparison :=
  match year a ?= year b with
  | Eq => match month a ?= month b with
          | Eq => day a ?= day b
          | c => c
          end
  | c => c
  end.

Definition date_lt (a b : date) : bool :=
  match date_cmp a b with Lt => true | _ => false end.
Definition date_gt (a b : date) : bool :=
  match date_cmp a b with Gt => true | _ => false end.
Definition date_le (a b : date) : bool :=
  match date_cmp a b with Gt => false | _ => true end.

(** Python's [max(a, b)] and [min(a, b)] on dates: the first argument is kept
    unless the second is strictly greater (smaller). *)
Definition py_max (a b : date) : date := if date_gt b a then b else a.
Definition py_min (a b : date) : date := if date_lt b a then b else a.

(** [(b - a).days] *)
Definition date_sub_days (b a : date) : Z := toordinal b - toordinal a.

(* ================================================================= *)
(** ** Timestamps ([pandas.Timestamp]) *)

Abbreviation Timestamp := Z.

Definition NS_PER_DAY : Z := 86400000000000.
Definition NS_PER_HOUR : Z := 3600000000000.

(** [date(1970, 1, 1).toordinal()] *)
Definition EPOCH_ORDINAL : Z := 719163.

(** [Timestamp.date()] *)
Definition Timestamp_date (t : Timestamp) : date :=
  fromordinal (t / NS_PER_DAY + EPOCH_ORDINAL).

(** [pd.to_datetime(d)] for a date [d]: midnight of that day. *)
Definition to_datetime_date (d : date) : Timestamp :=
  (toordinal d - EPOCH_ORDINAL) * NS_PER_DAY.

(** [Timestamp.normalize()] *)
Definition normalize (t : Timestamp) : Timestamp := t - t mod NS_PER_DAY.

(** [Timestamp.replace(day=k)]: the time of day is kept. *)
Definition Timestamp_replace_day (t : Timestamp) (k : Z) : Timestamp :=
  let d := Timestamp_date t in
  to_datetime_date (mkdate (year d) (month d) k) + t mod NS_PER_DAY.

(** [Timestamp.weekday()]: Monday is 0, Sunday is 6. *)
Definition Timestamp_weekday (t : Timestamp) : Z :=
  (toordinal (Timestamp_date t) + 6) mod 7.

(** A timestamp from its civil fields, for writing examples. *)
Definition mkts (y m d h : Z) : Timestamp :=
  to_datetime_date (mkdate y m d) + h * NS_PER_HOUR.

(** The bounds pandas gives a date string of day resolution used as a slice
    bound: the first and the last nanosecond of that day. *)
Definition day_lower_bound (d : date) : Timestamp := to_datetime_date d.
Definition day_upper_bound (d : date) : Timestamp :=
  to_datetime_date d + NS_PER_DAY - 1.

(** [Timestamp.min.value] and [Timestamp.max.value]: the nanoseconds an
    int64 holds, its least value being kept for NaT. *)
Definition Timestamp_min : Z := - 2 ^ 63 + 1.
Definition Timestamp_max : Z := 2 ^ 63 - 1.

(** The days whose bounds pandas can compute.  It takes both bounds from the
    [Period] of the day, as the start of the day and the start of the next
    day less one nanosecond, and raises [OutOfBoundsDatetime] when one of
    the two starts does not fit a [Timestamp].  These are the days from
    1677-09-22 to 2262-04-10 ([in_bounds_days]). *)
Definition in_bounds (d : date) : Prop :=
  Timestamp_min <= to_datetime_date d
  /\ to_datetime_date d + NS_PER_DAY <= Timestamp_max.

(* ================================================================= *)
(** ** Numbers *)

(** A Python integer as a float. *)
Definition float_of_Z (z : Z) : float :=
  if z <? 0 then PrimFloat.opp (PrimFloat.of_uint63 (Uint63.of_Z (- z)))
  else PrimFloat.of_uint63 (Uint63.of_Z z).

Definition float_of_nat (n : nat) : float := float_of_Z (Z.of_nat n).

(** The values the metrics dictionary holds: Python integers and floats. *)
Inductive pyval :=
  | PyInt (z : Z)
  | PyFloat (f : float).

Definition notna (x : float) : bool := negb (PrimFloat.is_nan x).

(** [skipna]: the values that are not NaN. *)
Definition skipna (xs : list float) : list float := List.filter notna xs.

(** [np.putmask(values, mask, 0)]: the missing values replaced by 0.0, each
    at its place. *)
Definition fillna0 (xs : list float) : list float :=
  map (fun x => if PrimFloat.is_nan x then 0%float else x) xs.

(** The eight running sums of numpy's unrolled loop, over [blocks] blocks of
    eight values: [r[j] += a[i + j]]. *)
Fixpoint add_lanes (blocks : nat) (r a : list float) : list float * list float :=
  match blocks with
  | O => (r, a)
  | S blocks' =>
      add_lanes blocks'
        (map (fun '(x, y) => (x + y)%float) (combine r (firstn 8 a))) (skipn 8 a)
  end.

(** numpy's [pairwise_sum] over 8 to 128 values: eight running sums over the
    whole blocks of eight, added two by two, then the values that are left,
    one after the other. *)
Definition unrolled_sum (a : list float) : float :=
  let '(r, rest) := add_lanes (length a / 8 - 1) (firstn 8 a) (skipn 8 a) in
  match r with
  | [r0; r1; r2; r3; r4; r5; r6; r7] =>
      fold_left PrimFloat.add rest
        (((r0 + r1) + (r2 + r3)) + ((r4 + r5) + (r6 + r7)))%float
  | _ => fold_left PrimFloat.add a 0%float
  end.

(** numpy's [pairwise_sum]: fewer than 8 values are added from left to
    right, starting from 0.0; up to 128 values go through the unrolled loop;
    more are cut in two, the first part a multiple of 8 long, and the sums of
    the two parts are added.  [fuel] bounds the depth of the cuts; the length
    of the list is enough ([pairwise_sum_fuel]).  (Later versions of numpy
    start the short loop from -0.0, so that a sum of negative zeros keeps its
    sign; no other sum changes.) *)
Fixpoint pairwise_sum (fuel : nat) (a : list float) : float :=
  let n := length a in
  if (n <? 8)%nat then fold_left PrimFloat.add a 0%float
  else if (n <=? 128)%nat then unrolled_sum a
  else
    match fuel with
    | O => unrolled_sum a
    | S fuel' =>
        let n2 := (n / 2 - (n / 2) mod 8)%nat in
        (pairwise_sum fuel' (firstn n2 a) + pairwise_sum fuel' (skipn n2 a))%float
    end.

(** [ndarray.sum()] of a float64 array: [np.add.reduce], which adds the
    pairwise sum of the values to the initial 0.0. *)
Definition np_sum (a : list float) : float :=
  (0 + pairwise_sum (length a) a)%float.

(** [Series.sum()], which is [nanops.nansum]: the sum of the values with the
    missing ones replaced by 0.0. *)
Definition nansum (xs : list float) : float := np_sum (fillna0 xs).

(** [Series.mean()], which is [nanops.nanmean]: that sum over the count of
    the values that are not NaN, and NaN when there is none. *)
Definition nanmean (xs : list float) : float :=
  let count := length (skipna xs) in
  let the_sum := np_sum (fillna0 xs) in
  if (0 <? count)%nat then (the_sum / float_of_nat count)%float else nan.

Definition fmax (a b : float) : float := if (a <? b)%float then b else a.
Definition fmin (a b : float) : float := if (b <? a)%float then b else a.

(** [Series.max()] and [Series.min()] *)
Definition nanmax (xs : list float) : float :=
  match skipna xs with
  | [] => nan
  | v :: vs => fold_left fmax vs v
  end.

Definition nanmin (xs : list float) : float :=
  match skipna xs with
  | [] => nan
  | v :: vs => fold_left fmin vs v
  end.

(** [nanops.nanvar]: with no more values than [ddof], the count and the
    denominator are NaN, and so is the result.  The squared deviations of
    the missing values are replaced by 0.0. *)
Definition nanvar (ddof : nat) (xs : list float) : float :=
  let count := length (skipna xs) in
  let countf := if (count <=? ddof)%nat then nan else float_of_nat count in
  let d := if (count <=? ddof)%nat then nan else float_of_nat (count - ddof) in
  let values := fillna0 xs in
  let avg := (np_sum values / countf)%float in
  let sqr :=
    map (fun '(x, v) =>
           if PrimFloat.is_nan x then 0%float else ((avg - v) * (avg - v))%float)
        (combine xs values) in
  (np_sum sqr / d)%float.

(** [Series.std()]: [ddof] is 1 by default. *)
Definition nanstd (xs : list float) : float := PrimFloat.sqrt (nanvar 1 xs).

(* ================================================================= *)
(** ** Exceptions and effects *)

Inductive value_error :=
  (** time data [value] doesn't match format [fmt] *)
  | TimeData (value : string) (fmt : string)
  (** columns overlap but no suffix specified *)
  | ColumnsOverlap (cols : list string).

Inductive exn :=
  | FileNotFoundError (path : string)
  | ValueError (detail : value_error)
  | KeyError (key : string).

Inductive py (A : Type) :=
  | Return (a : A)
  | Raise (e : exn).
Arguments Return {A} a.
Arguments Raise {A} e.

#[export] Instance py_ret : MRet py := fun A a => Return a.
#[export] Instance py_bind : MBind py := fun A B k m =>
  match m with
  | Return a => k a
  | Raise e => Raise e
  end.

(** What the application writes to the page. *)
Inductive st_call :=
  | st_error (msg : string)
  | st_error_exn (e : exn)
  | st_warning (msg : string)
  | render (component : string).

(** A computation that writes to the page and then returns or raises. *)
Definition ST (A : Type) : Type := list st_call * py A.

#[export] Instance ST_ret : MRet ST := fun A a => ([], Return a).
#[export] Instance ST_bind : MBind ST := fun A B k m =>
  match m with
  | (log, Return a) => let '(log', r) := k a in (log ++ log', r)
  | (log, Raise e) => (log, Raise e)
  end.

Definition emit (c : st_call) : ST unit := ([c], Return tt).
Definition lift {A} (r : py A) : ST A := ([], r).

(* ================================================================= *)
(** ** Data frames *)

(** A frame with a datetime index: the column labels, and the rows in order,
    each the index value and the cells under the labels. *)
Record DataFrame := mkDF {
  columns : list string;
  rows : list (Timestamp * list float)
}.

Definition index (df : DataFrame) : list Timestamp := map fst (rows df).

(** [pd.DataFrame()] *)
Definition DataFrame_new : DataFrame := mkDF [] [].

(** [df.empty]: one of the axes has length 0. *)
Definition df_empty (df : DataFrame) : bool :=
  match columns df, rows df with
  | [], _ => true
  | _, [] => true
  | _, _ => false
  end.

Fixpoint column_position (name : string) (cols : list string) : option nat :=
  match cols with
  | [] => None
  | c :: cs =>
      if String.eqb c name then Some O
      else option_map S (column_position name cs)
  end.

Definition cell (i : nat) (r : Timestamp * list float) : float :=
  nth i (snd r) nan.

(** [df[name]] *)
Definition getcol (df : DataFrame) (name : string) : py (list float) :=
  match column_position name (columns df) with
  | Some i => Return (map (cell i) (rows df))
  | None => Raise (KeyError name)
  end.

Fixpoint set_nth (i : nat) (v : float) (vs : list float) : list float :=
  match i, vs with
  | O, _ :: vs' => v :: vs'
  | S i', x :: vs' => x :: set_nth i' v vs'
  | _, [] => []
  end.

(** [df[name] = values]: the column is replaced, or added as the last one. *)
Definition setcol (df : DataFrame) (name : string) (values : list float) : DataFrame :=
  match column_position name (columns df) with
  | Some i =>
      mkDF (columns df)
           (map (fun '(r, v) => (fst r, set_nth i v (snd r))) (combine (rows df) values))
  | None =>
      mkDF (columns df ++ [name])
           (map (fun '(r, v) => (fst r, snd r ++ [v])) (combine (rows df) values))
  end.

(** [df.rename(columns=mapping)] *)
Definition rename_columns (mapping : list (string * string)) (df : DataFrame) : DataFrame :=
  mkDF (map (fun c =>
               match List.find (fun kv => String.eqb (fst kv) c) mapping with
               | Some kv => snd kv
               | None => c
               end) (columns df))
       (rows df).

(** [df.dropna()]: the rows with no missing cell. *)
Definition dropna (df : DataFrame) : DataFrame :=
  mkDF (columns df) (List.filter (fun r => forallb notna (snd r)) (rows df)).

(** [left.join(right)]: a left join on the index.  Every row of [left] is kept,
    in order, once for each row of [right] with the same index value, and once
    with missing cells when there is none. *)
Definition join (left right : DataFrame) : py DataFrame :=
  match List.filter (fun c => existsb (String.eqb c) (columns right)) (columns left) with
  | [] =>
      Return (mkDF (columns left ++ columns right)
        (flat_map (fun l =>
           match List.filter (fun r => fst r =? fst l) (rows right) with
           | [] => [(fst l, snd l ++ repeat nan (length (columns right)))]
           | ms => map (fun r => (fst l, snd l ++ snd r)) ms
           end) (rows left)))
  | c :: cs => Raise (ValueError (ColumnsOverlap (c :: cs)))
  end.

(* ================================================================= *)
(** ** CSV ingestion and the joiner ([data_loader.load_data]) *)

(** What [pd.read_csv] yields for a source file: one column of date strings
    under [time_name], and numeric columns under [value_names]. *)
Record CsvTable := mkCsv {
  time_name : string;
  value_names : list string;
  records : list (string * list float)
}.

(** The environment of the loader: the files ([None]: no file at that path;
    the delimiter and the decimal mark are passed on), and pandas' two ways
    of reading a date string: with the format inferred, and with a format
    given. *)
Record World := mkWorld {
  read_csv : string -> string -> string -> option CsvTable;
  guess_datetime : string -> option Timestamp;
  strptime : string -> string -> option Timestamp
}.

(** [pd.read_csv(path, delimiter=..., decimal=...)] *)
Definition pd_read_csv (w : World) (path delimiter decimal : string) : py CsvTable :=
  match read_csv w path delimiter decimal with
  | Some t => Return t
  | None => Raise (FileNotFoundError path)
  end.

(** [df[name]] for the column of date strings of a table just read. *)
Definition csv_getcol (t : CsvTable) (name : string) : py (list string) :=
  if String.eqb (time_name t) name then Return (map fst (records t))
  else Raise (KeyError name).

(** [pd.to_datetime(series)] and [pd.to_datetime(series, format=fmt)]: the
    first string that cannot be read raises [ValueError]. *)
Fixpoint to_datetime (parse : string -> option Timestamp) (fmt : string)
    (values : list string) : py (list Timestamp) :=
  match values with
  | [] => Return []
  | v :: vs =>
      match parse v with
      | None => Raise (ValueError (TimeData v fmt))
      | Some t => ts ← to_datetime parse fmt vs; Return (t :: ts)
      end
  end.

(** [df[name] = times] followed by [df.set_index(name)] *)
Definition set_index (t : CsvTable) (times : list Timestamp) : DataFrame :=
  mkDF (value_names t) (combine times (map snd (records t))).

Definition consumption_path : string := "data/Electricity_consumption_2015-2025.csv".
Definition price_path : string := "data/Electricity_price_2015-2025.csv".
Definition price_format : string := "%H:%M %m/%d/%Y".

(** The body of the first [try]. *)
Definition load_consumption (w : World) : py DataFrame :=
  df_cons ← pd_read_csv w consumption_path "," ".";
  col ← csv_getcol df_cons "time";
  times ← to_datetime (guess_datetime w) "" col;
  Return (set_index df_cons times).

(** The body of the second [try]. *)
Definition load_price (w : World) : py DataFrame :=
  df_price ← pd_read_csv w price_path ";" ",";
  col ← csv_getcol df_price "timestamp";
  times ← to_datetime (strptime w price_format) price_format col;
  Return (set_index df_price times).

(** [df['Bill'] = df['kWh'] * (df['Price'] / 100)] *)
Definition add_bill (df : DataFrame) : py DataFrame :=
  kwh ← getcol df "kWh";
  price ← getcol df "Price";
  Return (setcol df "Bill"
            (map (fun '(k, p) => (k * (p / 100))%float) (combine kwh price))).

(** The labels the loader gives the columns, byte for byte as
    [data_loader.py] spells them. *)
Definition loader_columns : list (string * string) :=
  [ ("kWh", "Consumption (kWh)");
    ("Price", "Price (cents/kWh)");
    ("Temperature", "Temperature (Â°C)");
    ("Bill", "Bill (â‚¬)") ].

Definition not_found_message (path : string) : string :=
  "Error: '" +:+ path +:+ "' not found. Make sure it's in the 'data' folder.".

Definition parse_error_message (path : string) : string :=
  "Error parsing dates in '" +:+ path +:+ "'. Please check the format.".

Definition load_data (w : World) : ST DataFrame :=
  match load_consumption w with
  | Raise (FileNotFoundError _) =>
      emit (st_error (not_found_message consumption_path));;
      mret DataFrame_new
  | Raise e => lift (Raise e)
  | Return df_cons =>
      match load_price w with
      | Raise (FileNotFoundError _) =>
          emit (st_error (not_found_message price_path));;
          mret DataFrame_new
      | Raise (ValueError d) =>
          emit (st_error (parse_error_message price_path));;
          emit (st_error_exn (ValueError d));;
          mret DataFrame_new
      | Raise e => lift (Raise e)
      | Return df_price =>
          df ← lift (join df_cons df_price);
          let df := dropna df in
          df ← lift (add_bill df);
          mret (rename_columns loader_columns df)
      end
  end.

(* ================================================================= *)
(** ** The date-range filter ([data_loader.filter_data_by_date_range]) *)

Fixpoint is_monotonic_increasing (idx : list Timestamp) : bool :=
  match idx with
  | [] => true
  | t :: rest =>
      match rest with
      | [] => true
      | u :: _ => (t <=? u) && is_monotonic_increasing rest
      end
  end.

Fixpoint take_while {A} (p : A -> bool) (l : list A) : list A :=
  match l with
  | [] => []
  | x :: l' => if p x then x :: take_while p l' else []
  end.

(** [idx.searchsorted(x, side)] on an index in ascending order: the number of
    values before [x] (side left), or not after it (side right). *)
Definition searchsorted_left (idx : list Timestamp) (x : Timestamp) : nat :=
  length (take_while (fun t => t <? x) idx).
Definition searchsorted_right (idx : list Timestamp) (x : Timestamp) : nat :=
  length (take_while (fun t => t <=? x) idx).

(** Python's [l[i:j]] *)
Definition py_slice {A} (i j : nat) (l : list A) : list A :=
  firstn (j - i) (skipn i l).

Definition in_range (lo hi : Timestamp) (r : Timestamp * list float) : bool :=
  (lo <=? fst r) && (fst r <=? hi).

Definition non_monotonic_message : string :=
  "Value based partial slicing on non-monotonic DatetimeIndexes with non-existing keys is not allowed.".

(** [df.loc[lo:hi]] with both bounds given as date strings, [lo] and [hi]
    being the timestamps the strings stand for.  On an index in ascending
    order the two ends are found by bisection; on any other index the rows
    are selected by a mask, and pandas 2 raises unless both bounds occur in
    the index. *)
Definition loc_slice (df : DataFrame) (lo hi : Timestamp) : py DataFrame :=
  let idx := index df in
  if is_monotonic_increasing idx then
    Return (mkDF (columns df)
              (py_slice (searchsorted_left idx lo) (searchsorted_right idx hi) (rows df)))
  else if existsb (Z.eqb lo) idx && existsb (Z.eqb hi) idx then
    Return (mkDF (columns df) (List.filter (in_range lo hi) (rows df)))
  else Raise (KeyError non_monotonic_message).

(** [df.loc[start_date.strftime('%Y-%m-%d'):end_date.strftime('%Y-%m-%d')]],
    for two days that are [in_bounds]: for a day outside, pandas raises
    [OutOfBoundsDatetime] before it looks at the index, which this
    definition leaves out.  The properties of the filter that say it returns
    are stated for days in bounds. *)
Definition filter_data_by_date_range (df : DataFrame) (start_date end_date : date)
    : py DataFrame :=
  loc_slice df (day_lower_bound start_date) (day_upper_bound end_date).

(* ================================================================= *)
(** ** The default window ([data_loader.calculate_default_date_range]) *)

Definition list_min (t : Timestamp) (ts : list Timestamp) : Timestamp :=
  fold_left Z.min ts t.
Definition list_max (t : Timestamp) (ts : list Timestamp) : Timestamp :=
  fold_left Z.max ts t.

(** On a frame with no row the minimum and the maximum of the index are NaT,
    and so is everything computed from them: [None] stands for the pair
    (NaT, NaT). *)
Definition calculate_default_date_range (df : DataFrame) : option (date * date) :=
  match index df with
  | [] => None
  | t :: ts =>
      let min_date := Timestamp_date (list_min t ts) in
      let max_date := Timestamp_date (list_max t ts) in
      let max_date_pd := to_datetime_date max_date in
      let default_end_date_dt := Timestamp_replace_day max_date_pd 1 - 1 * NS_PER_DAY in
      let default_start_date_dt := Timestamp_replace_day default_end_date_dt 1 in
      let default_start_date := py_max min_date (Timestamp_date default_start_date_dt) in
      let default_end_date := py_min max_date (Timestamp_date default_end_date_dt) in
      if date_gt default_start_date default_end_date
      then Some (min_date, max_date)
      else Some (default_start_date, default_end_date)
  end.

(* ================================================================= *)
(** ** The metrics engine ([metrics_calculator.calculate_overall_metrics]) *)

Definition calculate_overall_metrics (df_filtered : DataFrame)
    (start_date end_date : date) : py (gmap string pyval) :=
  if df_empty df_filtered then Return ∅
  else
    consumption ← getcol df_filtered "Consumption (kWh)";
    bill ← getcol df_filtered "Bill (€)";
    price ← getcol df_filtered "Price (cents/kWh)";
    temperature ← getcol df_filtered "Temperature (°C)";
    let total_consumption := nansum consumption in
    let total_bill := nansum bill in
    let avg_price := nanmean price in
    let avg_temp := nanmean temperature in
    let max_consumption := nanmax consumption in
    let min_consumption := nanmin consumption in
    let price_volatility := nanstd price in
    let temp_range := (nanmax temperature - nanmin temperature)%float in
    let num_days_in_filter := date_sub_days end_date start_date + 1 in
    let daily_avg_consumption :=
      (total_consumption / float_of_Z num_days_in_filter)%float in
    let efficiency_score :=
      if (0 <? avg_price)%float
      then PyFloat (daily_avg_consumption / avg_price)%float
      else PyInt 0 in
    Return (list_to_map
      [ ("total_consumption", PyFloat total_consumption);
        ("total_bill", PyFloat total_bill);
        ("avg_price", PyFloat avg_price);
        ("avg_temp", PyFloat avg_temp);
        ("max_consumption", PyFloat max_consumption);
        ("min_consumption", PyFloat min_consumption);
        ("price_volatility", PyFloat price_volatility);
        ("temp_range", PyFloat temp_range);
        ("daily_avg_consumption", PyFloat daily_avg_consumption);
        ("efficiency_score", efficiency_score);
        ("num_days_in_filter", PyInt num_days_in_filter) ]).

(* ================================================================= *)
(** ** The aggregator ([chart_utils.prepare_chart_data]) *)

(** The offset aliases of pandas the chart uses: calendar day, week ending
    on Sunday, month start. *)
Inductive rule := D | W | MS.

(** [group_map[group_by]] *)
Definition group_map (group_by : string) : py rule :=
  if String.eqb group_by "Daily" then Return D
  else if String.eqb group_by "Weekly" then Return W
  else if String.eqb group_by "Monthly" then Return MS
  else Raise (KeyError group_by).

(** [Week(n, weekday)._apply(other)] *)
Definition Week_apply (n weekday : Z) (other : Timestamp) : Timestamp :=
  let otherDay := Timestamp_weekday other in
  if negb (otherDay =? weekday) then
    let other := other + ((weekday - otherDay) mod 7) * NS_PER_DAY in
    let k := if 0 <? n then n - 1 else n in
    other + k * (7 * NS_PER_DAY)
  else other + n * (7 * NS_PER_DAY).

(** [shift_month(stamp, months, 'start')] *)
Definition shift_month_start (stamp : Timestamp) (months : Z) : Timestamp :=
  let d := Timestamp_date stamp in
  let dy := (month d + months) / 12 in
  let m := (month d + months) mod 12 in
  let '(m, dy) := if m =? 0 then (12, dy - 1) else (m, dy) in
  to_datetime_date (mkdate (year d + dy) m 1) + stamp mod NS_PER_DAY.

(** [MonthBegin().rollback(dt)]: a day other than the first goes back by
    [MonthBegin(1)], which is a shift of 0 months to the start. *)
Definition MonthBegin_rollback (dt : Timestamp) : Timestamp :=
  if day (Timestamp_date dt) =? 1 then dt else shift_month_start dt 0.

(** [dt + freq] *)
Definition offset_apply (r : rule) (dt : Timestamp) : Timestamp :=
  match r with
  | D => dt + NS_PER_DAY
  | W => Week_apply 1 6 dt
  | MS => shift_month_start dt 1
  end.

(** Which side of a bin is closed, and which edge labels it: the right one
    for the weekly rule, the left one for the other two. *)
Definition closed_right (r : rule) : bool :=
  match r with W => true | _ => false end.
Definition label_right (r : rule) : bool :=
  match r with W => true | _ => false end.

(** [_get_timestamp_range_edges(ax.min(), ax.max(), freq, closed)] *)
Definition get_timestamp_range_edges (r : rule) (first last : Timestamp)
    : Timestamp * Timestamp :=
  match r with
  | D =>
      let origin_timestamp := normalize first in
      let foffset := (first - origin_timestamp) mod NS_PER_DAY in
      let loffset := (last - origin_timestamp) mod NS_PER_DAY in
      let fresult := if 0 <? foffset then first - foffset else first in
      let lresult :=
        if 0 <? loffset then last + (NS_PER_DAY - loffset) else last + NS_PER_DAY in
      (fresult, lresult)
  | W =>
      let first := normalize first in
      let last := normalize last in
      (Week_apply (-1) 6 first, Week_apply 1 6 last)
  | MS =>
      let first := normalize first in
      let last := normalize last in
      (MonthBegin_rollback first, shift_month_start last 1)
  end.

(** The generator behind [date_range]: from [cur], one offset at a time,
    while [cur <= end_].  Every offset here moves forward by a day at least,
    so [date_range] gives it one step for each day of the range and two to
    spare. *)
Fixpoint generate_range (fuel : nat) (r : rule) (cur end_ : Timestamp)
    : list Timestamp :=
  match fuel with
  | O => []
  | S fuel' =>
      if cur <=? end_ then cur :: generate_range fuel' r (offset_apply r cur) end_
      else []
  end.

Definition date_range (r : rule) (start end_ : Timestamp) : list Timestamp :=
  generate_range (Z.to_nat ((end_ - start) / NS_PER_DAY) + 2) r start end_.

(** [_adjust_bin_edges]: the edges of the weekly bins are the last nanosecond
    of their Sunday, and a last bin that starts after the data is dropped. *)
Definition adjust_bin_edges (r : rule) (binner : list Timestamp) (ax_max : Timestamp)
    : list Timestamp * list Timestamp :=
  match r with
  | W =>
      let bin_edges := map (fun t => t + NS_PER_DAY - 1) binner in
      match rev bin_edges with
      | _ :: before_last :: _ =>
          if ax_max <? before_last
          then (removelast binner, removelast bin_edges)
          else (binner, bin_edges)
      | _ => (binner, bin_edges)
      end
  | _ => (binner, binner)
  end.

(** [lib.generate_bins_dt64]: for each bin, the position in [values] where it
    ends.  [j] is the position reached so far; the inner loop moves on while
    the value is before the right edge (or on it, when the bin is closed on
    the right). *)
Fixpoint generate_bins (right_closed : bool) (values : list Timestamp) (j : nat)
    (right_edges : list Timestamp) : list nat :=
  match right_edges with
  | [] => []
  | r_bin :: rest =>
      let inside := fun v => if right_closed then v <=? r_bin else v <? r_bin in
      let j' := (j + length (take_while inside (skipn j values)))%nat in
      j' :: generate_bins right_closed values j' rest
  end.

(** [TimeGrouper._get_time_bins] for an index with at least one value, in
    ascending order: the labels and the positions where the bins end. *)
Definition get_time_bins (r : rule) (ax : list Timestamp) : list Timestamp * list nat :=
  match ax with
  | [] => ([], [])
  | t :: ts =>
      let ax_min := list_min t ts in
      let ax_max := list_max t ts in
      let '(first, last) := get_timestamp_range_edges r ax_min ax_max in
      let binner := date_range r first last in
      let '(binner, bin_edges) := adjust_bin_edges r binner ax_max in
      let bins := generate_bins (closed_right r) ax 0 (tl bin_edges) in
      let labels := if label_right r then tl binner else binner in
      (firstn (length bins) labels, bins)
  end.

(** The rows of each bin: from where the bin before ended to where it ends. *)
Fixpoint split_bins {A} (l : list A) (prev : nat) (bins : list nat) : list (list A) :=
  match bins with
  | [] => []
  | b :: bins' => py_slice prev b l :: split_bins l b bins'
  end.

Definition insert_row (r : Timestamp * list float) :=
  fix ins (l : list (Timestamp * list float)) : list (Timestamp * list float) :=
    match l with
    | [] => [r]
    | x :: l' => if fst r <=? fst x then r :: l else x :: ins l'
    end.

(** A stable sort of the rows by index value. *)
Definition sort_index (l : list (Timestamp * list float)) : list (Timestamp * list float) :=
  fold_right insert_row [] l.

Inductive how := agg_sum | agg_mean.

(** One step of the compensated (Kahan) summation of pandas' group-by
    kernels, on the running sum and its compensation. *)
Definition kahan_step (st : float * float) (val : float) : float * float :=
  let '(sumx, compensation) := st in
  let y := (val - compensation)%float in
  let t := (sumx + y)%float in
  let compensation := (t - sumx - y)%float in
  let compensation := if PrimFloat.is_nan compensation then 0%float else compensation in
  (t, compensation).

(** [group_sum] over the values of one bin: the compensated sum of the
    values that are not NaN; 0.0 over no value. *)
Definition group_sum (xs : list float) : float :=
  fst (fold_left kahan_step (skipna xs) (0%float, 0%float)).

(** [group_mean] over the values of one bin: the compensated sum over the
    count; NaN over no value. *)
Definition group_mean (xs : list float) : float :=
  let nobs := length (skipna xs) in
  if (nobs =? 0)%nat then nan else (group_sum xs / float_of_nat nobs)%float.

(** The reduction of one column over the rows of a bin. *)
Definition reduce (h : how) (xs : list float) : float :=
  match h with
  | agg_sum => group_sum xs
  | agg_mean => group_mean xs
  end.

(** The dictionary given to [agg]. *)
Definition agg_spec : list (string * how) :=
  [ ("Consumption (kWh)", agg_sum);
    ("Bill (€)", agg_sum);
    ("Price (cents/kWh)", agg_mean);
    ("Temperature (°C)", agg_mean) ].

(** Insertion of a label in a sorted list, in the order of Python's
    strings. *)
Definition insert_label (s : string) :=
  fix ins (l : list string) : list string :=
    match l with
    | [] => [s]
    | x :: l' => if String.leb s x then s :: l else x :: ins l'
    end.

(** [Index(list(func.keys())).difference(obj.columns, sort=True)]: the labels
    of the dictionary that the frame lacks, sorted. *)
Definition missing_columns (spec : list (string * how)) (cols : list string)
    : list string :=
  fold_right insert_label []
    (List.filter (fun name => negb (existsb (String.eqb name) cols)) (map fst spec)).

(** Python's [repr] of a list of strings with no quote in them. *)
Definition list_repr (l : list string) : string :=
  "[" +:+ String.concat ", " (map (fun s => "'" +:+ s +:+ "'") l) +:+ "]".

(** The check [agg] makes of a dictionary, and the positions of its columns:
    one [KeyError] names every column that is missing. *)
Definition column_positions (spec : list (string * how)) (cols : list string)
    : py (list (nat * how)) :=
  match missing_columns spec cols with
  | [] =>
      Return (flat_map (fun '(name, h) =>
                          match column_position name cols with
                          | Some i => [(i, h)]
                          | None => []
                          end) spec)
  | missing =>
      Raise (KeyError ("Column(s) " +:+ list_repr missing +:+ " do not exist"))
  end.

(** [df.resample(rule).agg(spec)]: one row for each bin, labelled by the bin,
    with the columns of [spec] in its order.  The rows are sorted first when
    the index is not ascending. *)
Definition resample_agg (df : DataFrame) (r : rule) (spec : list (string * how))
    : py DataFrame :=
  ps ← column_positions spec (columns df);
  let sorted :=
    if is_monotonic_increasing (index df) then rows df else sort_index (rows df) in
  let '(labels, bins) := get_time_bins r (map fst sorted) in
  let groups := split_bins sorted 0 bins in
  Return (mkDF (map fst spec)
    (map (fun '(label, group) =>
            (label, map (fun '(i, h) => reduce h (map (cell i) group)) ps))
         (combine labels groups))).

(** [df.reset_index().melt('Date', var_name='Metric', value_name='Value')]:
    column after column, a row (Date, Metric, Value) for each label. *)
Definition melt (df : DataFrame) : list (Timestamp * string * float) :=
  flat_map (fun '(i, name) => map (fun r => (fst r, name, cell i r)) (rows df))
           (combine (seq 0 (length (columns df))) (columns df)).

Definition prepare_chart_data (df_filtered : DataFrame) (group_by : string)
    : py (list (Timestamp * string * float)) :=
  rule ← group_map group_by;
  df_grouped ← resample_agg df_filtered rule agg_spec;
  Return (melt df_grouped).

(* ================================================================= *)
(** ** The application ([app.py]) *)

(** The values the sidebar widgets return. *)
Record Widgets := mkWidgets {
  w_start_date : date;
  w_end_date : date;
  w_group_by : string;
  w_metric_to_display : string
}.

(** [ui_components.render_error_message] *)
Definition render_error_message : ST unit :=
  emit (st_error "🔴 Data Loading Failed: The dashboard cannot be displayed.");;
  emit (st_warning "Please make sure you have a folder named 'data' in the same directory as your 'app.py' file, and that it contains 'Electricity_consumption_2015-2025.csv' and 'Electricity_price_2015-2025.csv'.");;
  emit (render "st.info").

(** [sidebar_controls.render_sidebar_controls]: the widgets are drawn with
    the default window, and the quick statistics slice the frame again. *)
Definition render_sidebar_controls (df : DataFrame) (ui : Widgets) : ST Widgets :=
  let defaults := calculate_default_date_range df in
  emit (render "sidebar");;
  (if date_le (w_start_date ui) (w_end_date ui)
   then
     df_temp ← lift (loc_slice df (day_lower_bound (w_start_date ui))
                                  (day_upper_bound (w_end_date ui)));
     if df_empty df_temp then mret tt
     else _ ← lift (getcol df_temp "Consumption (kWh)"); mret tt
   else mret tt);;
  mret ui.

(** The script of [app.py], from [load_data()] on.  A chart or a table that
    is drawn is recorded by the name of the call that draws it. *)
Definition app (w : World) (ui : Widgets) : ST unit :=
  df ← load_data w;
  if negb (df_empty df) then
    emit (render "render_main_header");;
    user_selections ← render_sidebar_controls df ui;
    let start_date := w_start_date user_selections in
    let end_date := w_end_date user_selections in
    if date_gt start_date end_date then
      emit (st_error "⚠️ Error: End date must be after start date.")
    else
      df_filtered ← lift (filter_data_by_date_range df start_date end_date);
      emit (render "render_section_header");;
      if df_empty df_filtered then
        emit (st_warning "No data available for the selected date range.")
      else
        metrics ← lift (calculate_overall_metrics df_filtered start_date end_date);
        emit (render "render_metrics_display");;
        emit (render "render_section_header");;
        df_chart_data ← lift (prepare_chart_data df_filtered (w_group_by user_selections));
        emit (render "st.altair_chart");;
        emit (render "render_section_header");;
        _ ← lift (getcol df_filtered "Consumption (kWh)");
        _ ← lift (getcol df_filtered "Price (cents/kWh)");
        _ ← lift (getcol df_filtered "Temperature (°C)");
        _ ← lift (getcol df_filtered "Bill (€)");
        emit (render "st.altair_chart");;
        emit (render "st.dataframe");;
        emit (render "render_data_viewer");;
        emit (render "render_footer")
  else
    render_error_message.

(* ================================================================= *)
(** ** The quick statistics ([metrics_calculator.calculate_quick_stats]) *)

(** The dictionary the function returns, with its two keys; the average is
    Python's [None] on a frame with no row. *)
Record QuickStats := mkQuickStats {
  total_days : Z;
  avg_consumption : option float
}.

Definition calculate_quick_stats (df_filtered : DataFrame)
    (start_date end_date : date) : py QuickStats :=
  let total_days := date_sub_days end_date start_date + 1 in
  if negb (df_empty df_filtered) then
    consumption ← getcol df_filtered "Consumption (kWh)";
    Return (mkQuickStats total_days (Some (nanmean consumption)))
  else
    Return (mkQuickStats total_days None).

(* ================================================================= *)
(** ** The charts ([chart_utils]) *)

(** [filter_chart_data]: the rows of the long table under one metric, or the
    whole table for the faceted view. *)
Definition filter_chart_data (df_chart_data : list (Timestamp * string * float))
    (metric_to_display : string) : list (Timestamp * string * float) :=
  if negb (String.eqb metric_to_display "All (Faceted)")
  then List.filter (fun row => String.eqb (snd (fst row)) metric_to_display) df_chart_data
  else df_chart_data.

Inductive mark := mark_line | mark_area | mark_bar.

(** An Altair chart, as the calls that build it: a chart of a table with a
    mark and a colour scheme; the regression line of a table, by metric; a
    chart layered over another; a chart faceted by metric over a table, with
    a shared scale; a chart with the final configuration.  The encodings of
    the axes and of the tooltips, which are the same in every chart, are left
    out. *)
Inductive Chart :=
  | alt_Chart (data : list (Timestamp * string * float)) (m : mark) (scheme : string)
  | transform_regression (data : list (Timestamp * string * float))
  | layer (base trend : Chart)
  | facet (chart : Chart) (data : list (Timestamp * string * float))
  | configure (chart : Chart).

Definition create_line_chart (df_chart : list (Timestamp * string * float))
    (metric_to_display : string) (show_trends : bool) : Chart :=
  let base_line_chart := alt_Chart df_chart mark_line "category20" in
  let chart :=
    if show_trends then layer base_line_chart (transform_regression df_chart)
    else base_line_chart in
  if String.eqb metric_to_display "All (Faceted)" then facet chart df_chart
  else chart.

Definition create_area_chart (df_chart : list (Timestamp * string * float))
    (metric_to_display : string) : Chart :=
  let chart := alt_Chart df_chart mark_area "viridis" in
  if String.eqb metric_to_display "All (Faceted)" then facet chart df_chart
  else chart.

Definition create_bar_chart (df_chart : list (Timestamp * string * float))
    (metric_to_display : string) : Chart :=
  let chart := alt_Chart df_chart mark_bar "set2" in
  if String.eqb metric_to_display "All (Faceted)" then facet chart df_chart
  else chart.

Definition create_chart (df_filtered : DataFrame)
    (group_by chart_type metric_to_display : string) (show_trends : bool) : py Chart :=
  df_chart_data ← prepare_chart_data df_filtered group_by;
  let df_chart := filter_chart_data df_chart_data metric_to_display in
  let df_chart :=
    if negb (String.eqb metric_to_display "All (Faceted)")
    then List.filter (fun row => String.eqb (snd (fst row)) metric_to_display) df_chart
    else df_chart in
  let chart :=
    if String.eqb chart_type "Line Chart"
    then create_line_chart df_chart metric_to_display show_trends
    else if String.eqb chart_type "Area Chart"
    then create_area_chart df_chart metric_to_display
    else create_bar_chart df_chart metric_to_display in
  Return (configure chart).

(* ================================================================= *)
(** ** Definitions used to state the properties *)

(** The check that [doy2md] is right on one day of a year. *)
Definition doy_ok (leap : bool) (n : Z) : bool :=
  let '(m, d) := doy2md leap n in
  (1 <=? m) && (m <=? 12) && (1 <=? d)
  && (d <=? DAYS_IN_MONTH m + (if (m =? 2) && leap then 1 else 0))
  && (DAYS_BEFORE_MONTH m + (if (2 <? m) && leap then 1 else 0) + d =? n + 1).

(** The calendar date of a row lies in the window, both ends included. *)
Definition date_in_window (start_date end_date : date) (r : Timestamp * list float) : bool :=
  date_le start_date (Timestamp_date (fst r))
  && date_le (Timestamp_date (fst r)) end_date.

(** Frames for the examples: the four columns under the labels the metrics
    engine and the aggregator read, and a bill computed as the loader does. *)
Definition metric_columns : list string :=
  ["Consumption (kWh)"; "Price (cents/kWh)"; "Temperature (°C)"; "Bill (€)"].

Definition hourly_row (t : Timestamp) (kwh price temperature : float)
    : Timestamp * list float :=
  (t, [kwh; price; temperature; (kwh * (price / 100))%float]).

Definition march_2025 : DataFrame :=
  mkDF metric_columns
    [ hourly_row (mkts 2025 3 1 0) 1 2 (-3);
      hourly_row (mkts 2025 3 1 1) 2 4 (-2);
      hourly_row (mkts 2025 3 2 0) 3 6 (-1);
      hourly_row (mkts 2025 3 15 23) 4 8 0 ].

(** The calendar month before the month of [d]: its first and its last day. *)
Definition previous_month (d : date) : date * date :=
  let '(y, m) := if month d =? 1 then (year d - 1, 12) else (year d, month d - 1) in
  (mkdate y m 1, mkdate y m (days_in_month y m)).

(** A frame with no column and one row for each index value given: all that
    the default window reads of a dataset. *)
Definition index_only (ts : list Timestamp) : DataFrame :=
  mkDF [] (map (fun t => (t, [])) ts).

(** The calendar dates from [start_date] to [end_date], both included. *)
Definition calendar_days (start_date end_date : date) : list date :=
  map (fun k => fromordinal (toordinal start_date + Z.of_nat k))
      (seq 0 (Z.to_nat (toordinal end_date - toordinal start_date + 1))).

(** The number of calendar days of a window, both ends included. *)
Definition inclusive_day_count (start_date end_date : date) : Z :=
  Z.of_nat (length (calendar_days start_date end_date)).

(** A frame of one row with the given price. *)
Definition one_hour (price : float) : DataFrame :=
  mkDF metric_columns [hourly_row (mkts 2025 3 1 0) 10 price 0].

(** The inner join of two lists of rows on the index value, keeping the
    pairs with no missing cell: for each row of the left list, in order, the
    rows of the right list with the same index value, in order. *)
Definition inner_join_rows (left right : list (Timestamp * list float))
    : list (Timestamp * list float) :=
  flat_map (fun a =>
    flat_map (fun b =>
      if (fst b =? fst a) && forallb notna (snd a ++ snd b)
      then [(fst a, snd a ++ snd b)] else []) right) left.

(** A joined row (kWh, Price, Temperature) with its bill as a fourth cell. *)
Definition with_bill (r : Timestamp * list float) : Timestamp * list float :=
  (fst r, snd r ++ [(cell 0 r * (cell 1 r / 100))%float]).

(** The ingestion faults the loader catches, each with what it writes to the
    page: the consumption file is missing; the consumption table loads and
    the price file is missing; the consumption table loads and a date string
    of the price file does not match the format, [v] being the first one. *)
Inductive ingestion_fault (w : World) : list st_call -> Prop :=
  | consumption_file_absent :
      read_csv w consumption_path "," "." = None ->
      ingestion_fault w [st_error (not_found_message consumption_path)]
  | price_file_absent df_cons :
      load_consumption w = Return df_cons ->
      read_csv w price_path ";" "," = None ->
      ingestion_fault w [st_error (not_found_message price_path)]
  | price_timestamp_malformed df_cons table good v rest :
      load_consumption w = Return df_cons ->
      read_csv w price_path ";" "," = Some table ->
      time_name table = "timestamp" ->
      map fst (records table) = good ++ v :: rest ->
      Forall (fun s => is_Some (strptime w price_format s)) good ->
      strptime w price_format v = None ->
      ingestion_fault w
        [ st_error (parse_error_message price_path);
          st_error_exn (ValueError (TimeData v price_format)) ].

(** What [render_error_message] writes to the page. *)
Definition error_page : list st_call :=
  [ st_error "🔴 Data Loading Failed: The dashboard cannot be displayed.";
    st_warning "Please make sure you have a folder named 'data' in the same directory as your 'app.py' file, and that it contains 'Electricity_consumption_2015-2025.csv' and 'Electricity_price_2015-2025.csv'.";
    render "st.info" ].

(** Worlds for the examples.  The date strings are read from a table. *)
Definition lookup_time (table : list (string * Timestamp)) (s : string)
    : option Timestamp :=
  option_map snd (List.find (fun kv => String.eqb (fst kv) s) table).

Definition world_of (consumption price : option CsvTable)
    (times : list (string * Timestamp)) : World :=
  mkWorld (fun path _ _ =>
             if String.eqb path consumption_path then consumption
             else if String.eqb path price_path then price
             else None)
          (lookup_time times)
          (fun _ => lookup_time times).

Definition hours_times : list (string * Timestamp) :=
  [ ("2025-03-01 00:00:00", mkts 2025 3 1 0); ("2025-03-01 01:00:00", mkts 2025 3 1 1);
    ("2025-03-01 02:00:00", mkts 2025 3 1 2);
    ("01:00 03/01/2025", mkts 2025 3 1 1); ("02:00 03/01/2025", mkts 2025 3 1 2);
    ("03:00 03/01/2025", mkts 2025 3 1 3) ].

(** Consumption at the hours 0, 1 and 2. *)
Definition consumption_hours_012 : CsvTable :=
  mkCsv "time" ["kWh"]
    [ ("2025-03-01 00:00:00", [1%float]); ("2025-03-01 01:00:00", [2%float]);
      ("2025-03-01 02:00:00", [3%float]) ].

(** Prices and temperatures at the hours 1, 2 and 3. *)
Definition price_hours_123 : CsvTable :=
  mkCsv "timestamp" ["Price"; "Temperature"]
    [ ("01:00 03/01/2025", [5%float; (-3)%float]);
      ("02:00 03/01/2025", [6%float; (-2)%float]);
      ("03:00 03/01/2025", [7%float; (-1)%float]) ].

Definition world_hours : World :=
  world_of (Some consumption_hours_012) (Some price_hours_123) hours_times.

(** The consumption file is missing. *)
Definition world_no_consumption : World :=
  world_of None (Some price_hours_123) hours_times.

(** The price file is missing. *)
Definition world_no_price : World :=
  world_of (Some consumption_hours_012) None hours_times.

(** The second date string of the price file does not match the format. *)
Definition world_bad_price_time : World :=
  world_of (Some consumption_hours_012)
    (Some (mkCsv "timestamp" ["Price"; "Temperature"]
       [ ("01:00 03/01/2025", [5%float; (-3)%float]);
         ("2025-03-01T02:00", [6%float; (-2)%float]) ]))
    hours_times.


Definition sample_widgets : Widgets :=
  mkWidgets (mkdate 2025 3 1) (mkdate 2025 3 1) "Daily" "All (Faceted)".

(** The interval of the bin with the label [label]: its first nanosecond,
    and the first nanosecond after it.  A daily bin is the day of its label;
    a weekly bin ends with the day of its label, a Sunday, and starts six
    days before it, on the Monday; a monthly bin runs from its label to the
    first of the next month. *)
Definition bucket_interval (r : rule) (label : Timestamp) : Timestamp * Timestamp :=
  match r with
  | D => (label, label + NS_PER_DAY)
  | W => (label - 6 * NS_PER_DAY, label + NS_PER_DAY)
  | MS => (label, shift_month_start label 1)
  end.

Definition in_bucket (r : rule) (label : Timestamp) (row : Timestamp * list float) : bool :=
  (fst (bucket_interval r label) <=? fst row)
  && (fst row <? snd (bucket_interval r label)).

(** The calendar boundary an edge of the binner sits on: midnight, of a
    Sunday for the weekly rule, of a first of the month for the monthly one. *)
Definition edge_aligned (r : rule) (t : Timestamp) : Prop :=
  t mod NS_PER_DAY = 0 /\
  match r with
  | D => True
  | W => Timestamp_weekday t = 6
  | MS => day (Timestamp_date t) = 1
  end.

(** The calendar boundary a bin starts on: midnight, of a Monday for the
    weekly rule, of a first of the month for the monthly one. *)
Definition start_aligned (r : rule) (t : Timestamp) : Prop :=
  t mod NS_PER_DAY = 0 /\
  match r with
  | D => True
  | W => Timestamp_weekday t = 0
  | MS => day (Timestamp_date t) = 1
  end.

(** Where the label of a bin sits in the bin: on its start, or six days
    after its start, on its last day, for the weekly rule. *)
Definition label_offset (r : rule) : Z :=
  if label_right r then 6 * NS_PER_DAY else 0.

(** The first nanosecond of the bin that starts at the edge [t] of the
    binner: the edge itself, or the midnight after it for the weekly rule,
    whose bins are closed on the right at the last nanosecond of a Sunday. *)
Definition bin_start (r : rule) (t : Timestamp) : Timestamp :=
  if closed_right r then t + NS_PER_DAY else t.

(** The pairs of neighbours of a list. *)
Definition pairs {A} (l : list A) : list (A * A) := combine l (tl l).

(** The label of the bin between two neighbouring edges of the binner. *)
Definition bin_label (r : rule) (p : Timestamp * Timestamp) : Timestamp :=
  if label_right r then snd p else fst p.

(** The months since year 0 of a date. *)
Definition month_index (d : date) : Z := year d * 12 + (month d - 1).

(** Midnight of the first day of the month with the given index. *)
Definition month_start (i : Z) : Timestamp :=
  to_datetime_date (mkdate (i / 12) (i mod 12 + 1) 1).

(** The three tags of the sidebar. *)
Inductive granularity := Daily | Weekly | Monthly.

Definition granularity_tag (g : granularity) : string :=
  match g with
  | Daily => "Daily"
  | Weekly => "Weekly"
  | Monthly => "Monthly"
  end.

Definition granularity_rule (g : granularity) : rule :=
  match g with
  | Daily => D
  | Weekly => W
  | Monthly => MS
  end.

(** [l] is the whole range from [cur] to [end_] by steps of [next]: it starts
    at [cur], each value is the [next] of the one before and is not after
    [end_], and the [next] of the last one is after [end_]. *)
Fixpoint range_chain (next : Timestamp -> Timestamp) (cur end_ : Timestamp)
    (l : list Timestamp) : Prop :=
  match l with
  | [] => end_ < cur
  | x :: l' => x = cur /\ cur <= end_ /\ range_chain next (next cur) end_ l'
  end.

(** The cells of a row of the aggregated frame, for the rows [members] of its
    bin: the consumption and the bill summed, the price and the temperature
    averaged, in the order of the dictionary given to [agg]. *)
Definition bucket_values (ci bi pi ti : nat) (members : list (Timestamp * list float))
    : list float :=
  [ group_sum (map (cell ci) members); group_sum (map (cell bi) members);
    group_mean (map (cell pi) members); group_mean (map (cell ti) members) ].

(** One row on Wednesday 2025-01-01 at noon. *)
Definition one_wednesday : DataFrame :=
  mkDF metric_columns [hourly_row (mkts 2025 1 1 12) 1 2 3].

(** Three hours of one day, with the consumptions 1.0, 2.0 and 3.0. *)
Definition three_hours : DataFrame :=
  mkDF metric_columns
    [ hourly_row (mkts 2025 1 1 0) 1 10 (-4);
      hourly_row (mkts 2025 1 1 1) 2 20 (-2);
      hourly_row (mkts 2025 1 1 2) 3 30 0 ].

(** The two tables of the examples as frames, once their date strings are
    read, and the frame the loader makes of them. *)
Definition consumption_frame_012 : DataFrame :=
  mkDF ["kWh"]
    [ (mkts 2025 3 1 0, [1%float]); (mkts 2025 3 1 1, [2%float]);
      (mkts 2025 3 1 2, [3%float]) ].

Definition price_frame_123 : DataFrame :=
  mkDF ["Price"; "Temperature"]
    [ (mkts 2025 3 1 1, [5%float; (-3)%float]);
      (mkts 2025 3 1 2, [6%float; (-2)%float]);
      (mkts 2025 3 1 3, [7%float; (-1)%float]) ].

Definition loaded_hours : DataFrame :=
  mkDF (map snd loader_columns)
    [ (mkts 2025 3 1 1, [2%float; 5%float; (-3)%float; (2 * (5 / 100))%float]);
      (mkts 2025 3 1 2, [3%float; 6%float; (-2)%float; (3 * (6 / 100))%float]) ].

(** Consumption at the hours 0, 1 and 2, prices at the hours 2 and 3: the
    two files have one hour in common. *)
Definition world_one_common_hour : World :=
  world_of (Some consumption_hours_012)
    (Some (mkCsv "timestamp" ["Price"; "Temperature"]
       [ ("02:00 03/01/2025", [6%float; (-2)%float]);
         ("03:00 03/01/2025", [7%float; (-1)%float]) ]))
    hours_times.

Definition loaded_one_hour : DataFrame :=
  mkDF (map snd loader_columns)
    [ (mkts 2025 3 1 2, [3%float; 6%float; (-2)%float; (3 * (6 / 100))%float]) ].

(** The message of the [KeyError] that [agg] raises on a frame of the
    loader. *)
Definition agg_missing_message : string :=
  "Column(s) ['Bill (€)', 'Temperature (°C)'] do not exist".

(** A table that is read has no column of the name the loader asks for: the
    consumption table has no column [time], or the consumption table loads
    and the price table has no column [timestamp]. *)
Inductive column_missing (w : World) : string -> Prop :=
  | consumption_without_time table :
      read_csv w consumption_path "," "." = Some table ->
      time_name table <> "time" ->
      ~ In "time" (value_names table) ->
      column_missing w "time"
  | price_without_timestamp df_cons table :
      load_consumption w = Return df_cons ->
      read_csv w price_path ";" "," = Some table ->
      time_name table <> "timestamp" ->
      ~ In "timestamp" (value_names table) ->
      column_missing w "timestamp".

(** The dates of the price file are under the column [time]. *)
Definition world_price_without_timestamp : World :=
  world_of (Some consumption_hours_012)
    (Some (mkCsv "time" ["Price"; "Temperature"]
       [ ("01:00 03/01/2025", [5%float; (-3)%float]) ]))
    hours_times.

(** Both files have a column [Temperature]. *)
Definition world_shared_column : World :=
  world_of
    (Some (mkCsv "time" ["kWh"; "Temperature"]
       [ ("2025-03-01 01:00:00", [2%float; (-3)%float]) ]))
    (Some price_hours_123) hours_times.

(** A window that ends before it starts, and a window after the data. *)
Definition inverted_widgets : Widgets :=
  mkWidgets (mkdate 2025 3 2) (mkdate 2025 3 1) "Daily" "All (Faceted)".

Definition april_widgets : Widgets :=
  mkWidgets (mkdate 2025 4 1) (mkdate 2025 4 30) "Daily" "All (Faceted)".

(** The keys of the dictionary of the metrics engine. *)
Definition metric_keys : gset string :=
  {[ "total_consumption"; "total_bill"; "avg_price"; "avg_temp"; "max_consumption";
     "min_consumption"; "price_volatility"; "temp_range"; "daily_avg_consumption";
     "efficiency_score"; "num_days_in_filter" ]}.

(** The tables a chart is drawn from. *)
Fixpoint chart_tables (c : Chart) : list (list (Timestamp * string * float)) :=
  match c with
  | alt_Chart data _ _ => [data]
  | transform_regression data => [data]
  | layer base trend => chart_tables base ++ chart_tables trend
  | facet chart data => chart_tables chart ++ [data]
  | configure chart => chart_tables chart
  end.

(** The long table of the three hours, grouped by day. *)
Definition three_hours_daily : list (Timestamp * string * float) :=
  [ (mkts 2025 1 1 0, "Consumption (kWh)", 6%float);
    (mkts 2025 1 1 0, "Bill (€)",
     (1 * (10 / 100) + 2 * (20 / 100) + 3 * (30 / 100))%float);
    (mkts 2025 1 1 0, "Price (cents/kWh)", 20%float);
    (mkts 2025 1 1 0, "Temperature (°C)", (-2)%float) ].

(** The first days of the calendar months from the month of [start_date] to
    the month of [end_date], both included. *)
Definition calendar_months (start_date end_date : date) : list date :=
  map (fun k =>
         let i := month_index start_date + Z.of_nat k in
         mkdate (i / 12) (i mod 12 + 1) 1)
      (seq 0 (Z.to_nat (month_index end_date - month_index start_date + 1))).

(** An hour at the end of January and an hour at the start of March, with
    no row in February. *)
Definition january_and_march : DataFrame :=
  mkDF metric_columns
    [ hourly_row (mkts 2025 1 31 23) 1 10 (-4);
      hourly_row (mkts 2025 3 1 0) 3 30 0 ].

(** The price file of the examples with its last row first. *)
Definition price_frame_312 : DataFrame :=
  mkDF ["Price"; "Temperature"]
    [ (mkts 2025 3 1 3, [7%float; (-1)%float]);
      (mkts 2025 3 1 1, [5%float; (-3)%float]);
      (mkts 2025 3 1 2, [6%float; (-2)%float]) ].

Definition world_hours_price_312 : World :=
  world_of (Some consumption_hours_012)
    (Some (mkCsv "timestamp" ["Price"; "Temperature"]
       [ ("03:00 03/01/2025", [7%float; (-1)%float]);
         ("01:00 03/01/2025", [5%float; (-3)%float]);
         ("02:00 03/01/2025", [6%float; (-2)%float]) ]))
    hours_times.

(* ================================================================= *)
(** * Properties *)

(** ** The calendar *)

Lemma days_before_year_cycle q400 q100 q4 q1 :
  0 <= q100 <= 3 -> 0 <= q4 <= 24 -> 0 <= q1 <= 3 ->
  days_before_year (q400 * 400 + 1 + q100 * 100 + q4 * 4 + q1)
  = 146097 * q400 + 36524 * q100 + 1461 * q4 + 365 * q1.
Proof.
  intros. unfold days_before_year. cbv zeta.
  Z.div_mod_to_equations. lia.
Qed.

Lemma is_leap_cycle q400 q100 q4 q1 :
  0 <= q100 <= 3 -> 0 <= q4 <= 24 -> 0 <= q1 <= 3 ->
  is_leap (q400 * 400 + 1 + q100 * 100 + q4 * 4 + q1)
  = (q1 =? 3) && (negb (q4 =? 24) || (q100 =? 3)).
Proof.
  intros. unfold is_leap.
  repeat match goal with |- context [?a =? ?b] => destruct (Z.eqb_spec a b) end;
    simpl; try reflexivity; exfalso; Z.div_mod_to_equations; lia.
Qed.

Lemma doy_ok_all (leap : bool) (n : Z) :
  0 <= n < 365 + (if leap then 1 else 0) -> doy_ok leap n = true.
Proof.
  intros Hn.
  assert (H : forallb (fun k : nat => doy_ok leap (Z.of_nat k))
                (List.seq 0 (if leap then 366 else 365)) = true).
  { destruct leap; vm_compute; reflexivity. }
  rewrite forallb_forall in H.
  specialize (H (Z.to_nat n)). rewrite Z2Nat.id in H by lia.
  apply H. apply in_seq. destruct leap; lia.
Qed.

Lemma days_in_month_alt y m :
  days_in_month y m = DAYS_IN_MONTH m + (if (m =? 2) && is_leap y then 1 else 0).
Proof.
  unfold days_in_month. destruct (Z.eqb_spec m 2) as [->|]; simpl; [|lia].
  destruct (is_leap y); reflexivity.
Qed.

Lemma ord2ymd_spec n : valid_date (ord2ymd n) /\ toordinal (ord2ymd n) = n.
Proof.
  unfold ord2ymd, DI400Y, DI100Y, DI4Y. cbv zeta.
  set (a := n - 1).
  set (q400 := a / 146097). set (r1 := a mod 146097).
  set (q100 := r1 / 36524). set (r2 := r1 mod 36524).
  set (q4 := r2 / 1461). set (r3 := r2 mod 1461).
  set (q1 := r3 / 365). set (r4 := r3 mod 365).
  assert (Ha : a = 146097 * q400 + r1 /\ 0 <= r1 < 146097)
    by (subst q400 r1; Z.div_mod_to_equations; lia).
  assert (H1 : r1 = 36524 * q100 + r2 /\ 0 <= r2 < 36524)
    by (subst q100 r2; Z.div_mod_to_equations; lia).
  assert (H2 : r2 = 1461 * q4 + r3 /\ 0 <= r3 < 1461)
    by (subst q4 r3; Z.div_mod_to_equations; lia).
  assert (H3 : r3 = 365 * q1 + r4 /\ 0 <= r4 < 365)
    by (subst q1 r4; Z.div_mod_to_equations; lia).
  clearbody q400 r1 q100 r2 q4 r3 q1 r4.
  destruct ((q1 =? 4) || (q100 =? 4)) eqn:Hsp.
  - unfold valid_date, toordinal, ymd2ord, days_in_month, days_before_month,
      days_before_year, is_leap; simpl year; simpl month; simpl day.
    cbv zeta.
    apply orb_true_iff in Hsp. rewrite !Z.eqb_eq in Hsp.
    split.
    + simpl. lia.
    + change (2 <? 12) with true. rewrite andb_true_l.
      change (DAYS_BEFORE_MONTH 12) with 334.
      repeat match goal with |- context [?x =? ?y] => destruct (Z.eqb_spec x y) end;
        simpl; Z.div_mod_to_equations; lia.
  - apply orb_false_iff in Hsp. rewrite !Z.eqb_neq in Hsp.
    set (leap := (q1 =? 3) && (negb (q4 =? 24) || (q100 =? 3))).
    pose proof (doy_ok_all leap r4) as Hok.
    unfold doy_ok in Hok.
    destruct (doy2md leap r4) as [m d].
    assert (Hr : 0 <= r4 < 365 + (if leap then 1 else 0)) by (destruct leap; lia).
    specialize (Hok Hr).
    rewrite !andb_true_iff in Hok.
    destruct Hok as [[[[Hm1 Hm2] Hd1] Hd2] Hsum].
    apply Z.leb_le in Hm1, Hm2, Hd1, Hd2. apply Z.eqb_eq in Hsum.
    assert (Hq100 : 0 <= q100 <= 3) by lia.
    assert (Hq4 : 0 <= q4 <= 24) by lia.
    assert (Hq1 : 0 <= q1 <= 3) by lia.
    unfold valid_date, toordinal, ymd2ord, days_before_month. simpl year; simpl month; simpl day.
    rewrite days_in_month_alt, is_leap_cycle, days_before_year_cycle by assumption.
    fold leap. lia.
Qed.

Lemma days_before_year_succ y :
  days_before_year (y + 1) = days_before_year y + 365 + (if is_leap y then 1 else 0).
Proof.
  unfold days_before_year, is_leap. cbv zeta.
  replace (y + 1 - 1) with y by lia.
  repeat match goal with |- context [?a =? ?b] => destruct (Z.eqb_spec a b) end;
    simpl; Z.div_mod_to_equations; lia.
Qed.

Lemma days_before_year_mono y1 y2 :
  y1 <= y2 -> days_before_year y1 <= days_before_year y2.
Proof.
  intros H. replace y2 with (y1 + Z.of_nat (Z.to_nat (y2 - y1))) by lia.
  induction (Z.to_nat (y2 - y1)) as [|k IH].
  - rewrite Z.add_0_r. lia.
  - rewrite Nat2Z.inj_succ, <- Z.add_1_r, Z.add_assoc, days_before_year_succ.
    destruct (is_leap _); lia.
Qed.

Lemma month_cases m : 1 <= m <= 12 ->
  m = 1 \/ m = 2 \/ m = 3 \/ m = 4 \/ m = 5 \/ m = 6 \/
  m = 7 \/ m = 8 \/ m = 9 \/ m = 10 \/ m = 11 \/ m = 12.
Proof. lia. Qed.

Ltac month_split H := apply month_cases in H; repeat destruct H as [H|H]; subst.

Lemma days_before_month_mono y m1 m2 :
  1 <= m1 <= 12 -> 1 <= m2 <= 12 -> m1 < m2 ->
  days_before_month y m1 + days_in_month y m1 <= days_before_month y m2.
Proof.
  intros H1 H2 Hlt. unfold days_before_month, days_in_month.
  month_split H1; month_split H2; try lia; destruct (is_leap y); simpl; lia.
Qed.

Lemma days_before_month_bounds y m :
  1 <= m <= 12 ->
  0 <= days_before_month y m /\
  days_before_month y m + days_in_month y m <= 365 + (if is_leap y then 1 else 0).
Proof.
  intros H. unfold days_before_month, days_in_month.
  month_split H; destruct (is_leap y); simpl; lia.
Qed.

Lemma toordinal_cmp a b :
  valid_date a -> valid_date b ->
  (toordinal a ?= toordinal b) = date_cmp a b.
Proof.
  destruct a as [y1 m1 d1], b as [y2 m2 d2].
  unfold valid_date, toordinal, ymd2ord, date_cmp. simpl.
  intros [Hm1 Hd1] [Hm2 Hd2].
  pose proof (days_before_month_bounds y1 m1 Hm1).
  pose proof (days_before_month_bounds y2 m2 Hm2).
  destruct (Z.compare_spec y1 y2) as [->|Hy|Hy].
  - destruct (Z.compare_spec m1 m2) as [->|Hm|Hm].
    + destruct (Z.compare_spec d1 d2); [apply Z.compare_eq_iff|apply Z.compare_lt_iff|apply Z.compare_gt_iff]; lia.
    + pose proof (days_before_month_mono y2 m1 m2 Hm1 Hm2 Hm).
      apply Z.compare_lt_iff. lia.
    + pose proof (days_before_month_mono y2 m2 m1 Hm2 Hm1 Hm).
      apply Z.compare_gt_iff. lia.
  - assert (Hs : days_before_year (y1 + 1) <= days_before_year y2)
      by (apply days_before_year_mono; lia).
    rewrite days_before_year_succ in Hs.
    apply Z.compare_lt_iff. lia.
  - assert (Hs : days_before_year (y2 + 1) <= days_before_year y1)
      by (apply days_before_year_mono; lia).
    rewrite days_before_year_succ in Hs.
    apply Z.compare_gt_iff. lia.
Qed.

Lemma date_cmp_eq a b : date_cmp a b = Eq -> a = b.
Proof.
  destruct a as [y1 m1 d1], b as [y2 m2 d2]. unfold date_cmp. simpl.
  destruct (Z.compare_spec y1 y2); try discriminate.
  destruct (Z.compare_spec m1 m2); try discriminate.
  destruct (Z.compare_spec d1 d2); try discriminate.
  intros _. congruence.
Qed.

Lemma toordinal_inj a b :
  valid_date a -> valid_date b -> toordinal a = toordinal b -> a = b.
Proof.
  intros Ha Hb H. apply date_cmp_eq. rewrite <- toordinal_cmp by assumption.
  apply Z.compare_eq_iff. exact H.
Qed.

Lemma fromordinal_toordinal d : valid_date d -> fromordinal (toordinal d) = d.
Proof.
  intros Hd. unfold fromordinal.
  destruct (ord2ymd_spec (toordinal d)) as [Hv He].
  apply toordinal_inj; assumption.
Qed.

Lemma toordinal_fromordinal n : toordinal (fromordinal n) = n.
Proof. apply ord2ymd_spec. Qed.

Lemma fromordinal_valid n : valid_date (fromordinal n).
Proof. apply ord2ymd_spec. Qed.

Lemma valid_dateb_spec d : valid_dateb d = true <-> valid_date d.
Proof.
  unfold valid_dateb, valid_date. rewrite !andb_true_iff, !Z.leb_le. tauto.
Qed.

Lemma date_cmp_antisym a b : date_cmp b a = CompOpp (date_cmp a b).
Proof.
  unfold date_cmp.
  rewrite (Z.compare_antisym (year a) (year b)),
          (Z.compare_antisym (month a) (month b)),
          (Z.compare_antisym (day a) (day b)).
  destruct (year a ?= year b); simpl; try reflexivity.
  destruct (month a ?= month b); simpl; reflexivity.
Qed.

Lemma date_cmp_refl a : date_cmp a a = Eq.
Proof. unfold date_cmp. rewrite !Z.compare_refl. reflexivity. Qed.

Lemma date_le_refl a : date_le a a = true.
Proof. unfold date_le. rewrite date_cmp_refl. reflexivity. Qed.


Lemma date_gt_lt a b : date_gt a b = date_lt b a.
Proof.
  unfold date_gt, date_lt. rewrite (date_cmp_antisym a b).
  destruct (date_cmp a b); reflexivity.
Qed.

Lemma date_le_ord a b :
  valid_date a -> valid_date b ->
  date_le a b = true <-> toordinal a <= toordinal b.
Proof.
  intros Ha Hb. unfold date_le. rewrite <- toordinal_cmp by assumption.
  destruct (Z.compare_spec (toordinal a) (toordinal b)); split; intros; (lia || congruence).
Qed.

Lemma date_gt_ord a b :
  valid_date a -> valid_date b ->
  date_gt a b = true <-> toordinal b < toordinal a.
Proof.
  intros Ha Hb. unfold date_gt. rewrite <- toordinal_cmp by assumption.
  destruct (Z.compare_spec (toordinal a) (toordinal b)); split; intros; (lia || congruence).
Qed.

Lemma date_lt_ord a b :
  valid_date a -> valid_date b ->
  date_lt a b = true <-> toordinal a < toordinal b.
Proof. intros. rewrite <- date_gt_lt. apply date_gt_ord; assumption. Qed.

(** ** Timestamps *)

Lemma NS_PER_DAY_pos : 0 < NS_PER_DAY.
Proof. reflexivity. Qed.

Lemma Timestamp_date_valid t : valid_date (Timestamp_date t).
Proof. apply fromordinal_valid. Qed.

Lemma toordinal_Timestamp_date t :
  toordinal (Timestamp_date t) = t / NS_PER_DAY + EPOCH_ORDINAL.
Proof. apply toordinal_fromordinal. Qed.

Lemma Timestamp_date_offset d k :
  valid_date d -> 0 <= k < NS_PER_DAY ->
  Timestamp_date (to_datetime_date d + k) = d.
Proof.
  intros Hd Hk. unfold Timestamp_date, to_datetime_date.
  rewrite Z.div_add_l by (pose proof NS_PER_DAY_pos; lia).
  rewrite Z.div_small by assumption.
  replace (toordinal d - EPOCH_ORDINAL + 0 + EPOCH_ORDINAL) with (toordinal d) by lia.
  apply fromordinal_toordinal, Hd.
Qed.

Lemma Timestamp_date_midnight d :
  valid_date d -> Timestamp_date (to_datetime_date d) = d.
Proof.
  intros Hd. rewrite <- (Z.add_0_r (to_datetime_date d)).
  apply Timestamp_date_offset; [assumption | pose proof NS_PER_DAY_pos; lia].
Qed.

Lemma day_lower_bound_le d t :
  valid_date d ->
  day_lower_bound d <= t <-> date_le d (Timestamp_date t) = true.
Proof.
  intros Hd. rewrite date_le_ord by (auto using Timestamp_date_valid).
  rewrite toordinal_Timestamp_date. unfold day_lower_bound, to_datetime_date.
  pose proof NS_PER_DAY_pos as Hpos.
  split; intros H.
  - assert (toordinal d - EPOCH_ORDINAL <= t / NS_PER_DAY)
      by (apply Z.div_le_lower_bound; lia).
    lia.
  - pose proof (Z.mul_div_le t NS_PER_DAY Hpos). nia.
Qed.

Lemma day_upper_bound_ge d t :
  valid_date d ->
  t <= day_upper_bound d <-> date_le (Timestamp_date t) d = true.
Proof.
  intros Hd. rewrite date_le_ord by (auto using Timestamp_date_valid).
  rewrite toordinal_Timestamp_date. unfold day_upper_bound, to_datetime_date.
  pose proof NS_PER_DAY_pos as Hpos.
  split; intros H.
  - assert (t / NS_PER_DAY < toordinal d - EPOCH_ORDINAL + 1)
      by (apply Z.div_lt_upper_bound; lia).
    lia.
  - pose proof (Z.mod_pos_bound t NS_PER_DAY Hpos).
    pose proof (Z.div_mod t NS_PER_DAY). nia.
Qed.

Lemma in_range_date_in_window s e r :
  valid_date s -> valid_date e ->
  in_range (day_lower_bound s) (day_upper_bound e) r = date_in_window s e r.
Proof.
  intros Hs He. unfold in_range, date_in_window.
  apply eq_true_iff_eq. rewrite !andb_true_iff, !Z.leb_le.
  rewrite day_lower_bound_le, day_upper_bound_ge by assumption. reflexivity.
Qed.

(** ** Slicing a frame whose index is in ascending order *)

Lemma is_monotonic_increasing_cons t ts :
  is_monotonic_increasing (t :: ts) = true ->
  is_monotonic_increasing ts = true /\ Forall (fun u => t <= u) ts.
Proof.
  revert t. induction ts as [|u ts IH]; intros t H.
  - split; [reflexivity | constructor].
  - change (((t <=? u) && is_monotonic_increasing (u :: ts)) = true) in H.
    apply andb_true_iff in H. destruct H as [Htu Hm].
    apply Z.leb_le in Htu. split; [exact Hm|].
    constructor; [exact Htu|].
    destruct (IH u Hm) as [_ Hall].
    eapply List.Forall_impl; [|exact Hall]. simpl. intros; lia.
Qed.

Section SortedRows.

Variables lo hi : Timestamp.

Lemma filter_in_range_above (k : Timestamp) (l : list (Timestamp * list float)) :
  hi < k -> Forall (fun u => k <= u) (map fst l) ->
  List.filter (in_range lo hi) l = [].
Proof.
  intros Hk. induction l as [|x l IH]; simpl; intros Hall; [reflexivity|].
  inversion Hall as [|? ? Hx Hl]; subst.
  unfold in_range at 1.
  replace (fst x <=? hi) with false by (symmetry; apply Z.leb_gt; lia).
  rewrite andb_false_r. apply IH, Hl.
Qed.

Lemma searchsorted_left_above (k : Timestamp) (idx : list Timestamp) :
  lo <= k -> Forall (fun u => k <= u) idx -> searchsorted_left idx lo = O.
Proof.
  intros Hk Hall. unfold searchsorted_left.
  destruct Hall as [|u idx Hu _]; simpl; [reflexivity|].
  replace (u <? lo) with false by (symmetry; apply Z.ltb_ge; lia).
  reflexivity.
Qed.

(** Between the two positions found by bisection lie the rows whose index
    value is in [lo, hi], and no other. *)
Lemma py_slice_searchsorted (l : list (Timestamp * list float)) :
  is_monotonic_increasing (map fst l) = true ->
  py_slice (searchsorted_left (map fst l) lo) (searchsorted_right (map fst l) hi) l
  = List.filter (in_range lo hi) l.
Proof.
  induction l as [|x l IH]; intros Hm; [reflexivity|].
  simpl map in Hm. apply is_monotonic_increasing_cons in Hm.
  destruct Hm as [Hm Hall]. specialize (IH Hm).
  unfold py_slice, searchsorted_left, searchsorted_right in *.
  simpl map. simpl take_while. simpl List.filter. unfold in_range at 1.
  destruct (Z.ltb_spec (fst x) lo) as [Hlo|Hlo];
    destruct (Z.leb_spec (fst x) hi) as [Hhi|Hhi]; simpl length.
  - replace (lo <=? fst x) with false by (symmetry; apply Z.leb_gt; lia).
    simpl. exact IH.
  - replace (lo <=? fst x) with false by (symmetry; apply Z.leb_gt; lia).
    simpl. symmetry. apply (filter_in_range_above (fst x)); [lia | exact Hall].
  - replace (lo <=? fst x) with true by (symmetry; apply Z.leb_le; lia).
    simpl. f_equal.
    pose proof (searchsorted_left_above (fst x) (map fst l) Hlo Hall) as H0.
    unfold searchsorted_left in H0. rewrite H0 in IH.
    rewrite Nat.sub_0_r in IH. exact IH.
  - rewrite andb_false_r. simpl.
    symmetry. apply (filter_in_range_above (fst x)); [lia | exact Hall].
Qed.

End SortedRows.

Lemma loc_slice_monotonic df lo hi :
  is_monotonic_increasing (index df) = true ->
  loc_slice df lo hi = Return (mkDF (columns df) (List.filter (in_range lo hi) (rows df))).
Proof.
  intros Hm. unfold loc_slice. rewrite Hm. unfold index in *.
  rewrite py_slice_searchsorted by exact Hm. reflexivity.
Qed.

Lemma filter_ext_rows (f g : Timestamp * list float -> bool) l :
  (forall r, f r = g r) -> List.filter f l = List.filter g l.
Proof. intros H. apply List.filter_ext. exact H. Qed.

Lemma filter_nil_iff {A} (f : A -> bool) (l : list A) :
  List.filter f l = [] <-> forall x, In x l -> f x = false.
Proof.
  induction l as [|a l IH]; simpl.
  - split; [intros _ x [] | reflexivity].
  - destruct (f a) eqn:E; split.
    + discriminate.
    + intros H. specialize (H a (or_introl eq_refl)). congruence.
    + intros H x [<-|Hx]; [exact E | apply IH; assumption].
    + intros H. apply IH. intros x Hx. apply H. right. exact Hx.
Qed.

(** The days in bounds are those from 1677-09-22 to 2262-04-10. *)
Lemma in_bounds_days d :
  valid_date d ->
  in_bounds d
  <-> date_le (mkdate 1677 9 22) d = true /\ date_le d (mkdate 2262 4 10) = true.
Proof.
  intros Hd.
  assert (Hlo : valid_date (mkdate 1677 9 22)) by (apply valid_dateb_spec; reflexivity).
  assert (Hhi : valid_date (mkdate 2262 4 10)) by (apply valid_dateb_spec; reflexivity).
  rewrite (date_le_ord _ _ Hlo Hd), (date_le_ord _ _ Hd Hhi).
  change (toordinal (mkdate 1677 9 22)) with 612412.
  change (toordinal (mkdate 2262 4 10)) with 825913.
  unfold in_bounds, to_datetime_date, Timestamp_min, Timestamp_max, NS_PER_DAY,
    EPOCH_ORDINAL.
  generalize (toordinal d). intros q. lia.
Qed.

(** The day before the first and the day after the last have a start that no
    [Timestamp] holds. *)
Example in_bounds_ends :
  in_bounds (mkdate 1677 9 22) /\ in_bounds (mkdate 2262 4 10)
  /\ to_datetime_date (mkdate 1677 9 21) < Timestamp_min
  /\ Timestamp_max < to_datetime_date (mkdate 2262 4 11) + NS_PER_DAY.
Proof. vm_compute. repeat split; discriminate. Qed.

(** C1. On a dataset (a frame whose index is in ascending order) and a
    window of two dates with start <= end, both among the days pandas can
    take as slice bounds (1677-09-22 to 2262-04-10), the date-range filter
    returns, in order, exactly the rows whose calendar date lies in the
    window, both ends included: every row of the output has its date in the
    window, and the output has no row iff no row of the source has its date
    in the window. *)
Theorem filter_data_by_date_range_spec (df : DataFrame) (start_date end_date : date) :
  valid_date start_date -> valid_date end_date ->
  in_bounds start_date -> in_bounds end_date ->
  date_le start_date end_date = true ->
  is_monotonic_increasing (index df) = true ->
  exists out,
    filter_data_by_date_range df start_date end_date = Return out
    /\ columns out = columns df
    /\ rows out = List.filter (date_in_window start_date end_date) (rows df)
    /\ Forall (fun r => date_le start_date (Timestamp_date (fst r)) = true
                        /\ date_le (Timestamp_date (fst r)) end_date = true) (rows out)
    /\ (rows out = [] <->
        forall r, In r (rows df) -> date_in_window start_date end_date r = false).
Proof.
  intros Hs He _ _ _ Hm.
  exists (mkDF (columns df) (List.filter (date_in_window start_date end_date) (rows df))).
  split; [|split; [reflexivity|split; [reflexivity|split]]].
  - unfold filter_data_by_date_range. rewrite loc_slice_monotonic by exact Hm.
    f_equal. f_equal. apply filter_ext_rows. intros r.
    apply in_range_date_in_window; assumption.
  - simpl. apply List.Forall_forall. intros r Hr. apply filter_In in Hr.
    destruct Hr as [_ Hr]. unfold date_in_window in Hr.
    apply andb_true_iff in Hr. exact Hr.
  - simpl. apply filter_nil_iff.
Qed.

Lemma filter_data_by_date_range_spec_witness :
  exists out,
    filter_data_by_date_range march_2025 (mkdate 2025 3 1) (mkdate 2025 3 2) = Return out
    /\ columns out = columns march_2025
    /\ rows out = List.filter (date_in_window (mkdate 2025 3 1) (mkdate 2025 3 2))
                              (rows march_2025)
    /\ Forall (fun r => date_le (mkdate 2025 3 1) (Timestamp_date (fst r)) = true
                        /\ date_le (Timestamp_date (fst r)) (mkdate 2025 3 2) = true)
              (rows out)
    /\ (rows out = [] <->
        forall r, In r (rows march_2025) ->
                  date_in_window (mkdate 2025 3 1) (mkdate 2025 3 2) r = false).
Proof.
  apply filter_data_by_date_range_spec.
  - apply valid_dateb_spec. reflexivity.
  - apply valid_dateb_spec. reflexivity.
  - split; vm_compute; discriminate.
  - split; vm_compute; discriminate.
  - reflexivity.
  - reflexivity.
Defined.

(** The rows of the example that the window of the first two days of March
    keeps. *)
Example filter_march_first_two_days :
  filter_data_by_date_range march_2025 (mkdate 2025 3 1) (mkdate 2025 3 2)
  = Return (mkDF metric_columns
      [ hourly_row (mkts 2025 3 1 0) 1 2 (-3);
        hourly_row (mkts 2025 3 1 1) 2 4 (-2);
        hourly_row (mkts 2025 3 2 0) 3 6 (-1) ]).
Proof. vm_compute. reflexivity. Qed.

(** On an index that is not in ascending order the slice is refused unless
    both bounds occur in the index. *)
Example filter_unsorted_raises :
  filter_data_by_date_range
    (mkDF metric_columns
       [ hourly_row (mkts 2025 3 2 0) 3 6 (-1); hourly_row (mkts 2025 3 1 1) 2 4 (-2) ])
    (mkdate 2025 3 1) (mkdate 2025 3 2)
  = Raise (KeyError non_monotonic_message).
Proof. vm_compute. reflexivity. Qed.

(** ** Filtering a dataset to its own range *)

Lemma list_min_spec t ts :
  list_min t ts <= t /\ Forall (fun u => list_min t ts <= u) ts.
Proof.
  unfold list_min. revert t. induction ts as [|u ts IH]; intros t; simpl.
  - split; [lia | constructor].
  - destruct (IH (Z.min t u)) as [H1 H2]. split; [lia|].
    constructor; [lia | exact H2].
Qed.

Lemma list_max_spec t ts :
  t <= list_max t ts /\ Forall (fun u => u <= list_max t ts) ts.
Proof.
  unfold list_max. revert t. induction ts as [|u ts IH]; intros t; simpl.
  - split; [lia | constructor].
  - destruct (IH (Z.max t u)) as [H1 H2]. split; [lia|].
    constructor; [lia | exact H2].
Qed.

Lemma list_min_le_max t ts : list_min t ts <= list_max t ts.
Proof.
  pose proof (list_min_spec t ts). pose proof (list_max_spec t ts). lia.
Qed.

Lemma list_min_max_bounds t ts u :
  In u (t :: ts) -> list_min t ts <= u <= list_max t ts.
Proof.
  destruct (list_min_spec t ts) as [H1 H2].
  destruct (list_max_spec t ts) as [H3 H4].
  rewrite List.Forall_forall in H2, H4.
  intros [<-|Hu]; [lia|]. specialize (H2 u Hu). specialize (H4 u Hu). lia.
Qed.

Lemma day_lower_bound_own t : day_lower_bound (Timestamp_date t) <= t.
Proof.
  apply day_lower_bound_le; [apply Timestamp_date_valid | apply date_le_refl].
Qed.

Lemma day_upper_bound_own t : t <= day_upper_bound (Timestamp_date t).
Proof.
  apply day_upper_bound_ge; [apply Timestamp_date_valid | apply date_le_refl].
Qed.

Lemma filter_all {A} (f : A -> bool) (l : list A) :
  (forall x, In x l -> f x = true) -> List.filter f l = l.
Proof.
  induction l as [|a l IH]; simpl; intros H; [reflexivity|].
  rewrite (H a (or_introl eq_refl)). f_equal. apply IH.
  intros x Hx. apply H. right. exact Hx.
Qed.

(** C9. Filtering a dataset (a frame with at least one row whose index is in
    ascending order) by the window from the calendar date of its smallest
    index value to the calendar date of its largest one returns the dataset
    itself, row for row. *)
Theorem filter_own_range_identity (df : DataFrame) (t : Timestamp) (ts : list Timestamp) :
  index df = t :: ts ->
  is_monotonic_increasing (index df) = true ->
  filter_data_by_date_range df (Timestamp_date (list_min t ts))
                               (Timestamp_date (list_max t ts))
  = Return df.
Proof.
  intros Hidx Hm. unfold filter_data_by_date_range.
  rewrite loc_slice_monotonic by exact Hm.
  rewrite filter_all; [destruct df; reflexivity|].
  intros r Hr.
  assert (Hin : In (fst r) (t :: ts)) by (rewrite <- Hidx; apply in_map; exact Hr).
  pose proof (list_min_max_bounds t ts (fst r) Hin) as Hb.
  pose proof (day_lower_bound_own (list_min t ts)).
  pose proof (day_upper_bound_own (list_max t ts)).
  unfold in_range. apply andb_true_iff. rewrite !Z.leb_le. lia.
Qed.

Lemma filter_own_range_identity_witness :
  filter_data_by_date_range march_2025
    (Timestamp_date (list_min (mkts 2025 3 1 0)
                              [mkts 2025 3 1 1; mkts 2025 3 2 0; mkts 2025 3 15 23]))
    (Timestamp_date (list_max (mkts 2025 3 1 0)
                              [mkts 2025 3 1 1; mkts 2025 3 2 0; mkts 2025 3 15 23]))
  = Return march_2025.
Proof.
  apply filter_own_range_identity; reflexivity.
Defined.

(** ** The default window *)

Lemma days_in_month_pos y m : 1 <= m <= 12 -> 28 <= days_in_month y m <= 31.
Proof.
  intros H. unfold days_in_month. month_split H; destruct (is_leap y); simpl; lia.
Qed.

Lemma previous_month_spec d :
  valid_date d ->
  let pf := fst (previous_month d) in
  let pl := snd (previous_month d) in
  valid_date pf /\ valid_date pl
  /\ day pf = 1 /\ year pl = year pf /\ month pl = month pf
  /\ day pl = days_in_month (year pl) (month pl)
  /\ toordinal pl + 1 = toordinal (mkdate (year d) (month d) 1)
  /\ toordinal pf <= toordinal pl < toordinal d.
Proof.
  destruct d as [y m dd]. unfold valid_date, previous_month. simpl.
  intros [Hm Hd].
  destruct (Z.eqb_spec m 1) as [->|Hm1]; simpl.
  - unfold toordinal, ymd2ord. simpl.
    pose proof (days_before_year_succ (y - 1)) as Hs.
    replace (y - 1 + 1) with y in Hs by lia.
    unfold days_in_month, days_before_month. simpl.
    destruct (is_leap (y - 1)), (is_leap y); simpl; lia.
  - assert (Hp : 1 <= m - 1 <= 12) by lia.
    pose proof (days_in_month_pos y (m - 1) Hp) as Hdim.
    unfold toordinal, ymd2ord. simpl.
    assert (Hk : days_before_month y (m - 1) + days_in_month y (m - 1)
                 = days_before_month y m).
    { unfold days_before_month, days_in_month.
      month_split Hm; try lia; destruct (is_leap y); simpl; lia. }
    assert (H0 : 0 <= days_before_month y (m - 1) /\ days_before_month y (m - 1) + 1 <= days_before_month y m).
    { pose proof (days_before_month_bounds y (m - 1) Hp). lia. }
    repeat split; try lia.
Qed.

Lemma to_datetime_date_mod d : to_datetime_date d mod NS_PER_DAY = 0.
Proof. unfold to_datetime_date. apply Z.mod_mul. discriminate. Qed.

Lemma Timestamp_replace_day_midnight d k :
  valid_date d ->
  Timestamp_replace_day (to_datetime_date d) k
  = to_datetime_date (mkdate (year d) (month d) k).
Proof.
  intros Hd. unfold Timestamp_replace_day.
  rewrite Timestamp_date_midnight by exact Hd.
  rewrite to_datetime_date_mod. lia.
Qed.

Lemma to_datetime_date_eq a b :
  toordinal a = toordinal b -> to_datetime_date a = to_datetime_date b.
Proof. unfold to_datetime_date. intros ->. reflexivity. Qed.

Lemma Timestamp_date_mono t u :
  t <= u -> date_le (Timestamp_date t) (Timestamp_date u) = true.
Proof.
  intros H. apply date_le_ord; try apply Timestamp_date_valid.
  rewrite !toordinal_Timestamp_date.
  pose proof (Z.div_le_mono t u NS_PER_DAY NS_PER_DAY_pos H). lia.
Qed.

(** What the calculator computes, in terms of the month before the month of
    the last date. *)
Lemma calculate_default_date_range_eq cols t vs rest :
  let min_date := Timestamp_date (list_min t (map fst rest)) in
  let max_date := Timestamp_date (list_max t (map fst rest)) in
  let pf := fst (previous_month max_date) in
  let pl := snd (previous_month max_date) in
  calculate_default_date_range (mkDF cols ((t, vs) :: rest))
  = Some (if date_gt min_date pl then (min_date, max_date)
          else if date_gt pf min_date then (pf, pl)
          else (min_date, pl)).
Proof.
  intros min_date max_date pf pl.
  unfold calculate_default_date_range, index. cbn [rows map fst].
  cbv zeta.
  change (Timestamp_date (list_min t (map fst rest))) with min_date.
  change (Timestamp_date (list_max t (map fst rest))) with max_date.
  assert (Hmax : valid_date max_date) by apply Timestamp_date_valid.
  assert (Hmin : valid_date min_date) by apply Timestamp_date_valid.
  destruct (previous_month_spec max_date Hmax)
    as (Hpf & Hpl & Hd1 & Hy & Hm & Hdl & Hsucc & Hord).
  change (fst (previous_month max_date)) with pf in Hpf, Hpl, Hd1, Hy, Hm, Hdl, Hsucc, Hord.
  change (snd (previous_month max_date)) with pl in Hpf, Hpl, Hd1, Hy, Hm, Hdl, Hsucc, Hord.
  clearbody pf pl. clearbody min_date max_date.
  rewrite Timestamp_replace_day_midnight by exact Hmax.
  assert (Hend : to_datetime_date (mkdate (year max_date) (month max_date) 1)
                 - 1 * NS_PER_DAY = to_datetime_date pl).
  { unfold to_datetime_date. rewrite <- Hsucc. lia. }
  rewrite Hend.
  rewrite Timestamp_replace_day_midnight by exact Hpl.
  assert (Hpf' : mkdate (year pl) (month pl) 1 = pf).
  { destruct pf as [a b c]. simpl in *. congruence. }
  rewrite Hpf'. rewrite !Timestamp_date_midnight by assumption.
  assert (Hmin_pl : py_min max_date pl = pl).
  { unfold py_min.
    replace (date_lt pl max_date) with true; [reflexivity|].
    symmetry. apply date_lt_ord; [assumption..|lia]. }
  rewrite Hmin_pl. unfold py_max.
  destruct (date_gt pf min_date) eqn:Hgt.
  - assert (Hpm : toordinal min_date < toordinal pf)
      by (apply date_gt_ord in Hgt; assumption).
    replace (date_gt pf pl) with false.
    2:{ symmetry. apply not_true_iff_false. rewrite date_gt_ord by assumption. lia. }
    replace (date_gt min_date pl) with false.
    2:{ symmetry. apply not_true_iff_false. rewrite date_gt_ord by assumption. lia. }
    reflexivity.
  - destruct (date_gt min_date pl); reflexivity.
Qed.

(** C3, as the code has it.  For a dataset with at least one row, let P be
    the calendar month before the month of the last date: P runs from a first
    of the month to the last day of that month, and the day after it is the
    first of the month of the last date.  The calculator returns P when the
    data starts on or before the first day of P; it returns (first date of
    the data, last day of P) when the data starts inside P; and it returns
    the full range (first date, last date) when the data starts after P. *)
Theorem calculate_default_date_range_spec cols t vs rest :
  let min_date := Timestamp_date (list_min t (map fst rest)) in
  let max_date := Timestamp_date (list_max t (map fst rest)) in
  let pf := fst (previous_month max_date) in
  let pl := snd (previous_month max_date) in
  calculate_default_date_range (mkDF cols ((t, vs) :: rest))
  = Some (if date_gt min_date pl then (min_date, max_date)
          else if date_gt pf min_date then (pf, pl)
          else (min_date, pl))
  /\ valid_date pf /\ valid_date pl
  /\ day pf = 1 /\ year pl = year pf /\ month pl = month pf
  /\ day pl = days_in_month (year pl) (month pl)
  /\ toordinal pl + 1 = toordinal (mkdate (year max_date) (month max_date) 1)
  /\ date_lt pl max_date = true.
Proof.
  intros min_date max_date pf pl.
  split; [apply calculate_default_date_range_eq|].
  assert (Hmax : valid_date max_date) by apply Timestamp_date_valid.
  destruct (previous_month_spec max_date Hmax)
    as (Hpf & Hpl & Hd1 & Hy & Hm & Hdl & Hsucc & Hord).
  repeat (split; [assumption|]).
  apply date_lt_ord; [assumption..|]. apply Hord.
Qed.

(** The example of the specification: data from 2015-01-01 to 2025-03-15. *)
Example default_window_2015_2025 :
  calculate_default_date_range (index_only [mkts 2015 1 1 0; mkts 2025 3 15 23])
  = Some (mkdate 2025 2 1, mkdate 2025 2 28).
Proof. vm_compute. reflexivity. Qed.

(** C3 as stated fails: for data from 2025-02-10 to 2025-03-15 the result is
    neither the complete month of February 2025 nor the full range of the
    data. *)
Lemma default_window_partial_month :
  calculate_default_date_range (index_only [mkts 2025 2 10 0; mkts 2025 3 15 23])
  = Some (mkdate 2025 2 10, mkdate 2025 2 28)
  /\ (mkdate 2025 2 10, mkdate 2025 2 28) <> previous_month (mkdate 2025 3 15)
  /\ (mkdate 2025 2 10, mkdate 2025 2 28)
     <> (Timestamp_date (mkts 2025 2 10 0), Timestamp_date (mkts 2025 3 15 23)).
Proof.
  split; [vm_compute; reflexivity|].
  split; vm_compute; intros H; discriminate H.
Qed.

(** C10. For a dataset with at least one row the calculator returns a pair
    (start, end) with first date of the data <= start <= end <= last date of
    the data. *)
Theorem calculate_default_date_range_within_data cols t vs rest :
  exists start_date end_date,
    calculate_default_date_range (mkDF cols ((t, vs) :: rest))
    = Some (start_date, end_date)
    /\ date_le (Timestamp_date (list_min t (map fst rest))) start_date = true
    /\ date_le start_date end_date = true
    /\ date_le end_date (Timestamp_date (list_max t (map fst rest))) = true.
Proof.
  rewrite calculate_default_date_range_eq.
  set (min_date := Timestamp_date (list_min t (map fst rest))).
  set (max_date := Timestamp_date (list_max t (map fst rest))).
  assert (Hmax : valid_date max_date) by apply Timestamp_date_valid.
  assert (Hmin : valid_date min_date) by apply Timestamp_date_valid.
  assert (Hmm : date_le min_date max_date = true)
    by apply Timestamp_date_mono, list_min_le_max.
  destruct (previous_month_spec max_date Hmax)
    as (Hpf & Hpl & Hd1 & Hy & Hm & Hdl & Hsucc & Hord).
  set (pf := fst (previous_month max_date)) in *.
  set (pl := snd (previous_month max_date)) in *.
  destruct (date_gt min_date pl) eqn:Hfall.
  - exists min_date, max_date. rewrite !date_le_refl. auto.
  - apply not_true_iff_false in Hfall. rewrite date_gt_ord in Hfall by assumption.
    destruct (date_gt pf min_date) eqn:Hgt.
    + apply date_gt_ord in Hgt; [|assumption..].
      exists pf, pl. split; [reflexivity|].
      rewrite !date_le_ord by assumption. lia.
    + apply not_true_iff_false in Hgt. rewrite date_gt_ord in Hgt by assumption.
      exists min_date, pl. split; [reflexivity|].
      rewrite date_le_refl. rewrite !date_le_ord by assumption. lia.
Qed.

(** A dataset inside one month: the defaults are its own range. *)
Example default_window_short_data :
  calculate_default_date_range (index_only [mkts 2025 3 3 0; mkts 2025 3 15 23])
  = Some (mkdate 2025 3 3, mkdate 2025 3 15).
Proof. vm_compute. reflexivity. Qed.

(** ** Sums *)

Lemma fold_add_zeros a :
  Forall (eq 0%float) a -> fold_left PrimFloat.add a 0%float = 0%float.
Proof.
  induction 1 as [|x a <- _ IH]; [reflexivity|]. simpl. exact IH.
Qed.

Lemma add_lanes_zeros blocks r a :
  Forall (eq 0%float) r -> Forall (eq 0%float) a ->
  Forall (eq 0%float) (add_lanes blocks r a).1
  /\ Forall (eq 0%float) (add_lanes blocks r a).2.
Proof.
  revert r a. induction blocks as [|k IH]; intros r a Hr Ha; [split; assumption|].
  cbn [add_lanes]. apply IH.
  - clear IH.
    assert (Hb : Forall (eq 0%float) (firstn 8 a)) by (apply Forall_take, Ha).
    generalize dependent (firstn 8 a). intros b Hb.
    revert b Hb. induction Hr as [|x r <- _ IHr]; intros b Hb; [constructor|].
    destruct Hb as [|y b <- Hb]; [constructor|].
    cbn [combine map]. constructor; [reflexivity|]. apply IHr, Hb.
  - apply Forall_drop, Ha.
Qed.

Lemma unrolled_sum_zeros a :
  Forall (eq 0%float) a -> unrolled_sum a = 0%float.
Proof.
  intros Ha. unfold unrolled_sum.
  destruct (add_lanes_zeros (length a / 8 - 1) (firstn 8 a) (skipn 8 a))
    as [Hr Hrest]; [apply Forall_take, Ha | apply Forall_drop, Ha |].
  destruct (add_lanes _ _ _) as [r rest]. cbn [fst snd] in Hr, Hrest.
  repeat (destruct Hr as [|? ? <- Hr]; [apply fold_add_zeros, Ha|]).
  destruct Hr; [|apply fold_add_zeros, Ha].
  apply fold_add_zeros, Hrest.
Qed.

Lemma pairwise_sum_zeros fuel a :
  Forall (eq 0%float) a -> pairwise_sum fuel a = 0%float.
Proof.
  revert a. induction fuel as [|f IH]; intros a Ha; cbn [pairwise_sum].
  - destruct (_ <? 8)%nat; [apply fold_add_zeros, Ha|].
    destruct (_ <=? 128)%nat; apply unrolled_sum_zeros, Ha.
  - destruct (_ <? 8)%nat; [apply fold_add_zeros, Ha|].
    destruct (_ <=? 128)%nat; [apply unrolled_sum_zeros, Ha|].
    rewrite !IH by (apply Forall_take, Ha || apply Forall_drop, Ha). reflexivity.
Qed.

Lemma np_sum_zeros a : Forall (eq 0%float) a -> np_sum a = 0%float.
Proof.
  intros Ha. unfold np_sum. rewrite pairwise_sum_zeros by exact Ha. reflexivity.
Qed.

Lemma fillna0_all_nan xs : skipna xs = [] -> Forall (eq 0%float) (fillna0 xs).
Proof.
  unfold skipna, fillna0, notna. induction xs as [|x xs IH]; intros H; [constructor|].
  cbn [List.filter map] in *.
  destruct (PrimFloat.is_nan x); cbn [negb] in H; [|discriminate].
  constructor; [reflexivity | apply IH, H].
Qed.

(** The mean is the sum over the count, also with no value present: the sum
    is then 0.0, and 0.0 over 0.0 is NaN. *)
Lemma nanmean_eq xs :
  nanmean xs = (nansum xs / float_of_nat (length (skipna xs)))%float.
Proof.
  unfold nanmean, nansum. destruct (skipna xs) as [|v vs] eqn:E; [|reflexivity].
  cbn [length Nat.ltb Nat.leb]. rewrite np_sum_zeros by (apply fillna0_all_nan, E).
  reflexivity.
Qed.

(** The depth of the cuts of the pairwise summation: with the length of the
    list as fuel the recursion never runs out, each part of a cut being
    shorter than the whole, so that more fuel gives the same sum. *)
Lemma pairwise_sum_fuel f g a :
  (length a <= 128 + f)%nat -> (length a <= 128 + g)%nat ->
  pairwise_sum f a = pairwise_sum g a.
Proof.
  revert g a. induction f as [|f IH]; intros g a Hf Hg.
  - destruct g; cbn [pairwise_sum]; [reflexivity|].
    destruct (_ <? 8)%nat; [reflexivity|].
    destruct (Nat.leb_spec (length a) 128); [reflexivity | lia].
  - destruct g as [|g]; cbn [pairwise_sum].
    + destruct (_ <? 8)%nat; [reflexivity|].
      destruct (Nat.leb_spec (length a) 128); [reflexivity | lia].
    + destruct (_ <? 8)%nat; [reflexivity|].
      destruct (Nat.leb_spec (length a) 128) as [|Hn]; [reflexivity|].
      assert (H2 : (0 < length a / 2 - (length a / 2) mod 8 < length a)%nat).
      { pose proof (Nat.mod_upper_bound (length a / 2) 8 ltac:(lia)).
        pose proof (Nat.div_mod_eq (length a) 2).
        pose proof (Nat.mod_upper_bound (length a) 2 ltac:(lia)). lia. }
      rewrite (IH g (firstn _ a)), (IH g (skipn _ a)); [reflexivity|..];
        rewrite ?length_firstn, ?length_skipn; lia.
Qed.

(** Ten values of 0.1 (0x1.999999999999ap-4): added pairwise they give 1.0,
    where a sum from left to right gives 0.9999999999999999; the mean is
    then 0.1 itself and the standard deviation 0.0. *)
Example series_of_tenths :
  nansum (repeat 0x1.999999999999ap-4%float 10) = 1%float
  /\ fold_left PrimFloat.add (repeat 0x1.999999999999ap-4%float 10) 0%float
     = 0x1.fffffffffffffp-1%float
  /\ nanmean (repeat 0x1.999999999999ap-4%float 10) = 0x1.999999999999ap-4%float
  /\ nanstd (repeat 0x1.999999999999ap-4%float 10) = 0%float.
Proof. repeat split; vm_compute; reflexivity. Qed.

(** The values 0.1, 0.2 and 0.3 in one bin: the compensated sum of the
    group-by kernel is 0.6 (0x1.3333333333333p-1), where [Series.sum] gives
    0.6000000000000001. *)
Example bin_of_tenths :
  group_sum [0x1.999999999999ap-4; 0x1.999999999999ap-3; 0x1.3333333333333p-2]%float
  = 0x1.3333333333333p-1%float
  /\ nansum [0x1.999999999999ap-4; 0x1.999999999999ap-3; 0x1.3333333333333p-2]%float
     = 0x1.3333333333334p-1%float.
Proof. split; vm_compute; reflexivity. Qed.

(** A sum of 200 values goes through one cut, into 96 and 104 values. *)
Example pairwise_sum_cut :
  np_sum (repeat 0x1.999999999999ap-4%float 200)
  = (0 + (unrolled_sum (repeat 0x1.999999999999ap-4%float 96)
          + unrolled_sum (repeat 0x1.999999999999ap-4%float 104)))%float.
Proof. vm_compute. reflexivity. Qed.

(** ** The metrics engine *)



(** The dictionary the engine returns on a frame with a row and the four
    columns it reads. *)
Lemma calculate_overall_metrics_eq df s e consumption bill price temperature :
  df_empty df = false ->
  getcol df "Consumption (kWh)" = Return consumption ->
  getcol df "Bill (€)" = Return bill ->
  getcol df "Price (cents/kWh)" = Return price ->
  getcol df "Temperature (°C)" = Return temperature ->
  calculate_overall_metrics df s e =
  Return (list_to_map
    [ ("total_consumption", PyFloat (nansum consumption));
      ("total_bill", PyFloat (nansum bill));
      ("avg_price", PyFloat (nanmean price));
      ("avg_temp", PyFloat (nanmean temperature));
      ("max_consumption", PyFloat (nanmax consumption));
      ("min_consumption", PyFloat (nanmin consumption));
      ("price_volatility", PyFloat (nanstd price));
      ("temp_range", PyFloat (nanmax temperature - nanmin temperature)%float);
      ("daily_avg_consumption",
       PyFloat (nansum consumption / float_of_Z (date_sub_days e s + 1))%float);
      ("efficiency_score",
       if (0 <? nanmean price)%float
       then PyFloat (nansum consumption / float_of_Z (date_sub_days e s + 1)
                     / nanmean price)%float
       else PyInt 0);
      ("num_days_in_filter", PyInt (date_sub_days e s + 1)) ]).
Proof.
  intros He Hc Hb Hp Ht. unfold calculate_overall_metrics.
  rewrite He, Hc, Hb, Hp, Ht. reflexivity.
Qed.



(** The two cases the specification names: an average price of 0 and an
    average price of -5 both give the integer 0. *)
Example efficiency_score_zero_price :
  (m ← calculate_overall_metrics (one_hour 0) (mkdate 2025 3 1) (mkdate 2025 3 2);
   Return (m !! "avg_price", m !! "efficiency_score"))
  = Return (Some (PyFloat 0), Some (PyInt 0)).
Proof. vm_compute. reflexivity. Qed.

Example efficiency_score_negative_price :
  (m ← calculate_overall_metrics (one_hour (-5)) (mkdate 2025 3 1) (mkdate 2025 3 2);
   Return (m !! "avg_price", m !! "efficiency_score"))
  = Return (Some (PyFloat (-5)), Some (PyInt 0)).
Proof. vm_compute. reflexivity. Qed.

Example efficiency_score_positive_price :
  (m ← calculate_overall_metrics (one_hour 2.5) (mkdate 2025 3 1) (mkdate 2025 3 2);
   Return (m !! "avg_price", m !! "daily_avg_consumption", m !! "efficiency_score"))
  = Return (Some (PyFloat 2.5), Some (PyFloat 5), Some (PyFloat 2)).
Proof. vm_compute. reflexivity. Qed.






(** A slice of one row: the volatility is NaN. *)
Example price_volatility_single_row :
  (m ← calculate_overall_metrics (one_hour 7) (mkdate 2025 3 1) (mkdate 2025 3 1);
   Return (m !! "price_volatility"))
  = Return (Some (PyFloat nan)).
Proof. vm_compute. reflexivity. Qed.

(** Prices 2, 4, 6, 8: the mean is 5, the squared deviations add to 20, and
    20 / 3 is the square of the volatility. *)
Example price_volatility_march :
  (m ← calculate_overall_metrics march_2025 (mkdate 2025 3 1) (mkdate 2025 3 15);
   Return (m !! "price_volatility"))
  = Return (Some (PyFloat (PrimFloat.sqrt (20 / 3)))).
Proof. vm_compute. reflexivity. Qed.






(** One hour of data in a window of 31 days: the count is 31, and the daily
    average is the 10 kWh of that hour over 31. *)
Example num_days_sparse_data :
  (m ← calculate_overall_metrics (one_hour 7) (mkdate 2025 3 1) (mkdate 2025 3 31);
   Return (m !! "num_days_in_filter", m !! "daily_avg_consumption"))
  = Return (Some (PyInt 31), Some (PyFloat (10 / 31))).
Proof. vm_compute. reflexivity. Qed.

(** ** Ingestion errors *)

Lemma to_datetime_first_bad parse fmt good v rest :
  Forall (fun s => is_Some (parse s)) good ->
  parse v = None ->
  to_datetime parse fmt (good ++ v :: rest) = Raise (ValueError (TimeData v fmt)).
Proof.
  intros Hgood Hv. induction Hgood as [|s good [t Hs] _ IH]; simpl.
  - rewrite Hv. reflexivity.
  - rewrite Hs, IH. reflexivity.
Qed.

Lemma load_consumption_absent w :
  read_csv w consumption_path "," "." = None ->
  load_consumption w = Raise (FileNotFoundError consumption_path).
Proof. intros H. unfold load_consumption, pd_read_csv. rewrite H. reflexivity. Qed.

Lemma load_price_absent w :
  read_csv w price_path ";" "," = None ->
  load_price w = Raise (FileNotFoundError price_path).
Proof. intros H. unfold load_price, pd_read_csv. rewrite H. reflexivity. Qed.

Lemma load_price_malformed w table good v rest :
  read_csv w price_path ";" "," = Some table ->
  time_name table = "timestamp" ->
  map fst (records table) = good ++ v :: rest ->
  Forall (fun s => is_Some (strptime w price_format s)) good ->
  strptime w price_format v = None ->
  load_price w = Raise (ValueError (TimeData v price_format)).
Proof.
  intros Hread Hname Hcol Hgood Hv.
  unfold load_price, pd_read_csv, csv_getcol. rewrite Hread. simpl.
  rewrite Hname. simpl. rewrite Hcol.
  rewrite (to_datetime_first_bad _ _ good v rest Hgood Hv). reflexivity.
Qed.

Lemma load_data_fault w log :
  ingestion_fault w log -> load_data w = (log, Return DataFrame_new).
Proof.
  intros [Habs | df_cons Hcons Habs | df_cons table good v rest Hcons Hread Hname Hcol Hgood Hv];
    unfold load_data.
  - rewrite (load_consumption_absent w Habs). reflexivity.
  - rewrite Hcons, (load_price_absent w Habs). reflexivity.
  - rewrite Hcons, (load_price_malformed w table good v rest Hread Hname Hcol Hgood Hv).
    reflexivity.
Qed.

(** C8.  When the consumption file is missing, or the consumption table
    has loaded and the price file is missing or one of its date strings does
    not match the format, the loader writes the error to the page (with the path of the missing file; with the date string that does
    not match) and returns the frame with no row and no column: it does not
    raise.  The application then writes its error page and nothing else: no
    filter, metric or chart is computed. *)
Theorem load_data_fails_soft w log :
  ingestion_fault w log ->
  load_data w = (log, Return DataFrame_new)
  /\ log <> []
  /\ forall ui, app w ui = (log ++ error_page, Return tt).
Proof.
  intros Hf. pose proof (load_data_fault w log Hf) as Hload.
  split; [exact Hload|]. split.
  - destruct Hf; discriminate.
  - intros ui. unfold app. rewrite Hload. reflexivity.
Qed.

Lemma load_data_fails_soft_witness :
  load_data world_bad_price_time
  = ([ st_error (parse_error_message price_path);
       st_error_exn (ValueError (TimeData "2025-03-01T02:00" price_format)) ],
     Return DataFrame_new)
  /\ [ st_error (parse_error_message price_path);
       st_error_exn (ValueError (TimeData "2025-03-01T02:00" price_format)) ] <> []
  /\ forall ui, app world_bad_price_time ui
       = ([ st_error (parse_error_message price_path);
            st_error_exn (ValueError (TimeData "2025-03-01T02:00" price_format)) ]
          ++ error_page, Return tt).
Proof.
  apply load_data_fails_soft.
  eapply (price_timestamp_malformed world_bad_price_time _ _ ["01:00 03/01/2025"]
            "2025-03-01T02:00" []).
  - reflexivity.
  - reflexivity.
  - reflexivity.
  - reflexivity.
  - repeat constructor. eexists. reflexivity.
  - reflexivity.
Defined.

(** The two missing files, each reported with its path. *)
Example load_data_no_consumption :
  load_data world_no_consumption
  = ([st_error "Error: 'data/Electricity_consumption_2015-2025.csv' not found. Make sure it's in the 'data' folder."],
     Return DataFrame_new).
Proof. vm_compute. reflexivity. Qed.

Example load_data_no_price :
  load_data world_no_price
  = ([st_error "Error: 'data/Electricity_price_2015-2025.csv' not found. Make sure it's in the 'data' folder."],
     Return DataFrame_new).
Proof. vm_compute. reflexivity. Qed.



(** ** The joiner *)

Lemma forallb_notna_pad vs n :
  forallb notna (vs ++ repeat nan (S n)) = false.
Proof.
  rewrite forallb_app. simpl. apply andb_false_r.
Qed.

Lemma flat_map_all_nil {A B} (f : A -> list B) (l : list A) :
  (forall x, In x l -> f x = []) -> flat_map f l = [].
Proof.
  induction l as [|a l IH]; simpl; intros H; [reflexivity|].
  rewrite (H a (or_introl eq_refl)). apply IH. intros x Hx. apply H. right. exact Hx.
Qed.

Lemma filter_map_flat_map {A B} (p : A -> bool) (q : B -> bool) (g : A -> B) (l : list A) :
  List.filter q (map g (List.filter p l))
  = flat_map (fun x => if p x && q (g x) then [g x] else []) l.
Proof.
  induction l as [|a l IH]; simpl; [reflexivity|].
  destruct (p a); simpl; [|exact IH].
  destruct (q (g a)); simpl; rewrite IH; reflexivity.
Qed.

(** The rows of one left row that the join and [dropna] keep. *)
Lemma join_row_dropna (right_columns : list string) (right : list (Timestamp * list float))
    (a : Timestamp * list float) :
  right_columns <> [] ->
  List.filter (fun r => forallb notna (snd r))
    (match List.filter (fun r => fst r =? fst a) right with
     | [] => [(fst a, snd a ++ repeat nan (length right_columns))]
     | ms => map (fun r => (fst a, snd a ++ snd r)) ms
     end)
  = flat_map (fun b =>
      if (fst b =? fst a) && forallb notna (snd a ++ snd b)
      then [(fst a, snd a ++ snd b)] else []) right.
Proof.
  intros Hcols.
  pose proof (filter_map_flat_map (fun r => fst r =? fst a)
                (fun r : Timestamp * list float => forallb notna (snd r))
                (fun r => (fst a, snd a ++ snd r)) right) as Hgen.
  simpl in Hgen.
  destruct (List.filter (fun r => fst r =? fst a) right) as [|m ms] eqn:Hms.
  - destruct right_columns as [|c cs]; [congruence|].
    simpl length. cbn [List.filter snd]. rewrite forallb_notna_pad.
    symmetry. apply flat_map_all_nil. intros b Hb.
    pose proof (proj1 (filter_nil_iff _ _) Hms b Hb) as Hk. simpl in Hk.
    rewrite Hk. reflexivity.
  - exact Hgen.
Qed.

Lemma filter_flat_map {A B} (q : B -> bool) (f : A -> list B) (l : list A) :
  List.filter q (flat_map f l) = flat_map (fun x => List.filter q (f x)) l.
Proof.
  induction l as [|a l IH]; simpl; [reflexivity|].
  rewrite List.filter_app, IH. reflexivity.
Qed.

Lemma join_dropna_rows left right :
  List.filter (fun c => existsb (String.eqb c) (columns right)) (columns left) = [] ->
  columns right <> [] ->
  exists joined,
    join left right = Return joined
    /\ dropna joined
       = mkDF (columns left ++ columns right)
              (inner_join_rows (rows left) (rows right)).
Proof.
  intros Hover Hcols. unfold join. rewrite Hover.
  eexists. split; [reflexivity|].
  unfold dropna. simpl. f_equal.
  rewrite filter_flat_map. unfold inner_join_rows.
  apply flat_map_ext. intros a. apply join_row_dropna. exact Hcols.
Qed.

Lemma map_combine_same {A B C} (f : A * B -> C) (g : A -> B) (l : list A) :
  map f (combine l (map g l)) = map (fun x => f (x, g x)) l.
Proof. induction l as [|a l IH]; simpl; [reflexivity|]. rewrite IH. reflexivity. Qed.

Lemma combine_map_map {A B C} (f : A -> B) (g : A -> C) (l : list A) :
  combine (map f l) (map g l) = map (fun x => (f x, g x)) l.
Proof. induction l as [|a l IH]; simpl; [reflexivity|]. rewrite IH. reflexivity. Qed.

Lemma add_bill_rows (rs : list (Timestamp * list float)) :
  add_bill (mkDF ["kWh"; "Price"; "Temperature"] rs)
  = Return (mkDF ["kWh"; "Price"; "Temperature"; "Bill"] (map with_bill rs)).
Proof.
  unfold add_bill, getcol, setcol. simpl. f_equal. f_equal.
  rewrite combine_map_map, map_map, map_combine_same.
  apply map_ext. intros r. reflexivity.
Qed.

Lemma inner_join_rows_In left right t :
  In t (map fst (inner_join_rows left right))
  <-> exists a b, In a left /\ In b right /\ fst a = t /\ fst b = t
                  /\ forallb notna (snd a ++ snd b) = true.
Proof.
  unfold inner_join_rows. rewrite in_map_iff. split.
  - intros (r & <- & Hr). apply in_flat_map in Hr. destruct Hr as (a & Ha & Hr).
    apply in_flat_map in Hr. destruct Hr as (b & Hb & Hr).
    destruct ((fst b =? fst a) && forallb notna (snd a ++ snd b)) eqn:E; [|destruct Hr].
    destruct Hr as [<-|[]]. apply andb_true_iff in E. destruct E as [E1 E2].
    apply Z.eqb_eq in E1. exists a, b. auto.
  - intros (a & b & Ha & Hb & <- & Hab & Hc).
    exists (fst a, snd a ++ snd b). split; [reflexivity|].
    apply in_flat_map. exists a. split; [exact Ha|].
    apply in_flat_map. exists b. split; [exact Hb|].
    rewrite Hab, Z.eqb_refl, Hc. left. reflexivity.
Qed.

(** C4. For a consumption table (column kWh) and a price table (columns Price
    and Temperature), the loader returns the inner join of the two on the
    timestamp without the rows that miss a cell: for each consumption row, in
    order, one row for each price row with the same timestamp, when neither
    of the two has a missing value, with the bill as a fourth cell.  So a
    timestamp is in the result iff it is the timestamp of a consumption row
    and of a price row that are both complete: a row of either table with no
    such counterpart is dropped. *)
Theorem load_data_inner_join w df_cons df_price :
  load_consumption w = Return df_cons ->
  load_price w = Return df_price ->
  columns df_cons = ["kWh"] ->
  columns df_price = ["Price"; "Temperature"] ->
  exists df,
    load_data w = ([], Return df)
    /\ rows df = map with_bill (inner_join_rows (rows df_cons) (rows df_price))
    /\ (forall t,
          In t (index df)
          <-> exists a b, In a (rows df_cons) /\ In b (rows df_price)
                          /\ fst a = t /\ fst b = t
                          /\ forallb notna (snd a ++ snd b) = true).
Proof.
  intros Hcons Hprice Hc Hp.
  destruct (join_dropna_rows df_cons df_price) as (joined & Hjoin & Hdrop).
  { rewrite Hc, Hp. reflexivity. }
  { rewrite Hp. discriminate. }
  rewrite Hc, Hp in Hdrop. simpl app in Hdrop.
  eexists. split; [|split].
  - unfold load_data. rewrite Hcons, Hprice, Hjoin. simpl.
    rewrite Hdrop, add_bill_rows. reflexivity.
  - reflexivity.
  - intros t. unfold index. simpl rows.
    rewrite map_map. simpl. apply inner_join_rows_In.
Qed.

Lemma load_data_inner_join_witness :
  exists df,
    load_data world_hours = ([], Return df)
    /\ rows df
       = map with_bill
           (inner_join_rows
              [ (mkts 2025 3 1 0, [1%float]); (mkts 2025 3 1 1, [2%float]);
                (mkts 2025 3 1 2, [3%float]) ]
              [ (mkts 2025 3 1 1, [5%float; (-3)%float]);
                (mkts 2025 3 1 2, [6%float; (-2)%float]);
                (mkts 2025 3 1 3, [7%float; (-1)%float]) ])
    /\ (forall t,
          In t (index df)
          <-> exists a b,
                In a [ (mkts 2025 3 1 0, [1%float]); (mkts 2025 3 1 1, [2%float]);
                       (mkts 2025 3 1 2, [3%float]) ]
                /\ In b [ (mkts 2025 3 1 1, [5%float; (-3)%float]);
                          (mkts 2025 3 1 2, [6%float; (-2)%float]);
                          (mkts 2025 3 1 3, [7%float; (-1)%float]) ]
                /\ fst a = t /\ fst b = t
                /\ forallb notna (snd a ++ snd b) = true).
Proof.
  apply (load_data_inner_join world_hours
           (mkDF ["kWh"]
              [ (mkts 2025 3 1 0, [1%float]); (mkts 2025 3 1 1, [2%float]);
                (mkts 2025 3 1 2, [3%float]) ])
           (mkDF ["Price"; "Temperature"]
              [ (mkts 2025 3 1 1, [5%float; (-3)%float]);
                (mkts 2025 3 1 2, [6%float; (-2)%float]);
                (mkts 2025 3 1 3, [7%float; (-1)%float]) ]));
    reflexivity.
Defined.

(** The example of the specification: consumption at the hours 0, 1, 2 and
    prices at the hours 1, 2, 3 give a dataset with the hours 1 and 2 only. *)
Example load_data_hours_1_2 :
  load_data world_hours
  = ([], Return (mkDF
      ["Consumption (kWh)"; "Price (cents/kWh)"; "Temperature (Â°C)"; "Bill (â‚¬)"]
      [ (mkts 2025 3 1 1, [2%float; 5%float; (-3)%float; (2 * (5 / 100))%float]);
        (mkts 2025 3 1 2, [3%float; 6%float; (-2)%float; (3 * (6 / 100))%float]) ])).
Proof. vm_compute. reflexivity. Qed.

(** A consumption value that is missing drops the row, though the timestamp
    is in both tables. *)
Example load_data_missing_value :
  load_data
    (world_of (Some (mkCsv "time" ["kWh"]
                       [ ("2025-03-01 01:00:00", [nan]);
                         ("2025-03-01 02:00:00", [3%float]) ]))
              (Some price_hours_123) hours_times)
  = ([], Return (mkDF
      ["Consumption (kWh)"; "Price (cents/kWh)"; "Temperature (Â°C)"; "Bill (â‚¬)"]
      [ (mkts 2025 3 1 2, [3%float; 6%float; (-2)%float; (3 * (6 / 100))%float]) ])).
Proof. vm_compute. reflexivity. Qed.

(** ** The labels of the loaded frame *)

(** The loader labels the bill and the temperature columns with strings
    that differ from the labels the metrics engine and the aggregator read:
    on the frame loaded from a consumption table (column kWh) and a price
    table (columns Price and Temperature), every slice with a row makes the
    metrics engine raise [KeyError] on the bill column. *)
Theorem loaded_frame_lacks_bill_label w df_cons df_price :
  load_consumption w = Return df_cons ->
  load_price w = Return df_price ->
  columns df_cons = ["kWh"] ->
  columns df_price = ["Price"; "Temperature"] ->
  exists df,
    load_data w = ([], Return df)
    /\ columns df
       = ["Consumption (kWh)"; "Price (cents/kWh)"; "Temperature (Â°C)"; "Bill (â‚¬)"]
    /\ forall rs s e,
         rs <> [] ->
         calculate_overall_metrics (mkDF (columns df) rs) s e
         = Raise (KeyError "Bill (€)").
Proof.
  intros Hcons Hprice Hc Hp.
  destruct (join_dropna_rows df_cons df_price) as (joined & Hjoin & Hdrop).
  { rewrite Hc, Hp. reflexivity. }
  { rewrite Hp. discriminate. }
  rewrite Hc, Hp in Hdrop. simpl app in Hdrop.
  eexists. split; [|split].
  - unfold load_data. rewrite Hcons, Hprice, Hjoin. simpl.
    rewrite Hdrop, add_bill_rows. reflexivity.
  - reflexivity.
  - intros rs s e Hrs. destruct rs as [|r rs]; [congruence|]. reflexivity.
Qed.

Lemma loaded_frame_lacks_bill_label_witness :
  exists df,
    load_data world_hours = ([], Return df)
    /\ columns df
       = ["Consumption (kWh)"; "Price (cents/kWh)"; "Temperature (Â°C)"; "Bill (â‚¬)"]
    /\ forall rs s e,
         rs <> [] ->
         calculate_overall_metrics (mkDF (columns df) rs) s e
         = Raise (KeyError "Bill (€)").
Proof.
  apply (loaded_frame_lacks_bill_label world_hours
           (mkDF ["kWh"]
              [ (mkts 2025 3 1 0, [1%float]); (mkts 2025 3 1 1, [2%float]);
                (mkts 2025 3 1 2, [3%float]) ])
           (mkDF ["Price"; "Temperature"]
              [ (mkts 2025 3 1 1, [5%float; (-3)%float]);
                (mkts 2025 3 1 2, [6%float; (-2)%float]);
                (mkts 2025 3 1 3, [7%float; (-1)%float]) ]));
    reflexivity.
Defined.

(** The application on the two example tables: the page gets as far as the
    section header, and the metrics engine raises. *)
Example app_raises_on_loaded_frame :
  app world_hours sample_widgets
  = ([ render "render_main_header"; render "sidebar"; render "render_section_header" ],
     Raise (KeyError "Bill (€)")).
Proof. vm_compute. reflexivity. Qed.

(** C5. On the data the loader returns for the two example files, the
    window of 2025-03-01 keeps the two hours loaded, whose prices 5 and 6
    have a mean above 0; the metrics engine raises [KeyError] on the bill
    column there, so that no efficiency score is computed: neither the
    quotient nor 0. *)
Theorem efficiency_score_on_loaded_data :
  load_data world_hours = ([], Return loaded_hours)
  /\ filter_data_by_date_range loaded_hours (mkdate 2025 3 1) (mkdate 2025 3 1)
     = Return loaded_hours
  /\ df_empty loaded_hours = false
  /\ getcol loaded_hours "Price (cents/kWh)" = Return [5%float; 6%float]
  /\ (0 <? nanmean [5%float; 6%float])%float = true
  /\ (m ← calculate_overall_metrics loaded_hours (mkdate 2025 3 1) (mkdate 2025 3 1);
      Return (m !! "efficiency_score"))
     = Raise (KeyError "Bill (€)").
Proof. repeat split; vm_compute; reflexivity. Qed.

(** C6. On the data the loader returns for two files with one hour in
    common, the window of 2025-03-01 keeps that one row; the metrics engine
    raises [KeyError] on the bill column there, so that the price volatility
    of a slice of one row is not reported as NaN: the exception takes its
    place.  On the two rows loaded from the two example files it raises as
    well, where the sample standard deviation of the prices 5 and 6 is
    expected. *)
Theorem price_volatility_on_loaded_data :
  load_data world_one_common_hour = ([], Return loaded_one_hour)
  /\ filter_data_by_date_range loaded_one_hour (mkdate 2025 3 1) (mkdate 2025 3 1)
     = Return loaded_one_hour
  /\ length (rows loaded_one_hour) = 1%nat
  /\ (m ← calculate_overall_metrics loaded_one_hour (mkdate 2025 3 1) (mkdate 2025 3 1);
      Return (m !! "price_volatility"))
     = Raise (KeyError "Bill (€)")
  /\ length (rows loaded_hours) = 2%nat
  /\ (m ← calculate_overall_metrics loaded_hours (mkdate 2025 3 1) (mkdate 2025 3 1);
      Return (m !! "price_volatility"))
     = Raise (KeyError "Bill (€)").
Proof. repeat split; vm_compute; reflexivity. Qed.

(** C7. On the data the loader returns for the two example files, the
    window from 2025-03-01 to 2025-03-31 has 31 days and keeps the two hours
    loaded; the metrics engine raises [KeyError] on the bill column there,
    before the days are counted, so that neither the number of days nor the
    daily average consumption is computed. *)
Theorem num_days_in_filter_on_loaded_data :
  load_data world_hours = ([], Return loaded_hours)
  /\ filter_data_by_date_range loaded_hours (mkdate 2025 3 1) (mkdate 2025 3 31)
     = Return loaded_hours
  /\ df_empty loaded_hours = false
  /\ inclusive_day_count (mkdate 2025 3 1) (mkdate 2025 3 31) = 31
  /\ (m ← calculate_overall_metrics loaded_hours (mkdate 2025 3 1) (mkdate 2025 3 31);
      Return (m !! "num_days_in_filter", m !! "daily_avg_consumption"))
     = Raise (KeyError "Bill (€)").
Proof. repeat split; vm_compute; reflexivity. Qed.

(** ** The aggregator: positions of the bins *)

Lemma take_while_ext {A} (p q : A -> bool) (l : list A) :
  (forall x, p x = q x) -> take_while p l = take_while q l.
Proof.
  intros H. induction l as [|a l IH]; simpl; [reflexivity|].
  rewrite H, IH. reflexivity.
Qed.

(** A wider test reaches from where a narrower one stopped. *)
Lemma take_while_widen {A} (p q : A -> bool) (l : list A) :
  (forall x, p x = true -> q x = true) ->
  (length (take_while p l)
   + length (take_while q (skipn (length (take_while p l)) l)))%nat
  = length (take_while q l).
Proof.
  intros H. induction l as [|a l IH]; simpl; [reflexivity|].
  destruct (p a) eqn:Hp; simpl.
  - rewrite (H a Hp). simpl. rewrite IH. reflexivity.
  - reflexivity.
Qed.

Lemma searchsorted_right_pred idx x :
  searchsorted_right idx (x - 1) = searchsorted_left idx x.
Proof.
  unfold searchsorted_right, searchsorted_left. f_equal.
  apply take_while_ext. intros t.
  apply eq_true_iff_eq. rewrite Z.leb_le, Z.ltb_lt. lia.
Qed.

Lemma generate_bins_cut (right_closed : bool) ax e0 es :
  let next := fun e => if right_closed then e + 1 else e in
  is_monotonic_increasing (e0 :: es) = true ->
  generate_bins right_closed ax (searchsorted_left ax (next e0)) es
  = map (fun e => searchsorted_left ax (next e)) es.
Proof.
  intros next. revert e0. induction es as [|e es IH]; intros e0 Hm; [reflexivity|].
  change (((e0 <=? e) && is_monotonic_increasing (e :: es)) = true) in Hm.
  apply andb_true_iff in Hm. destruct Hm as [Hle Hm]. apply Z.leb_le in Hle.
  cbn [generate_bins map].
  assert (Hj : Nat.add (searchsorted_left ax (next e0))
                 (length (take_while
                    (fun v => if right_closed then v <=? e else v <? e)
                    (skipn (searchsorted_left ax (next e0)) ax)))
               = searchsorted_left ax (next e)).
  { unfold searchsorted_left at 1 2.
    rewrite (take_while_ext (fun v => if right_closed then v <=? e else v <? e)
                            (fun v => v <? next e)).
    2:{ intros v. unfold next. destruct right_closed;
        apply eq_true_iff_eq; rewrite ?Z.leb_le, ?Z.ltb_lt; lia. }
    apply take_while_widen. intros v. rewrite !Z.ltb_lt.
    unfold next. destruct right_closed; lia. }
  rewrite Hj. f_equal. apply IH. exact Hm.
Qed.

Lemma split_bins_cut (l : list (Timestamp * list float)) p0 ps :
  is_monotonic_increasing (map fst l) = true ->
  split_bins l (searchsorted_left (map fst l) p0)
             (map (searchsorted_left (map fst l)) ps)
  = map (fun ab => List.filter (in_range (fst ab) (snd ab - 1)) l) (pairs (p0 :: ps)).
Proof.
  intros Hm. revert p0. induction ps as [|p ps IH]; intros p0; [reflexivity|].
  cbn [map split_bins]. unfold pairs. cbn [tl combine map fst snd].
  rewrite <- (searchsorted_right_pred (map fst l) p).
  rewrite py_slice_searchsorted by exact Hm.
  f_equal. rewrite searchsorted_right_pred. apply IH.
Qed.

(** ** The aggregator: the edges of the bins *)

Lemma midnight_to_datetime_date t :
  t mod NS_PER_DAY = 0 -> to_datetime_date (Timestamp_date t) = t.
Proof.
  intros H. unfold to_datetime_date. rewrite toordinal_Timestamp_date.
  pose proof (Z.div_mod t NS_PER_DAY). unfold NS_PER_DAY in *. lia.
Qed.

Lemma normalize_spec t :
  normalize t mod NS_PER_DAY = 0 /\ normalize t <= t < normalize t + NS_PER_DAY
  /\ Timestamp_date (normalize t) = Timestamp_date t.
Proof.
  unfold normalize, Timestamp_date.
  pose proof (Z.div_mod t NS_PER_DAY).
  pose proof (Z.mod_pos_bound t NS_PER_DAY NS_PER_DAY_pos).
  assert (Hn : t - t mod NS_PER_DAY = t / NS_PER_DAY * NS_PER_DAY)
    by (unfold NS_PER_DAY in *; lia).
  rewrite Hn. split; [apply Z.mod_mul; discriminate|]. split; [lia|].
  rewrite Z.div_mul by discriminate. reflexivity.
Qed.

Lemma Timestamp_weekday_eq t :
  Timestamp_weekday t = (t / NS_PER_DAY + 3) mod 7.
Proof.
  unfold Timestamp_weekday. rewrite toordinal_Timestamp_date.
  unfold EPOCH_ORDINAL. Z.div_mod_to_equations. lia.
Qed.


Lemma month_start_valid i : valid_date (mkdate (i / 12) (i mod 12 + 1) 1).
Proof.
  unfold valid_date. simpl.
  pose proof (Z.mod_pos_bound i 12 ltac:(lia)) as Hm.
  pose proof (days_in_month_pos (i / 12) (i mod 12 + 1) ltac:(lia)). lia.
Qed.


Lemma month_start_aligned i : edge_aligned MS (month_start i).
Proof.
  split; [apply to_datetime_date_mod|].
  unfold month_start. rewrite Timestamp_date_midnight by apply month_start_valid.
  reflexivity.
Qed.

Lemma month_start_lt i j :
  i < j -> month_start i + NS_PER_DAY <= month_start j.
Proof.
  intros H. unfold month_start, to_datetime_date.
  assert (Hlt : toordinal (mkdate (i / 12) (i mod 12 + 1) 1)
                < toordinal (mkdate (j / 12) (j mod 12 + 1) 1)).
  { apply date_lt_ord; try apply month_start_valid.
    unfold date_lt, date_cmp. simpl.
    pose proof (Z.mod_pos_bound i 12 ltac:(lia)).
    pose proof (Z.mod_pos_bound j 12 ltac:(lia)).
    pose proof (Z.div_mod i 12). pose proof (Z.div_mod j 12).
    destruct (Z.compare_spec (i / 12) (j / 12)); [| reflexivity | lia].
    destruct (Z.compare_spec (i mod 12 + 1) (j mod 12 + 1)); [lia | reflexivity | lia]. }
  unfold NS_PER_DAY. lia.
Qed.

Lemma month_start_le i j : i <= j -> month_start i <= month_start j.
Proof.
  intros H. destruct (Z.eq_dec i j) as [->|Hne]; [lia|].
  pose proof (month_start_lt i j ltac:(lia)). pose proof NS_PER_DAY_pos. lia.
Qed.

(** A first of the month at midnight is the start of the month of its index. *)
Lemma aligned_month_start t :
  edge_aligned MS t -> t = month_start (month_index (Timestamp_date t)).
Proof.
  intros [Hmid Hday]. rewrite <- (midnight_to_datetime_date t Hmid) at 1.
  unfold month_start. apply to_datetime_date_eq. f_equal.
  pose proof (Timestamp_date_valid t) as [Hm _].
  destruct (Timestamp_date t) as [y m d]. simpl in *. subst d.
  unfold month_index. simpl. f_equal.
  - Z.div_mod_to_equations. lia.
  - Z.div_mod_to_equations. lia.
Qed.

Lemma shift_month_start_eq t k :
  t mod NS_PER_DAY = 0 ->
  shift_month_start t k = month_start (month_index (Timestamp_date t) + k).
Proof.
  intros Hmid. unfold shift_month_start, month_start. rewrite Hmid.
  pose proof (Timestamp_date_valid t) as [Hm _].
  destruct (Timestamp_date t) as [y m d]. unfold month_index. simpl in *.
  destruct (Z.eqb_spec ((m + k) mod 12) 0) as [H0|H0]; rewrite Z.add_0_r;
    apply to_datetime_date_eq; f_equal; f_equal; clear Hmid;
    Z.div_mod_to_equations; lia.
Qed.

Lemma month_first_le d :
  valid_date d ->
  toordinal (mkdate (month_index d / 12) (month_index d mod 12 + 1) 1) <= toordinal d.
Proof.
  intros [Hm Hd]. destruct d as [y m dd].
  unfold month_index. cbn [year month day] in *.
  replace ((y * 12 + (m - 1)) / 12) with y by (clear Hd; Z.div_mod_to_equations; lia).
  replace ((y * 12 + (m - 1)) mod 12 + 1) with m by (clear Hd; Z.div_mod_to_equations; lia).
  unfold toordinal, ymd2ord. cbn [year month day]. lia.
Qed.

Lemma next_month_first_gt d :
  valid_date d ->
  toordinal d < toordinal (mkdate ((month_index d + 1) / 12)
                                  ((month_index d + 1) mod 12 + 1) 1).
Proof.
  intros Hv.
  apply (proj1 (date_lt_ord d _ Hv (month_start_valid (month_index d + 1)))).
  destruct Hv as [Hm Hd]. destruct d as [y m dd].
  unfold month_index, date_lt, date_cmp. cbn [year month day] in *. clear Hd.
  destruct (Z.eq_dec m 12) as [->|Hne].
  - replace ((y * 12 + (12 - 1) + 1) / 12) with (y + 1) by (Z.div_mod_to_equations; lia).
    replace (y ?= y + 1) with Lt by (symmetry; apply Z.compare_lt_iff; lia).
    reflexivity.
  - replace ((y * 12 + (m - 1) + 1) / 12) with y by (Z.div_mod_to_equations; lia).
    replace ((y * 12 + (m - 1) + 1) mod 12 + 1) with (m + 1)
      by (Z.div_mod_to_equations; lia).
    rewrite Z.compare_refl.
    replace (m ?= m + 1) with Lt by (symmetry; apply Z.compare_lt_iff; lia).
    reflexivity.
Qed.

Lemma day_bounds_between (o o1 o2 t : Z) :
  o1 <= o -> o < o2 ->
  (o - EPOCH_ORDINAL) * NS_PER_DAY <= t ->
  t <= (o - EPOCH_ORDINAL) * NS_PER_DAY + NS_PER_DAY - 1 ->
  (o1 - EPOCH_ORDINAL) * NS_PER_DAY <= t /\ t < (o2 - EPOCH_ORDINAL) * NS_PER_DAY.
Proof. intros. unfold NS_PER_DAY in *. lia. Qed.

Lemma day_lower_bound_eq d :
  day_lower_bound d = (toordinal d - EPOCH_ORDINAL) * NS_PER_DAY.
Proof. reflexivity. Qed.

Lemma day_upper_bound_eq d :
  day_upper_bound d = (toordinal d - EPOCH_ORDINAL) * NS_PER_DAY + NS_PER_DAY - 1.
Proof. reflexivity. Qed.

Lemma month_start_eq i :
  month_start i
  = (toordinal (mkdate (i / 12) (i mod 12 + 1) 1) - EPOCH_ORDINAL) * NS_PER_DAY.
Proof. reflexivity. Qed.

(** Every timestamp lies in the month of its index. *)
Lemma month_start_bounds t :
  month_start (month_index (Timestamp_date t)) <= t
  /\ t < month_start (month_index (Timestamp_date t) + 1).
Proof.
  pose proof (day_lower_bound_own t) as Hlo. rewrite day_lower_bound_eq in Hlo.
  pose proof (day_upper_bound_own t) as Hhi. rewrite day_upper_bound_eq in Hhi.
  pose proof (month_first_le _ (Timestamp_date_valid t)) as H1.
  pose proof (next_month_first_gt _ (Timestamp_date_valid t)) as H2.
  rewrite !month_start_eq.
  generalize dependent (Timestamp_date t). intros d Hlo Hhi H1 H2.
  exact (day_bounds_between _ _ _ t H1 H2 Hlo Hhi).
Qed.

(** ** The aggregator: the offsets *)

Lemma midnight_day_number t :
  t mod NS_PER_DAY = 0 -> t = t / NS_PER_DAY * NS_PER_DAY.
Proof.
  intros H. pose proof (Z.div_mod t NS_PER_DAY). unfold NS_PER_DAY in *. lia.
Qed.

Lemma weekday_of_day n :
  Timestamp_weekday (n * NS_PER_DAY) = (n + 3) mod 7.
Proof.
  rewrite Timestamp_weekday_eq, Z.div_mul by discriminate. reflexivity.
Qed.

Lemma edge_aligned_W_day t :
  edge_aligned W t <-> exists n, t = n * NS_PER_DAY /\ (n + 3) mod 7 = 6.
Proof.
  unfold edge_aligned. split.
  - intros [Hmid Hwd]. exists (t / NS_PER_DAY).
    split; [apply midnight_day_number, Hmid|].
    rewrite Timestamp_weekday_eq in Hwd. exact Hwd.
  - intros (n & -> & Hn). split; [apply Z.mod_mul; discriminate|].
    rewrite weekday_of_day. exact Hn.
Qed.

(** From a midnight, [Week(-1, weekday=6)] gives the Sunday before, and
    [Week(1, weekday=6)] the Sunday after. *)
Lemma Week_apply_day (k n : Z) :
  (k = 1 \/ k = -1) ->
  exists m, Week_apply k 6 (n * NS_PER_DAY) = m * NS_PER_DAY
            /\ (m + 3) mod 7 = 6
            /\ (k = 1 -> n < m <= n + 7)
            /\ (k = -1 -> n - 7 <= m < n).
Proof.
  intros Hk. unfold Week_apply. rewrite weekday_of_day.
  destruct (Z.eqb_spec ((n + 3) mod 7) 6) as [Hs|Hs]; cbn [negb].
  - exists (n + k * 7). split; [unfold NS_PER_DAY; lia|].
    split; [Z.div_mod_to_equations; lia|]. lia.
  - set (wd := (n + 3) mod 7) in *.
    set (roll := (6 - wd) mod 7).
    assert (Hwd : 0 <= wd < 7) by (apply Z.mod_pos_bound; lia).
    assert (Hroll : roll = 6 - wd) by (unfold roll; apply Z.mod_small; lia).
    destruct Hk as [-> | ->]; cbn [Z.ltb Z.compare].
    + exists (n + roll). split; [unfold NS_PER_DAY; lia|].
      split; [rewrite Hroll; unfold wd; Z.div_mod_to_equations; lia|]. lia.
    + exists (n + roll - 7). split; [unfold NS_PER_DAY; lia|].
      split; [rewrite Hroll; unfold wd; Z.div_mod_to_equations; lia|]. lia.
Qed.

Lemma offset_apply_aligned r b :
  edge_aligned r b ->
  edge_aligned r (offset_apply r b) /\ b + NS_PER_DAY <= offset_apply r b.
Proof.
  destruct r; cbn [offset_apply].
  - intros [Hmid _]. split; [split; [|exact I] | lia].
    rewrite <- Zplus_mod_idemp_l, Hmid. reflexivity.
  - intros Ha. apply edge_aligned_W_day in Ha. destruct Ha as (n & -> & Hn).
    destruct (Week_apply_day 1 n (or_introl eq_refl)) as (m & -> & Hm & Hup & _).
    split; [apply edge_aligned_W_day; exists m; auto|].
    specialize (Hup eq_refl). unfold NS_PER_DAY. lia.
  - intros Ha. pose proof Ha as [Hmid _].
    rewrite (shift_month_start_eq b 1 Hmid).
    split; [apply month_start_aligned|].
    pose proof (aligned_month_start b Ha) as Hb.
    pose proof (month_start_lt (month_index (Timestamp_date b))
                               (month_index (Timestamp_date b) + 1) ltac:(lia)) as Hlt.
    rewrite <- Hb in Hlt. exact Hlt.
Qed.

(** An aligned edge at or after [e] and before the offset of [e] is [e]. *)
Lemma aligned_between r e l :
  edge_aligned r e -> edge_aligned r l -> e <= l < offset_apply r e -> e = l.
Proof.
  destruct r; cbn [offset_apply].
  - intros [He _] [Hl _] H.
    pose proof (midnight_day_number e He) as Hen.
    pose proof (midnight_day_number l Hl) as Hln.
    set (n := e / NS_PER_DAY) in *. set (m := l / NS_PER_DAY) in *.
    clearbody n m. clear He Hl. subst e l. f_equal. unfold NS_PER_DAY in H. lia.
  - intros He Hl. apply edge_aligned_W_day in He, Hl.
    destruct He as (n & -> & Hn), Hl as (m & -> & Hm).
    destruct (Week_apply_day 1 n (or_introl eq_refl)) as (k & -> & Hk & Hup & _).
    specialize (Hup eq_refl). intros H. f_equal.
    assert (n <= m < k) by (unfold NS_PER_DAY in H; lia).
    clear H. Z.div_mod_to_equations. lia.
  - intros He Hl H. pose proof He as [Hmid _].
    rewrite (shift_month_start_eq e 1 Hmid) in H.
    pose proof (aligned_month_start e He) as Hei.
    pose proof (aligned_month_start l Hl) as Hli.
    set (i := month_index (Timestamp_date e)) in *.
    set (j := month_index (Timestamp_date l)) in *.
    clearbody i j. subst e l. f_equal.
    destruct (Z.lt_trichotomy i j) as [Hlt | [Heq | Hgt]]; [|exact Heq|].
    + pose proof (month_start_le (i + 1) j ltac:(lia)). lia.
    + pose proof (month_start_lt j i Hgt). pose proof NS_PER_DAY_pos. lia.
Qed.

(** ** The aggregator: the first and the last edge *)

Lemma normalize_day_number t :
  normalize t = t / NS_PER_DAY * NS_PER_DAY
  /\ t / NS_PER_DAY * NS_PER_DAY <= t < (t / NS_PER_DAY + 1) * NS_PER_DAY.
Proof.
  unfold normalize.
  pose proof (Z.div_mod t NS_PER_DAY).
  pose proof (Z.mod_pos_bound t NS_PER_DAY NS_PER_DAY_pos).
  set (q := t / NS_PER_DAY) in *. set (m := t mod NS_PER_DAY) in *.
  clearbody q m. unfold NS_PER_DAY in *. lia.
Qed.

Lemma mod_day_offset (q a : Z) :
  0 <= a < NS_PER_DAY -> (q * NS_PER_DAY + a) mod NS_PER_DAY = a.
Proof.
  intros Ha. rewrite Z.add_comm, Z.mod_add by discriminate.
  apply Z.mod_small. exact Ha.
Qed.

Lemma range_edges_D mn mx :
  get_timestamp_range_edges D mn mx = (normalize mn, normalize mx + NS_PER_DAY).
Proof.
  unfold get_timestamp_range_edges. cbv zeta.
  destruct (normalize_day_number mn) as [Hn [Hlo Hhi]].
  destruct (normalize_day_number mx) as [Hx [Hlo' Hhi']].
  rewrite Hn, Hx.
  set (q1 := mn / NS_PER_DAY) in *. set (q2 := mx / NS_PER_DAY) in *. clearbody q1 q2.
  assert (H1 : mn - q1 * NS_PER_DAY = 0 * NS_PER_DAY + (mn - q1 * NS_PER_DAY)) by lia.
  assert (H2 : mx - q1 * NS_PER_DAY
               = (q2 - q1) * NS_PER_DAY + (mx - q2 * NS_PER_DAY)) by lia.
  rewrite H1, H2, !mod_day_offset by lia.
  clear H1 H2 Hn Hx.
  destruct (Z.ltb_spec 0 (mn - q1 * NS_PER_DAY));
    destruct (Z.ltb_spec 0 (mx - q2 * NS_PER_DAY)); f_equal; lia.
Qed.



Lemma MonthBegin_rollback_normalize t :
  MonthBegin_rollback (normalize t) = month_start (month_index (Timestamp_date t)).
Proof.
  pose proof (normalize_spec t) as (Hmid & _ & Hdate).
  unfold MonthBegin_rollback. rewrite Hdate.
  destruct (Z.eqb_spec (day (Timestamp_date t)) 1) as [Hd|Hd].
  - rewrite <- Hdate. apply aligned_month_start.
    split; [exact Hmid | rewrite Hdate; exact Hd].
  - rewrite (shift_month_start_eq _ 0 Hmid), Hdate, Z.add_0_r. reflexivity.
Qed.

Lemma range_edges_MS mn mx :
  get_timestamp_range_edges MS mn mx
  = (month_start (month_index (Timestamp_date mn)),
     month_start (month_index (Timestamp_date mx) + 1)).
Proof.
  unfold get_timestamp_range_edges. cbv zeta.
  rewrite MonthBegin_rollback_normalize.
  pose proof (normalize_spec mx) as (Hmid & _ & Hdate).
  rewrite (shift_month_start_eq _ 1 Hmid), Hdate. reflexivity.
Qed.

(** The first edge is on a calendar boundary, and so is the last; the bin that
    starts at the first edge starts at or before the first value, and the
    last edge is after the last value. *)
Lemma range_edges_spec r mn mx :
  mn <= mx ->
  edge_aligned r (fst (get_timestamp_range_edges r mn mx))
  /\ edge_aligned r (snd (get_timestamp_range_edges r mn mx))
  /\ bin_start r (fst (get_timestamp_range_edges r mn mx)) <= mn
  /\ mx < snd (get_timestamp_range_edges r mn mx).
Proof.
  intros Hle. destruct r.
  - rewrite range_edges_D. cbn [fst snd bin_start closed_right].
    destruct (normalize_day_number mn) as [Hn [Hlo Hhi]].
    destruct (normalize_day_number mx) as [Hx [Hlo' Hhi']].
    rewrite Hn, Hx. repeat split; try lia.
    + apply Z.mod_mul; discriminate.
    + replace (mx / NS_PER_DAY * NS_PER_DAY + NS_PER_DAY)
        with ((mx / NS_PER_DAY + 1) * NS_PER_DAY) by lia.
      apply Z.mod_mul; discriminate.
  - unfold get_timestamp_range_edges. cbv zeta. cbn [fst snd bin_start closed_right].
    destruct (normalize_day_number mn) as [Hn [Hlo Hhi]].
    destruct (normalize_day_number mx) as [Hx [Hlo' Hhi']].
    rewrite Hn, Hx.
    set (q1 := mn / NS_PER_DAY) in *. set (q2 := mx / NS_PER_DAY) in *. clearbody q1 q2.
    destruct (Week_apply_day (-1) q1 (or_intror eq_refl)) as (m1 & -> & Hm1 & _ & Hdn).
    destruct (Week_apply_day 1 q2 (or_introl eq_refl)) as (m2 & -> & Hm2 & Hup & _).
    specialize (Hdn eq_refl). specialize (Hup eq_refl).
    split; [apply edge_aligned_W_day; exists m1; auto|].
    split; [apply edge_aligned_W_day; exists m2; auto|].
    clear Hn Hx Hm1 Hm2. unfold NS_PER_DAY in *. lia.
  - rewrite range_edges_MS. cbn [fst snd bin_start closed_right].
    pose proof (month_start_bounds mn). pose proof (month_start_bounds mx).
    repeat split; try apply month_start_aligned; lia.
Qed.

(** ** The aggregator: the binner *)

Lemma generate_range_chain r fuel :
  forall cur end_,
    edge_aligned r cur ->
    (end_ < cur \/ end_ - cur < (Z.of_nat fuel - 1) * NS_PER_DAY) ->
    range_chain (offset_apply r) cur end_ (generate_range fuel r cur end_).
Proof.
  induction fuel as [|fuel IH]; intros cur end_ Ha Hf; cbn [generate_range].
  - cbn [range_chain]. unfold NS_PER_DAY in Hf. lia.
  - destruct (Z.leb_spec cur end_) as [Hle|Hgt]; cbn [range_chain]; [|exact Hgt].
    split; [reflexivity|]. split; [exact Hle|].
    destruct (offset_apply_aligned r cur Ha) as [Ha' Hstep].
    apply IH; [exact Ha'|]. right.
    generalize dependent (offset_apply r cur). intros nxt _ Hstep.
    unfold NS_PER_DAY in *. lia.
Qed.

Lemma date_range_chain r first last :
  edge_aligned r first ->
  range_chain (offset_apply r) first last (date_range r first last).
Proof.
  intros Ha. unfold date_range. apply generate_range_chain; [exact Ha|].
  destruct (Z.lt_ge_cases last first) as [Hlt|Hge]; [left; exact Hlt | right].
  pose proof (Z.div_mod (last - first) NS_PER_DAY) as Hdm.
  pose proof (Z.mod_pos_bound (last - first) NS_PER_DAY NS_PER_DAY_pos) as Hm.
  assert (Hq : 0 <= (last - first) / NS_PER_DAY)
    by (apply Z.div_pos; [lia | apply NS_PER_DAY_pos]).
  rewrite Nat2Z.inj_add, Z2Nat.id by exact Hq.
  set (q := (last - first) / NS_PER_DAY) in *.
  set (m := (last - first) mod NS_PER_DAY) in *. clearbody q m.
  unfold NS_PER_DAY in *. lia.
Qed.

Lemma pairs_cons2 {A} (x y : A) l : pairs (x :: y :: l) = (x, y) :: pairs (y :: l).
Proof. reflexivity. Qed.

(** The range from an edge on a calendar boundary: every edge is on a
    calendar boundary, each is the offset of the one before, the first is
    [cur], and the last is the last one that is not after [end_]. *)
Lemma range_chain_props r l :
  forall cur end_,
    range_chain (offset_apply r) cur end_ l ->
    edge_aligned r cur ->
    Forall (edge_aligned r) l
    /\ (forall p, In p (pairs l) -> snd p = offset_apply r (fst p))
    /\ (cur <= end_ ->
        (exists l', l = cur :: l')
        /\ exists init e, l = init ++ [e] /\ e <= end_ < offset_apply r e).
Proof.
  induction l as [|x l IH]; intros cur end_ Hc Ha.
  - cbn [range_chain] in Hc. split; [constructor|]. split; [intros p []|]. lia.
  - cbn [range_chain] in Hc. destruct Hc as (-> & Hle & Hc).
    destruct (offset_apply_aligned r cur Ha) as [Ha' Hstep].
    destruct (IH _ _ Hc Ha') as (Hall & Hpairs & Hlast).
    split; [constructor; assumption|]. split.
    + destruct l as [|y l]; [intros p []|].
      rewrite pairs_cons2. intros p [<-|Hp]; [|apply Hpairs, Hp].
      cbn [fst snd]. cbn [range_chain] in Hc. destruct Hc as (-> & _). reflexivity.
    + intros _. split; [exists l; reflexivity|].
      destruct l as [|y l].
      * exists [], cur. split; [reflexivity|]. cbn [range_chain] in Hc. lia.
      * assert (Hle' : offset_apply r cur <= end_)
          by (cbn [range_chain] in Hc; lia).
        destruct (Hlast Hle') as (_ & init & e & Hl & Hb).
        exists (cur :: init), e. rewrite Hl. split; [reflexivity | exact Hb].
Qed.

Lemma In_pairs_app {A} (l : list A) (a : A) p :
  In p (pairs l) -> In p (pairs (l ++ [a])).
Proof.
  induction l as [|x l IH]; [intros []|].
  destruct l as [|y l]; [intros []|].
  change ((x :: y :: l) ++ [a]) with (x :: y :: (l ++ [a])).
  rewrite !pairs_cons2. intros [<-|Hp]; [left; reflexivity|].
  right. apply IH, Hp.
Qed.

(** The binner and the bin edges that [get_time_bins] works with: the binner
    starts at the first range edge; each of its edges is on a calendar
    boundary and is the offset of the one before; the bin that starts at its
    first edge starts at or before the first value, and the bin that would
    start at its last edge starts after the last value. *)
Lemma binner_spec r mn mx :
  mn <= mx ->
  let first := fst (get_timestamp_range_edges r mn mx) in
  let last := snd (get_timestamp_range_edges r mn mx) in
  exists binner rest init e,
    adjust_bin_edges r (date_range r first last) mx
    = (binner, map (fun t => if closed_right r then t + NS_PER_DAY - 1 else t) binner)
    /\ binner = first :: rest
    /\ binner = init ++ [e]
    /\ Forall (edge_aligned r) binner
    /\ (forall p, In p (pairs binner) -> snd p = offset_apply r (fst p))
    /\ bin_start r first <= mn
    /\ mx < bin_start r e.
Proof.
  intros Hle first last.
  destruct (range_edges_spec r mn mx Hle) as (Hfa & Hla & Hlo & Hhi).
  fold first in Hfa, Hlo. fold last in Hla, Hhi.
  assert (Hfl : first <= last).
  { pose proof NS_PER_DAY_pos. unfold bin_start in Hlo.
    destruct (closed_right r); lia. }
  destruct (range_chain_props r _ _ _ (date_range_chain r first last Hfa) Hfa)
    as (Hall & Hpairs & Hends).
  destruct (Hends Hfl) as ((rest & Hhd) & init & e & Hinit & He).
  assert (Hea : edge_aligned r e).
  { rewrite Hinit in Hall. apply Forall_app in Hall. destruct Hall as [_ Hall].
    inversion Hall; assumption. }
  assert (Hel : e = last) by (apply (aligned_between r); assumption).
  assert (Hbs : forall t, t <= bin_start r t).
  { intros t. pose proof NS_PER_DAY_pos. unfold bin_start.
    destruct (closed_right r); lia. }
  generalize dependent (date_range r first last). intros B Hall Hpairs _ Hhd Hinit.
  clearbody first last.
  destruct r; cbn [adjust_bin_edges closed_right].
  - exists B, rest, init, e. rewrite map_id.
    repeat split; try assumption. specialize (Hbs e). lia.
  - destruct init as [|x0 init0] using rev_ind.
    + (* a single edge: the first edge would be after the last value *)
      exfalso. cbn [app] in Hinit. rewrite Hinit in Hhd.
      injection Hhd as Hef _. unfold bin_start in Hlo. cbn [closed_right] in Hlo.
      pose proof NS_PER_DAY_pos. lia.
    + clear IHinit0. rewrite <- app_assoc in Hinit. cbn [app] in Hinit.
      assert (Hrev : rev (map (fun t => t + NS_PER_DAY - 1) B)
                     = (e + NS_PER_DAY - 1) :: (x0 + NS_PER_DAY - 1)
                       :: rev (map (fun t => t + NS_PER_DAY - 1) init0)).
      { rewrite Hinit, map_app, rev_app_distr. reflexivity. }
      rewrite Hrev.
      destruct (Z.ltb_spec mx (x0 + NS_PER_DAY - 1)) as [Hcut|Hkeep].
      * assert (Hrl : removelast B = init0 ++ [x0]).
        { rewrite Hinit. change (init0 ++ [x0; e]) with (init0 ++ [x0] ++ [e]).
          rewrite app_assoc. apply removelast_last. }
        assert (Hrest : exists rest', init0 ++ [x0] = first :: rest').
        { rewrite Hinit in Hhd. destruct init0 as [|z init0].
          - cbn [app] in Hhd. injection Hhd as -> _. exists []. reflexivity.
          - cbn [app] in Hhd. injection Hhd as -> _. eexists. reflexivity. }
        destruct Hrest as (rest' & Hrest).
        exists (init0 ++ [x0]), rest', init0, x0.
        split.
        { f_equal; [exact Hrl|].
          rewrite Hinit. change (init0 ++ [x0; e]) with (init0 ++ [x0] ++ [e]).
          rewrite app_assoc, map_app. cbn [map]. apply removelast_last. }
        split; [exact Hrest|]. split; [reflexivity|].
        split.
        { rewrite Hinit in Hall. change (init0 ++ [x0; e]) with (init0 ++ [x0] ++ [e]) in Hall.
          rewrite app_assoc in Hall. apply Forall_app in Hall. apply Hall. }
        split.
        { intros p Hp. apply Hpairs. rewrite Hinit.
          change (init0 ++ [x0; e]) with (init0 ++ [x0] ++ [e]).
          rewrite app_assoc. apply In_pairs_app, Hp. }
        split; [exact Hlo|]. unfold bin_start. cbn [closed_right]. lia.
      * exists B, rest, (init0 ++ [x0]), e.
        split; [reflexivity|]. split; [exact Hhd|].
        split; [rewrite Hinit, <- app_assoc; reflexivity|].
        repeat split; try assumption. specialize (Hbs e). lia.
  - exists B, rest, init, e. rewrite map_id.
    repeat split; try assumption. specialize (Hbs e). lia.
Qed.

(** ** The aggregator: sorting the rows *)

Lemma insert_row_In r l x : In x (insert_row r l) <-> x = r \/ In x l.
Proof.
  induction l as [|y l IH]; cbn [insert_row].
  - simpl. intuition.
  - destruct (fst r <=? fst y); simpl.
    + intuition.
    + rewrite IH. intuition.
Qed.

Lemma sort_index_In l x : In x (sort_index l) <-> In x l.
Proof.
  induction l as [|r l IH]; [reflexivity|].
  cbn [sort_index fold_right]. fold (sort_index l).
  rewrite insert_row_In, IH. simpl. intuition.
Qed.

Lemma is_monotonic_increasing_cons_iff t ts :
  is_monotonic_increasing (t :: ts) = true
  <-> Forall (fun u => t <= u) ts /\ is_monotonic_increasing ts = true.
Proof.
  split.
  - intros H. apply is_monotonic_increasing_cons in H. tauto.
  - intros [Hall Hm]. destruct ts as [|u ts]; [reflexivity|].
    change (((t <=? u) && is_monotonic_increasing (u :: ts)) = true).
    inversion Hall; subst. apply andb_true_iff. split; [apply Z.leb_le; assumption|exact Hm].
Qed.

Lemma insert_row_monotonic r l :
  is_monotonic_increasing (map fst l) = true ->
  is_monotonic_increasing (map fst (insert_row r l)) = true.
Proof.
  induction l as [|y l IH]; intros Hm; [reflexivity|].
  cbn [insert_row]. cbn [map] in Hm.
  destruct (Z.leb_spec (fst r) (fst y)) as [Hle|Hgt].
  - cbn [map]. apply is_monotonic_increasing_cons_iff. split; [|exact Hm].
    apply is_monotonic_increasing_cons_iff in Hm. destruct Hm as [Hall _].
    constructor; [exact Hle|].
    eapply List.Forall_impl; [|exact Hall]. simpl. intros; lia.
  - cbn [map]. apply is_monotonic_increasing_cons_iff in Hm. destruct Hm as [Hall Hm].
    apply is_monotonic_increasing_cons_iff. split; [|apply IH, Hm].
    apply List.Forall_forall. intros u Hu. apply in_map_iff in Hu.
    destruct Hu as (x & <- & Hx). apply insert_row_In in Hx.
    destruct Hx as [->|Hx]; [lia|].
    rewrite List.Forall_forall in Hall. apply Hall. apply in_map. exact Hx.
Qed.

Lemma sort_index_monotonic l :
  is_monotonic_increasing (map fst (sort_index l)) = true.
Proof.
  induction l as [|r l IH]; [reflexivity|].
  cbn [sort_index fold_right]. fold (sort_index l).
  apply insert_row_monotonic, IH.
Qed.

Lemma sort_index_id l :
  is_monotonic_increasing (map fst l) = true -> sort_index l = l.
Proof.
  induction l as [|r l IH]; intros Hm; [reflexivity|].
  cbn [map] in Hm. apply is_monotonic_increasing_cons in Hm. destruct Hm as [Hm Hall].
  cbn [sort_index fold_right]. fold (sort_index l). rewrite (IH Hm).
  destruct l as [|y l]; [reflexivity|].
  cbn [insert_row]. inversion Hall as [|? ? Hy _]; subst.
  replace (fst r <=? fst y) with true by (symmetry; apply Z.leb_le; exact Hy).
  reflexivity.
Qed.

Lemma sorted_rows_eq df :
  (if is_monotonic_increasing (index df) then rows df else sort_index (rows df))
  = sort_index (rows df).
Proof.
  destruct (is_monotonic_increasing (index df)) eqn:Hm; [|reflexivity].
  symmetry. apply sort_index_id. exact Hm.
Qed.

(** ** The aggregator: labels and groups *)

Lemma map_snd_pairs {A} (x : A) l : map snd (pairs (x :: l)) = l.
Proof.
  unfold pairs. cbn [tl]. revert x. induction l as [|y l IH]; intros x; [reflexivity|].
  cbn [combine map snd]. f_equal. apply IH.
Qed.

Lemma map_fst_pairs {A} (x : A) l :
  map fst (pairs (x :: l)) = firstn (length l) (x :: l).
Proof.
  unfold pairs. cbn [tl]. revert x. induction l as [|y l IH]; intros x; [reflexivity|].
  cbn [combine map fst length firstn]. f_equal. apply IH.
Qed.

Lemma pairs_map {A B} (f : A -> B) (l : list A) :
  pairs (map f l) = map (fun p => (f (fst p), f (snd p))) (pairs l).
Proof.
  destruct l as [|x l]; [reflexivity|].
  unfold pairs. cbn [tl map]. revert x. induction l as [|y l IH]; intros x; [reflexivity|].
  cbn [combine map fst snd]. f_equal. apply IH.
Qed.

Lemma In_pairs_fst {A} (l : list A) p : In p (pairs l) -> In (fst p) l.
Proof.
  intros H. unfold pairs in H. destruct p as [a b].
  apply in_combine_l in H. exact H.
Qed.


(** A value from the first of a list of bounds on and before the last lies
    between two neighbours. *)
Lemma between_neighbours (x : Z) (l : list Z) (init : list Z) (e v : Z) :
  x :: l = init ++ [e] -> x <= v < e ->
  exists p, In p (pairs (x :: l)) /\ fst p <= v < snd p.
Proof.
  revert x init. induction l as [|y l IH]; intros x init Hl Hv.
  - destruct init as [|z init].
    + injection Hl as ->. lia.
    + injection Hl as _ Hl. destruct init; discriminate.
  - destruct (Z.lt_ge_cases v y) as [Hlt|Hge].
    + exists (x, y). split; [left; reflexivity | simpl; lia].
    + destruct init as [|z init]; [discriminate|].
      injection Hl as _ Hl.
      destruct (IH y init Hl ltac:(lia)) as (p & Hp & Hb).
      exists p. split; [rewrite pairs_cons2; right; exact Hp | exact Hb].
Qed.

(** The edges of a binner are in ascending order. *)
Lemma binner_edges_monotonic r (f : Timestamp -> Timestamp) binner :
  (forall a b, a <= b -> f a <= f b) ->
  Forall (edge_aligned r) binner ->
  (forall p, In p (pairs binner) -> snd p = offset_apply r (fst p)) ->
  is_monotonic_increasing (map f binner) = true.
Proof.
  intros Hf. induction binner as [|x l IH]; intros Hall Hpairs; [reflexivity|].
  destruct l as [|y l]; [reflexivity|].
  inversion Hall as [|? ? Hx Hl]; subst.
  cbn [map]. change (((f x <=? f y) && is_monotonic_increasing (map f (y :: l))) = true).
  apply andb_true_iff. split.
  - apply Z.leb_le, Hf.
    pose proof (Hpairs (x, y) (or_introl eq_refl)) as Hy. cbn [fst snd] in Hy.
    destruct (offset_apply_aligned r x Hx) as [_ Hstep].
    pose proof NS_PER_DAY_pos. lia.
  - apply IH; [exact Hl|]. intros p Hp. apply Hpairs.
    rewrite pairs_cons2. right. exact Hp.
Qed.

(** What [get_time_bins] returns for an index with a value: the label of each
    pair of neighbours of the binner, and for each the position of the first
    value that is not before the start of the bin after it. *)
Lemma get_time_bins_eq r t ts :
  exists binner rest init e,
    binner = fst (get_timestamp_range_edges r (list_min t ts) (list_max t ts)) :: rest
    /\ binner = init ++ [e]
    /\ Forall (edge_aligned r) binner
    /\ (forall p, In p (pairs binner) -> snd p = offset_apply r (fst p))
    /\ bin_start r (fst (get_timestamp_range_edges r (list_min t ts) (list_max t ts)))
       <= list_min t ts
    /\ list_max t ts < bin_start r e
    /\ searchsorted_left (t :: ts)
         (bin_start r (fst (get_timestamp_range_edges r (list_min t ts) (list_max t ts))))
       = O
    /\ get_time_bins r (t :: ts)
       = (map (bin_label r) (pairs binner),
          map (fun b => searchsorted_left (t :: ts) (bin_start r b)) rest).
Proof.
  destruct (binner_spec r (list_min t ts) (list_max t ts) (list_min_le_max t ts))
    as (binner & rest & init & e & Hadj & Hhd & Hinit & Hall & Hpairs & Hlo & Hhi).
  exists binner, rest, init, e.
  assert (Hzero : searchsorted_left (t :: ts)
            (bin_start r (fst (get_timestamp_range_edges r (list_min t ts) (list_max t ts))))
          = O).
  { apply (searchsorted_left_above _ (list_min t ts)); [exact Hlo|].
    destruct (list_min_spec t ts) as [H1 H2]. constructor; assumption. }
  repeat (split; [assumption|]).
  unfold get_time_bins.
  destruct (get_timestamp_range_edges r (list_min t ts) (list_max t ts))
    as [first last] eqn:Hedges.
  cbn [fst snd] in *. rewrite Hadj.
  set (edge := fun t0 => if closed_right r then t0 + NS_PER_DAY - 1 else t0) in *.
  assert (Hbins : generate_bins (closed_right r) (t :: ts) 0 (tl (map edge binner))
                  = map (fun b => searchsorted_left (t :: ts) (bin_start r b)) rest).
  { rewrite Hhd. cbn [map tl].
    assert (Hnext : forall b,
              (if closed_right r then edge b + 1 else edge b) = bin_start r b).
    { intros b. unfold edge, bin_start. destruct (closed_right r); lia. }
    rewrite <- Hzero, <- (Hnext first).
    rewrite (generate_bins_cut (closed_right r) (t :: ts) (edge first) (map edge rest)).
    - rewrite map_map. apply map_ext. intros b. rewrite Hnext. reflexivity.
    - change (edge first :: map edge rest) with (map edge (first :: rest)).
      rewrite <- Hhd. apply (binner_edges_monotonic r); try assumption.
      intros a b Hab. unfold edge. destruct (closed_right r); lia. }
  rewrite Hbins. f_equal.
  rewrite length_map. rewrite Hhd.
  unfold bin_label. destruct r; cbn [label_right tl].
  - rewrite <- map_fst_pairs. apply map_ext. reflexivity.
  - rewrite firstn_all. rewrite <- (map_snd_pairs first rest) at 1.
    apply map_ext. reflexivity.
  - rewrite <- map_fst_pairs. apply map_ext. reflexivity.
Qed.

Lemma column_position_existsb name cols i :
  column_position name cols = Some i -> existsb (String.eqb name) cols = true.
Proof.
  revert i. induction cols as [|c cs IH]; intros i H; [discriminate|].
  cbn [column_position] in H. cbn [existsb].
  destruct (String.eqb_spec c name) as [->|Hne].
  - rewrite String.eqb_refl. reflexivity.
  - destruct (column_position name cs) as [j|]; [|discriminate].
    rewrite (IH j eq_refl). apply orb_true_r.
Qed.

Lemma column_positions_agg_spec cols ci bi pi ti :
  column_position "Consumption (kWh)" cols = Some ci ->
  column_position "Bill (€)" cols = Some bi ->
  column_position "Price (cents/kWh)" cols = Some pi ->
  column_position "Temperature (°C)" cols = Some ti ->
  column_positions agg_spec cols
  = Return [(ci, agg_sum); (bi, agg_sum); (pi, agg_mean); (ti, agg_mean)].
Proof.
  intros Hc Hb Hp Ht. unfold column_positions, missing_columns, agg_spec.
  cbn [map fst List.filter].
  rewrite (column_position_existsb _ _ _ Hc), (column_position_existsb _ _ _ Hb),
    (column_position_existsb _ _ _ Hp), (column_position_existsb _ _ _ Ht).
  cbn [negb fold_right flat_map List.app]. rewrite Hc, Hb, Hp, Ht. reflexivity.
Qed.

Lemma sort_index_cons r l : exists t ts, map fst (sort_index (r :: l)) = t :: ts.
Proof.
  destruct (sort_index (r :: l)) as [|x s] eqn:Hs.
  - assert (Hin : In r (sort_index (r :: l))) by (apply sort_index_In; left; reflexivity).
    rewrite Hs in Hin. destruct Hin.
  - exists (fst x), (map fst s). reflexivity.
Qed.

(** The aggregated frame: one row for each pair of neighbours of the binner,
    under the label of the pair, with the reductions of the rows from the
    start of the bin of the first to the start of the bin of the second. *)
Lemma resample_agg_eq r df ci bi pi ti row0 rest0 :
  column_position "Consumption (kWh)" (columns df) = Some ci ->
  column_position "Bill (€)" (columns df) = Some bi ->
  column_position "Price (cents/kWh)" (columns df) = Some pi ->
  column_position "Temperature (°C)" (columns df) = Some ti ->
  rows df = row0 :: rest0 ->
  exists t ts binner rest init e,
    map fst (sort_index (rows df)) = t :: ts
    /\ binner = fst (get_timestamp_range_edges r (list_min t ts) (list_max t ts)) :: rest
    /\ binner = init ++ [e]
    /\ Forall (edge_aligned r) binner
    /\ (forall p, In p (pairs binner) -> snd p = offset_apply r (fst p))
    /\ bin_start r (fst (get_timestamp_range_edges r (list_min t ts) (list_max t ts)))
       <= list_min t ts
    /\ list_max t ts < bin_start r e
    /\ resample_agg df r agg_spec
       = Return (mkDF (map fst agg_spec)
           (map (fun p =>
                   (bin_label r p,
                    bucket_values ci bi pi ti
                      (List.filter (in_range (bin_start r (fst p)) (bin_start r (snd p) - 1))
                                   (sort_index (rows df)))))
                (pairs binner))).
Proof.
  intros Hc Hb Hp Ht Hrows.
  destruct (sort_index_cons row0 rest0) as (t & ts & Hax). rewrite <- Hrows in Hax.
  destruct (get_time_bins_eq r t ts)
    as (binner & rest & init & e & Hhd & Hinit & Hall & Hpairs & Hlo & Hhi & Hzero & Hbins).
  exists t, ts, binner, rest, init, e.
  repeat (split; [assumption|]).
  unfold resample_agg.
  rewrite (column_positions_agg_spec _ ci bi pi ti Hc Hb Hp Ht).
  cbn [mbind py_bind]. rewrite sorted_rows_eq, Hax, Hbins.
  f_equal. f_equal.
  pose proof (sort_index_monotonic (rows df)) as Hmono.
  set (S := sort_index (rows df)) in *.
  rewrite <- Hzero, <- Hax.
  rewrite <- (map_map (bin_start r) (searchsorted_left (map fst S)) rest).
  rewrite (split_bins_cut S _ _ Hmono).
  change (bin_start r (fst (get_timestamp_range_edges r (list_min t ts) (list_max t ts)))
          :: map (bin_start r) rest)
    with (map (bin_start r)
            (fst (get_timestamp_range_edges r (list_min t ts) (list_max t ts)) :: rest)).
  rewrite <- Hhd, pairs_map, map_map, combine_map_map, map_map.
  apply map_ext. intros p. reflexivity.
Qed.

Lemma Week_apply_sunday b :
  edge_aligned W b -> Week_apply 1 6 b = b + 1 * (7 * NS_PER_DAY).
Proof.
  intros [_ Hwd]. unfold Week_apply. rewrite Hwd. reflexivity.
Qed.

(** The bin between two neighbours of the binner is the calendar interval of
    its label, and its label is on a calendar boundary. *)
Lemma bucket_of_pair r p :
  edge_aligned r (fst p) -> snd p = offset_apply r (fst p) ->
  edge_aligned r (bin_label r p)
  /\ bucket_interval r (bin_label r p) = (bin_start r (fst p), bin_start r (snd p)).
Proof.
  intros Ha Hs. destruct (offset_apply_aligned r (fst p) Ha) as [Ha' _].
  rewrite <- Hs in Ha'. destruct p as [b b']. cbn [fst snd] in *.
  destruct r.
  - split; [exact Ha|]. subst b'. reflexivity.
  - split; [exact Ha'|].
    assert (Hb : b' = b + 1 * (7 * NS_PER_DAY))
      by (rewrite Hs; apply Week_apply_sunday, Ha).
    clear Hs Ha Ha'. subst b'.
    change (bin_label W (b, b + 1 * (7 * NS_PER_DAY))) with (b + 1 * (7 * NS_PER_DAY)).
    change (bucket_interval W (b + 1 * (7 * NS_PER_DAY)))
      with (b + 1 * (7 * NS_PER_DAY) - 6 * NS_PER_DAY,
            b + 1 * (7 * NS_PER_DAY) + NS_PER_DAY).
    change (bin_start W b) with (b + NS_PER_DAY).
    change (bin_start W (b + 1 * (7 * NS_PER_DAY)))
      with (b + 1 * (7 * NS_PER_DAY) + NS_PER_DAY).
    f_equal. unfold NS_PER_DAY. lia.
  - split; [exact Ha|]. subst b'. reflexivity.
Qed.

Lemma in_range_in_bucket r label lo hi row :
  bucket_interval r label = (lo, hi) ->
  in_range lo (hi - 1) row = in_bucket r label row.
Proof.
  intros H. unfold in_range, in_bucket. rewrite H. cbn [fst snd].
  apply eq_true_iff_eq. rewrite !andb_true_iff, !Z.leb_le, Z.ltb_lt. lia.
Qed.

Lemma label_of_start r label :
  edge_aligned r label ->
  start_aligned r (fst (bucket_interval r label))
  /\ label = fst (bucket_interval r label) + label_offset r.
Proof.
  intros Ha. destruct r; unfold label_offset; cbn [bucket_interval fst label_right].
  - split; [exact Ha | lia].
  - apply edge_aligned_W_day in Ha. destruct Ha as (n & -> & Hn).
    replace (n * NS_PER_DAY - 6 * NS_PER_DAY) with ((n - 6) * NS_PER_DAY) by lia.
    split; [|lia]. split; [apply Z.mod_mul; discriminate|].
    rewrite weekday_of_day. clear - Hn. Z.div_mod_to_equations. lia.
  - split; [exact Ha | lia].
Qed.

Lemma group_map_tag g : group_map (granularity_tag g) = Return (granularity_rule g).
Proof. destruct g; reflexivity. Qed.

(** The aggregator on a slice with the columns it reads.  For each of the
    three tags, the aggregator returns one row for
    each bin, in the long form of [melt].  A bin is a calendar day, a
    calendar week from Monday to Sunday, or a calendar month: it starts at
    midnight, of a Monday for the weekly rule and of a first of the month for
    the monthly one.  A daily or a monthly bin is labelled by its start; a
    weekly bin is labelled by the midnight of its last day, the Sunday, six
    days after its start.  The cells of a bin are the sum of the consumption,
    the sum of the bill, the mean of the price and the mean of the
    temperature over the rows of the slice in the bin, and every row of the
    slice is in the bin of some label. *)
Theorem prepare_chart_data_spec g df ci bi pi ti :
  column_position "Consumption (kWh)" (columns df) = Some ci ->
  column_position "Bill (€)" (columns df) = Some bi ->
  column_position "Price (cents/kWh)" (columns df) = Some pi ->
  column_position "Temperature (°C)" (columns df) = Some ti ->
  exists df_grouped,
    resample_agg df (granularity_rule g) agg_spec = Return df_grouped
    /\ prepare_chart_data df (granularity_tag g) = Return (melt df_grouped)
    /\ columns df_grouped
       = ["Consumption (kWh)"; "Bill (€)"; "Price (cents/kWh)"; "Temperature (°C)"]
    /\ Forall (fun b =>
         start_aligned (granularity_rule g) (fst (bucket_interval (granularity_rule g) (fst b)))
         /\ fst b = fst (bucket_interval (granularity_rule g) (fst b))
                    + label_offset (granularity_rule g)
         /\ snd b = bucket_values ci bi pi ti
                      (List.filter (in_bucket (granularity_rule g) (fst b))
                                   (sort_index (rows df))))
         (rows df_grouped)
    /\ (forall row, In row (rows df) ->
          exists b, In b (rows df_grouped)
                    /\ in_bucket (granularity_rule g) (fst b) row = true).
Proof.
  intros Hc Hb Hp Ht.
  pose proof (group_map_tag g) as Hgm.
  generalize dependent (granularity_rule g). intros r Hgm.
  destruct (rows df) as [|row0 rest0] eqn:Hrows.
  { (* no row: no bin *)
    assert (Hagg : resample_agg df r agg_spec = Return (mkDF (map fst agg_spec) [])).
    { unfold resample_agg.
      rewrite (column_positions_agg_spec _ ci bi pi ti Hc Hb Hp Ht).
      cbn [mbind py_bind]. rewrite sorted_rows_eq, Hrows. reflexivity. }
    eexists. split; [exact Hagg|]. split.
    { unfold prepare_chart_data. rewrite Hgm. cbn [mbind py_bind].
      rewrite Hagg. reflexivity. }
    split; [reflexivity|]. split; [constructor | intros row []]. }
  rewrite <- Hrows.
  destruct (resample_agg_eq r df ci bi pi ti row0 rest0 Hc Hb Hp Ht Hrows)
    as (t & ts & binner & rest & init & e & Hax & Hhd & Hinit & Hall & Hpairs
        & Hlo & Hhi & Hagg).
  eexists. split; [exact Hagg|].
  split.
  { unfold prepare_chart_data. rewrite Hgm. cbn [mbind py_bind].
    rewrite Hagg. reflexivity. }
  split; [reflexivity|].
  assert (Hpair : forall p, In p (pairs binner) ->
            edge_aligned r (bin_label r p)
            /\ bucket_interval r (bin_label r p)
               = (bin_start r (fst p), bin_start r (snd p))).
  { intros p Hp'. apply bucket_of_pair; [|apply Hpairs, Hp'].
    rewrite List.Forall_forall in Hall. apply Hall, In_pairs_fst, Hp'. }
  cbn [rows]. split.
  - apply List.Forall_forall. intros b Hb'. apply in_map_iff in Hb'.
    destruct Hb' as (p & <- & Hp'). cbn [fst snd].
    destruct (Hpair p Hp') as [Hal Hint].
    destruct (label_of_start r _ Hal) as [Hst Hlab].
    split; [exact Hst|]. split; [exact Hlab|].
    f_equal. apply filter_ext_rows. intros row.
    apply in_range_in_bucket. exact Hint.
  - intros row Hrow.
    assert (Hin : In (fst row) (t :: ts)).
    { rewrite <- Hax. apply in_map. apply sort_index_In. exact Hrow. }
    pose proof (list_min_max_bounds t ts (fst row) Hin) as Hb'.
    destruct (between_neighbours
                (bin_start r (fst (get_timestamp_range_edges r (list_min t ts) (list_max t ts))))
                (map (bin_start r) rest) (map (bin_start r) init) (bin_start r e) (fst row))
      as (q & Hq & Hv).
    { change (map (bin_start r)
                (fst (get_timestamp_range_edges r (list_min t ts) (list_max t ts)) :: rest)
              = map (bin_start r) init ++ [bin_start r e]).
      rewrite <- Hhd, Hinit, map_app. reflexivity. }
    { lia. }
    change (bin_start r (fst (get_timestamp_range_edges r (list_min t ts) (list_max t ts)))
            :: map (bin_start r) rest)
      with (map (bin_start r)
              (fst (get_timestamp_range_edges r (list_min t ts) (list_max t ts)) :: rest))
      in Hq.
    rewrite <- Hhd, pairs_map in Hq. apply in_map_iff in Hq.
    destruct Hq as (p & <- & Hp'). cbn [fst snd] in Hv.
    eexists. split.
    + apply in_map_iff. exists p. split; [reflexivity | exact Hp'].
    + cbn [fst]. destruct (Hpair p Hp') as [_ Hint].
      rewrite <- (in_range_in_bucket r _ _ _ row Hint).
      unfold in_range. apply andb_true_iff. rewrite !Z.leb_le. lia.
Qed.

Lemma prepare_chart_data_spec_witness :
  exists df_grouped,
    resample_agg three_hours (granularity_rule Daily) agg_spec = Return df_grouped
    /\ prepare_chart_data three_hours (granularity_tag Daily) = Return (melt df_grouped)
    /\ columns df_grouped
       = ["Consumption (kWh)"; "Bill (€)"; "Price (cents/kWh)"; "Temperature (°C)"]
    /\ Forall (fun b =>
         start_aligned (granularity_rule Daily)
                       (fst (bucket_interval (granularity_rule Daily) (fst b)))
         /\ fst b = fst (bucket_interval (granularity_rule Daily) (fst b))
                    + label_offset (granularity_rule Daily)
         /\ snd b = bucket_values 0 3 1 2
                      (List.filter (in_bucket (granularity_rule Daily) (fst b))
                                   (sort_index (rows three_hours))))
         (rows df_grouped)
    /\ (forall row, In row (rows three_hours) ->
          exists b, In b (rows df_grouped)
                    /\ in_bucket (granularity_rule Daily) (fst b) row = true).
Proof.
  apply (prepare_chart_data_spec Daily three_hours 0 3 1 2); reflexivity.
Defined.

(** The example of the specification: a bin whose rows have the
    consumptions 1.0, 2.0 and 3.0 sums to 6.0, and the price and the
    temperature of the same rows are averaged. *)
Example prepare_chart_data_three_hours :
  prepare_chart_data three_hours "Daily"
  = Return
      [ (mkts 2025 1 1 0, "Consumption (kWh)", 6%float);
        (mkts 2025 1 1 0, "Bill (€)",
         (1 * (10 / 100) + 2 * (20 / 100) + 3 * (30 / 100))%float);
        (mkts 2025 1 1 0, "Price (cents/kWh)", 20%float);
        (mkts 2025 1 1 0, "Temperature (°C)", (-2)%float) ].
Proof. vm_compute. reflexivity. Qed.

(** C2. The weekly rule labels a bin by its last day, where the daily and
    the monthly rule label it by its start.  The bin of a row on Wednesday
    2025-01-01 is labelled Sunday 2025-01-05, the last day of its week, and
    not Monday 2024-12-30, the day the bin starts; under the daily and the
    monthly rule the same row is reported under the start of its day and of
    its month. *)
Theorem weekly_label_is_week_end :
  prepare_chart_data one_wednesday "Weekly"
  = Return
      [ (mkts 2025 1 5 0, "Consumption (kWh)", 1%float);
        (mkts 2025 1 5 0, "Bill (€)", (1 * (2 / 100))%float);
        (mkts 2025 1 5 0, "Price (cents/kWh)", 2%float);
        (mkts 2025 1 5 0, "Temperature (°C)", 3%float) ]
  /\ index one_wednesday = [mkts 2025 1 1 12]
  /\ mkts 2025 1 1 12 < mkts 2025 1 5 0
  /\ Timestamp_weekday (mkts 2025 1 5 0) = 6
  /\ fst (bucket_interval W (mkts 2025 1 5 0)) = mkts 2024 12 30 0
  /\ mkts 2025 1 5 0 <> mkts 2024 12 30 0
  /\ (d ← resample_agg one_wednesday D agg_spec; Return (index d))
     = Return [mkts 2025 1 1 0]
  /\ (d ← resample_agg one_wednesday MS agg_spec; Return (index d))
     = Return [mkts 2025 1 1 0].
Proof.
  repeat split; try (vm_compute; reflexivity).
  vm_compute. discriminate.
Qed.

(* ================================================================= *)
(** * More of the pipeline *)

(** ** The loader: order and uniqueness of the timestamps *)

Lemma load_data_loaded w df_cons df_price :
  load_consumption w = Return df_cons ->
  load_price w = Return df_price ->
  columns df_cons = ["kWh"] ->
  columns df_price = ["Price"; "Temperature"] ->
  load_data w
  = ([], Return (mkDF (map snd loader_columns)
                   (map with_bill (inner_join_rows (rows df_cons) (rows df_price))))).
Proof.
  intros Hcons Hprice Hc Hp.
  destruct (join_dropna_rows df_cons df_price) as (joined & Hjoin & Hdrop).
  { rewrite Hc, Hp. reflexivity. }
  { rewrite Hp. discriminate. }
  rewrite Hc, Hp in Hdrop. simpl app in Hdrop.
  unfold load_data. rewrite Hcons, Hprice, Hjoin. simpl.
  rewrite Hdrop, add_bill_rows. reflexivity.
Qed.

Lemma index_with_bill rs : map fst (map with_bill rs) = map fst rs.
Proof. rewrite map_map. apply map_ext. intros r. reflexivity. Qed.

Lemma is_monotonic_increasing_app_const c xs ys :
  Forall (fun x => x = c) xs ->
  Forall (fun y => c <= y) ys ->
  is_monotonic_increasing ys = true ->
  is_monotonic_increasing (xs ++ ys) = true.
Proof.
  intros Hxs Hys Hm. induction Hxs as [|x xs -> Hxs IH]; [exact Hm|].
  cbn [app]. apply is_monotonic_increasing_cons_iff. split; [|exact IH].
  apply Forall_app. split; [|exact Hys].
  eapply List.Forall_impl; [|exact Hxs]. simpl. intros; lia.
Qed.

(** The rows the join keeps for one row [a] of the left table. *)
Lemma inner_join_rows_cons a left right :
  inner_join_rows (a :: left) right
  = flat_map (fun b =>
      if (fst b =? fst a) && forallb notna (snd a ++ snd b)
      then [(fst a, snd a ++ snd b)] else []) right
    ++ inner_join_rows left right.
Proof. reflexivity. Qed.

Lemma join_matches_fst (a : Timestamp * list float) right :
  Forall (fun x => x = fst a)
    (map fst (flat_map (fun b : Timestamp * list float =>
       if (fst b =? fst a) && forallb notna (snd a ++ snd b)
       then [(fst a, snd a ++ snd b)] else []) right)).
Proof.
  apply List.Forall_forall. intros x Hx. apply in_map_iff in Hx.
  destruct Hx as (r & <- & Hr). apply in_flat_map in Hr. destruct Hr as (b & _ & Hr).
  destruct ((fst b =? fst a) && forallb notna (snd a ++ snd b)); [|destruct Hr].
  destruct Hr as [<-|[]]. reflexivity.
Qed.

Lemma inner_join_rows_monotonic left right :
  is_monotonic_increasing (map fst left) = true ->
  is_monotonic_increasing (map fst (inner_join_rows left right)) = true.
Proof.
  induction left as [|a left IH]; intros Hm; [reflexivity|].
  cbn [map] in Hm. apply is_monotonic_increasing_cons_iff in Hm. destruct Hm as [Hall Hm].
  rewrite inner_join_rows_cons, map_app.
  apply (is_monotonic_increasing_app_const (fst a)).
  - apply join_matches_fst.
  - apply List.Forall_forall. intros t Ht. apply inner_join_rows_In in Ht.
    destruct Ht as (a' & b & Ha' & _ & <- & _).
    rewrite List.Forall_forall in Hall. apply Hall, in_map, Ha'.
  - apply IH, Hm.
Qed.

Lemma filter_monotonic (p : Timestamp * list float -> bool) l :
  is_monotonic_increasing (map fst l) = true ->
  is_monotonic_increasing (map fst (List.filter p l)) = true.
Proof.
  induction l as [|r l IH]; intros Hm; [reflexivity|].
  cbn [map] in Hm. apply is_monotonic_increasing_cons_iff in Hm. destruct Hm as [Hall Hm].
  cbn [List.filter]. destruct (p r); [|apply IH, Hm].
  cbn [map]. apply is_monotonic_increasing_cons_iff. split; [|apply IH, Hm].
  apply List.Forall_forall. intros t Ht. apply in_map_iff in Ht.
  destruct Ht as (x & <- & Hx). apply filter_In in Hx. destruct Hx as [Hx _].
  rewrite List.Forall_forall in Hall. apply Hall, in_map, Hx.
Qed.

(** The loader keeps the order of the consumption file: when the timestamps
    of the consumption table are in ascending order, so are those of the
    loaded frame, whatever the order of the price table.  The date-range
    filter then returns on every window of two days that pandas can take as
    slice bounds, and its result is in ascending order too. *)
Theorem load_data_keeps_order w df_cons df_price :
  load_consumption w = Return df_cons ->
  load_price w = Return df_price ->
  columns df_cons = ["kWh"] ->
  columns df_price = ["Price"; "Temperature"] ->
  is_monotonic_increasing (index df_cons) = true ->
  exists df,
    load_data w = ([], Return df)
    /\ is_monotonic_increasing (index df) = true
    /\ forall start_date end_date,
         valid_date start_date -> valid_date end_date ->
         in_bounds start_date -> in_bounds end_date ->
         exists out,
           filter_data_by_date_range df start_date end_date = Return out
           /\ is_monotonic_increasing (index out) = true.
Proof.
  intros Hcons Hprice Hc Hp Hm.
  eexists. split; [apply (load_data_loaded w df_cons df_price); assumption|].
  assert (Hidx : is_monotonic_increasing
                   (map fst (map with_bill (inner_join_rows (rows df_cons) (rows df_price))))
                 = true).
  { rewrite index_with_bill. apply inner_join_rows_monotonic, Hm. }
  split; [exact Hidx|].
  intros s e _ _ _ _. eexists. split.
  - unfold filter_data_by_date_range. apply loc_slice_monotonic. exact Hidx.
  - unfold index. cbn [rows]. apply filter_monotonic, Hidx.
Qed.

Lemma load_data_keeps_order_witness :
  exists df,
    load_data world_hours = ([], Return df)
    /\ is_monotonic_increasing (index df) = true
    /\ forall start_date end_date,
         valid_date start_date -> valid_date end_date ->
         in_bounds start_date -> in_bounds end_date ->
         exists out,
           filter_data_by_date_range df start_date end_date = Return out
           /\ is_monotonic_increasing (index out) = true.
Proof.
  apply (load_data_keeps_order world_hours consumption_frame_012 price_frame_123);
    reflexivity.
Defined.

Lemma join_matches_length (a : Timestamp * list float) right :
  List.NoDup (map fst right) ->
  (length (flat_map (fun b : Timestamp * list float =>
       if (fst b =? fst a)%Z && forallb notna (snd a ++ snd b)
       then [(fst a, snd a ++ snd b)] else []) right) <= 1)%nat.
Proof.
  induction right as [|b right IH]; intros Hnd; [simpl; lia|].
  cbn [map] in Hnd. inversion Hnd as [|? ? Hnotin Hnd']; subst.
  cbn [flat_map]. rewrite length_app.
  destruct (Z.eqb_spec (fst b) (fst a)) as [Heq|Hne].
  - rewrite flat_map_all_nil.
    + destruct (forallb notna (snd a ++ snd b)); simpl; lia.
    + intros x Hx. destruct (Z.eqb_spec (fst x) (fst a)) as [Hx'|]; [|reflexivity].
      exfalso. apply Hnotin. rewrite Heq, <- Hx'. apply in_map, Hx.
  - cbn [andb length]. specialize (IH Hnd'). simpl. lia.
Qed.

Lemma inner_join_rows_length left right :
  List.NoDup (map fst right) ->
  (length (inner_join_rows left right) <= length left)%nat.
Proof.
  intros Hnd. induction left as [|a left IH]; [simpl; lia|].
  rewrite inner_join_rows_cons, length_app.
  pose proof (join_matches_length a right Hnd). cbn [length]. lia.
Qed.

Lemma NoDup_at_most_one (c : Z) (xs : list Z) :
  Forall (fun x => x = c) xs -> (length xs <= 1)%nat -> List.NoDup xs.
Proof.
  intros _ Hlen. destruct xs as [|x [|y xs]]; simpl in Hlen; try lia.
  - constructor.
  - constructor; [intros [] | constructor].
Qed.

Lemma inner_join_rows_NoDup left right :
  List.NoDup (map fst left) -> List.NoDup (map fst right) ->
  List.NoDup (map fst (inner_join_rows left right)).
Proof.
  intros Hl Hr. induction left as [|a left IH]; [constructor|].
  cbn [map] in Hl. inversion Hl as [|? ? Hnotin Hl']; subst.
  rewrite inner_join_rows_cons, map_app.
  pose proof (join_matches_fst a right) as Hfst.
  apply List.NoDup_app.
  - apply (NoDup_at_most_one (fst a)); [exact Hfst|].
    rewrite length_map. apply join_matches_length, Hr.
  - apply IH, Hl'.
  - intros t Ht Ht'. rewrite List.Forall_forall in Hfst. rewrite (Hfst t Ht) in Ht'.
    apply inner_join_rows_In in Ht'. destruct Ht' as (a' & b & Ha' & _ & Heq & _).
    apply Hnotin. rewrite <- Heq. apply in_map, Ha'.
Qed.

(** When no timestamp occurs twice in the consumption table, nor in the
    price table, none occurs twice in the loaded frame; and when no timestamp
    occurs twice in the price table the join adds no row: the loaded frame
    has at most as many rows as the consumption table. *)
Theorem load_data_keeps_timestamps_unique w df_cons df_price :
  load_consumption w = Return df_cons ->
  load_price w = Return df_price ->
  columns df_cons = ["kWh"] ->
  columns df_price = ["Price"; "Temperature"] ->
  List.NoDup (index df_cons) ->
  List.NoDup (index df_price) ->
  exists df,
    load_data w = ([], Return df)
    /\ List.NoDup (index df)
    /\ (length (rows df) <= length (rows df_cons))%nat.
Proof.
  intros Hcons Hprice Hc Hp Hl Hr.
  eexists. split; [apply (load_data_loaded w df_cons df_price); assumption|].
  unfold index. cbn [rows]. split.
  - rewrite index_with_bill. apply inner_join_rows_NoDup; assumption.
  - rewrite length_map. apply inner_join_rows_length, Hr.
Qed.

Lemma concrete_NoDup (l : list Z) :
  (fix distinct (l : list Z) : bool :=
     match l with
     | [] => true
     | x :: l' => negb (existsb (Z.eqb x) l') && distinct l'
     end) l = true ->
  List.NoDup l.
Proof.
  induction l as [|x l IH]; intros H; [constructor|].
  apply andb_true_iff in H. destruct H as [Hx Hl].
  constructor; [|apply IH, Hl].
  intros Hin. apply negb_true_iff in Hx.
  assert (Hex : existsb (Z.eqb x) l = true)
    by (apply existsb_exists; exists x; split; [exact Hin | apply Z.eqb_refl]).
  congruence.
Defined.

Lemma load_data_keeps_timestamps_unique_witness :
  exists df,
    load_data world_hours = ([], Return df)
    /\ List.NoDup (index df)
    /\ (length (rows df) <= length (rows consumption_frame_012))%nat.
Proof.
  apply (load_data_keeps_timestamps_unique world_hours consumption_frame_012
           price_frame_123);
    try reflexivity; apply concrete_NoDup; reflexivity.
Defined.

(** ** The loader: errors it does not catch, and the application *)

Lemma app_load_raises w e :
  load_data w = ([], Raise e) -> forall ui, app w ui = ([], Raise e).
Proof. intros H ui. unfold app. rewrite H. reflexivity. Qed.

(** A table without the column of dates is not an ingestion fault the
    loader catches: [KeyError] is neither [FileNotFoundError] nor
    [ValueError], so the loader raises it, with nothing written to the page,
    and so does the application. *)
Theorem load_data_raises_on_missing_column w key :
  column_missing w key ->
  load_data w = ([], Raise (KeyError key))
  /\ forall ui, app w ui = ([], Raise (KeyError key)).
Proof.
  intros H.
  assert (Hload : load_data w = ([], Raise (KeyError key))).
  { destruct H as [table Hread Hname _ | df_cons table Hcons Hread Hname _].
    - unfold load_data, load_consumption, pd_read_csv, csv_getcol.
      rewrite Hread. cbn [mbind py_bind].
      destruct (String.eqb_spec (time_name table) "time") as [Heq|_]; [contradiction|].
      reflexivity.
    - unfold load_data. rewrite Hcons.
      unfold load_price, pd_read_csv, csv_getcol.
      rewrite Hread. cbn [mbind py_bind].
      destruct (String.eqb_spec (time_name table) "timestamp") as [Heq|_]; [contradiction|].
      reflexivity. }
  split; [exact Hload | apply app_load_raises, Hload].
Qed.

Lemma load_data_raises_on_missing_column_witness :
  load_data world_price_without_timestamp = ([], Raise (KeyError "timestamp"))
  /\ forall ui, app world_price_without_timestamp ui = ([], Raise (KeyError "timestamp")).
Proof.
  apply load_data_raises_on_missing_column.
  apply (price_without_timestamp world_price_without_timestamp consumption_frame_012
           (mkCsv "time" ["Price"; "Temperature"]
              [ ("01:00 03/01/2025", [5%float; (-3)%float]) ])).
  - reflexivity.
  - reflexivity.
  - discriminate.
  - intros [H|[H|[]]]; discriminate H.
Defined.

Lemma filter_In_cons {A} (p : A -> bool) (l : list A) (x : A) :
  In x l -> p x = true -> exists y ys, List.filter p l = y :: ys.
Proof.
  intros Hx Hp. destruct (List.filter p l) as [|y ys] eqn:E; [|eauto].
  exfalso. assert (Hin : In x (List.filter p l)) by (apply filter_In; auto).
  rewrite E in Hin. destruct Hin.
Qed.

(** The join is outside the two [try] blocks: when the two tables have a
    column of the same name, [join] raises [ValueError] (the columns overlap
    and no suffix is given), the loader lets it through with nothing written
    to the page, and the application raises. *)
Theorem load_data_raises_on_shared_column w df_cons df_price c :
  load_consumption w = Return df_cons ->
  load_price w = Return df_price ->
  In c (columns df_cons) -> In c (columns df_price) ->
  exists cols,
    In c cols
    /\ load_data w = ([], Raise (ValueError (ColumnsOverlap cols)))
    /\ forall ui, app w ui = ([], Raise (ValueError (ColumnsOverlap cols))).
Proof.
  intros Hcons Hprice Hl Hr.
  set (shared := List.filter (fun c => existsb (String.eqb c) (columns df_price))
                             (columns df_cons)).
  assert (Hin : In c shared).
  { apply filter_In. split; [exact Hl|]. apply existsb_exists.
    exists c. split; [exact Hr | apply String.eqb_refl]. }
  assert (Hload : load_data w = ([], Raise (ValueError (ColumnsOverlap shared)))).
  { unfold load_data. rewrite Hcons, Hprice. unfold join. fold shared.
    destruct shared as [|c' cs]; [destruct Hin | reflexivity]. }
  exists shared. split; [exact Hin|]. split; [exact Hload | apply app_load_raises, Hload].
Qed.

Lemma load_data_raises_on_shared_column_witness :
  exists cols,
    In "Temperature" cols
    /\ load_data world_shared_column = ([], Raise (ValueError (ColumnsOverlap cols)))
    /\ forall ui,
         app world_shared_column ui = ([], Raise (ValueError (ColumnsOverlap cols))).
Proof.
  apply (load_data_raises_on_shared_column world_shared_column
           (mkDF ["kWh"; "Temperature"] [ (mkts 2025 3 1 1, [2%float; (-3)%float]) ])
           price_frame_123).
  - reflexivity.
  - reflexivity.
  - right. left. reflexivity.
  - right. left. reflexivity.
Defined.

Lemma date_gt_not_le a b : date_gt a b = true -> date_le a b = false.
Proof. unfold date_gt, date_le. destruct (date_cmp a b); congruence. Qed.

Lemma date_le_not_gt a b : date_le a b = true -> date_gt a b = false.
Proof. unfold date_gt, date_le. destruct (date_cmp a b); congruence. Qed.

Ltac st_step :=
  cbn [mbind ST_bind mret ST_ret emit lift negb w_start_date w_end_date
       w_group_by w_metric_to_display].

(** With a frame loaded and a start date after the end date, the application
    draws the header and the sidebar, writes the error about the dates and
    stops: the frame is not sliced and no metric is computed, so nothing is
    raised, whatever the frame holds. *)
Theorem app_inverted_window w ui log df :
  load_data w = (log, Return df) ->
  df_empty df = false ->
  date_gt (w_start_date ui) (w_end_date ui) = true ->
  app w ui
  = (log ++ [ render "render_main_header"; render "sidebar";
              st_error "⚠️ Error: End date must be after start date." ],
     Return tt).
Proof.
  intros Hload Hne Hgt. unfold app, render_sidebar_controls.
  rewrite Hload. cbn [mbind ST_bind]. rewrite Hne. st_step.
  rewrite (date_gt_not_le _ _ Hgt). st_step.
  rewrite Hgt. reflexivity.
Qed.

Lemma app_inverted_window_witness :
  app world_hours inverted_widgets
  = ([] ++ [ render "render_main_header"; render "sidebar";
             st_error "⚠️ Error: End date must be after start date." ],
     Return tt).
Proof.
  apply (app_inverted_window world_hours inverted_widgets [] loaded_hours);
    reflexivity.
Defined.

Lemma df_empty_no_row cols : df_empty (mkDF cols []) = true.
Proof. destruct cols; reflexivity. Qed.

Lemma filter_window df s e :
  valid_date s -> valid_date e ->
  is_monotonic_increasing (index df) = true ->
  loc_slice df (day_lower_bound s) (day_upper_bound e)
  = Return (mkDF (columns df) (List.filter (date_in_window s e) (rows df))).
Proof.
  intros Hs He Hm. rewrite loc_slice_monotonic by exact Hm.
  f_equal. f_equal. apply filter_ext_rows. intros r.
  apply in_range_date_in_window; assumption.
Qed.

(** With a frame loaded whose index is in ascending order and a window that
    holds none of its rows, the application writes the warning that there is
    no data and stops there: no column is read, so the outcome does not
    depend on the labels of the columns. *)
Theorem app_no_data_in_window w ui log df :
  load_data w = (log, Return df) ->
  df_empty df = false ->
  is_monotonic_increasing (index df) = true ->
  valid_date (w_start_date ui) -> valid_date (w_end_date ui) ->
  date_le (w_start_date ui) (w_end_date ui) = true ->
  (forall r, In r (rows df) ->
             date_in_window (w_start_date ui) (w_end_date ui) r = false) ->
  app w ui
  = (log ++ [ render "render_main_header"; render "sidebar";
              render "render_section_header";
              st_warning "No data available for the selected date range." ],
     Return tt).
Proof.
  intros Hload Hne Hm Hs He Hle Hout.
  unfold app, render_sidebar_controls, filter_data_by_date_range.
  rewrite Hload. cbn [mbind ST_bind]. rewrite Hne. st_step.
  rewrite Hle, (filter_window df _ _ Hs He Hm).
  rewrite (proj2 (filter_nil_iff _ _) Hout). st_step.
  rewrite df_empty_no_row. st_step.
  rewrite (date_le_not_gt _ _ Hle), (filter_window df _ _ Hs He Hm).
  rewrite (proj2 (filter_nil_iff _ _) Hout). st_step.
  rewrite df_empty_no_row. reflexivity.
Qed.

Lemma app_no_data_in_window_witness :
  app world_hours april_widgets
  = ([] ++ [ render "render_main_header"; render "sidebar";
             render "render_section_header";
             st_warning "No data available for the selected date range." ],
     Return tt).
Proof.
  apply (app_no_data_in_window world_hours april_widgets [] loaded_hours).
  - reflexivity.
  - reflexivity.
  - reflexivity.
  - apply valid_dateb_spec. reflexivity.
  - apply valid_dateb_spec. reflexivity.
  - reflexivity.
  - intros r [<-|[<-|[]]]; reflexivity.
Defined.

(** The application on the frame its own loader makes: when the two tables
    load, the consumption table is in ascending order and a row that the join
    keeps has its date in the window, the application draws the header, the
    sidebar and the section header, and the metrics engine then raises
    [KeyError] on the bill column, which the loader has labelled with other
    characters. *)
Theorem app_raises_on_loaded_data w ui df_cons df_price a b :
  load_consumption w = Return df_cons ->
  load_price w = Return df_price ->
  columns df_cons = ["kWh"] ->
  columns df_price = ["Price"; "Temperature"] ->
  is_monotonic_increasing (index df_cons) = true ->
  valid_date (w_start_date ui) -> valid_date (w_end_date ui) ->
  date_le (w_start_date ui) (w_end_date ui) = true ->
  In a (rows df_cons) -> In b (rows df_price) -> fst a = fst b ->
  forallb notna (snd a ++ snd b) = true ->
  date_in_window (w_start_date ui) (w_end_date ui) a = true ->
  app w ui
  = ([ render "render_main_header"; render "sidebar"; render "render_section_header" ],
     Raise (KeyError "Bill (€)")).
Proof.
  intros Hcons Hprice Hc Hp Hm Hs He Hle Ha Hb Hab Hna Hwin.
  pose proof (load_data_loaded w df_cons df_price Hcons Hprice Hc Hp) as Hload.
  set (loaded := map with_bill (inner_join_rows (rows df_cons) (rows df_price))) in *.
  assert (Hidx : is_monotonic_increasing (index (mkDF (map snd loader_columns) loaded)) = true).
  { unfold index, loaded. cbn [rows]. rewrite index_with_bill.
    apply inner_join_rows_monotonic, Hm. }
  assert (Hin : exists r, In r loaded /\ fst r = fst a).
  { assert (Ht : In (fst a) (map fst (inner_join_rows (rows df_cons) (rows df_price)))).
    { apply inner_join_rows_In. exists a, b. auto. }
    apply in_map_iff in Ht. destruct Ht as (r & Hr & Hin).
    exists (with_bill r). split; [apply in_map, Hin | exact Hr]. }
  destruct Hin as (r & Hr & Hra).
  assert (Hrw : date_in_window (w_start_date ui) (w_end_date ui) r = true).
  { unfold date_in_window in *. rewrite Hra. exact Hwin. }
  destruct (filter_In_cons _ _ _ Hr Hrw) as (y & ys & Hf).
  unfold app, render_sidebar_controls, filter_data_by_date_range.
  rewrite Hload.
  destruct loaded as [|r0 rest0] eqn:Hl; [destruct Hr|]. rewrite <- Hl in *.
  assert (Hne : df_empty (mkDF (map snd loader_columns) loaded) = false)
    by (rewrite Hl; reflexivity).
  cbn [mbind ST_bind]. rewrite Hne. st_step.
  assert (Hne' : df_empty (mkDF (map snd loader_columns) (y :: ys)) = false)
    by reflexivity.
  assert (Hget : getcol (mkDF (map snd loader_columns) (y :: ys)) "Consumption (kWh)"
                 = Return (map (cell 0) (y :: ys))) by reflexivity.
  assert (Hmet : calculate_overall_metrics (mkDF (map snd loader_columns) (y :: ys))
                   (w_start_date ui) (w_end_date ui)
                 = Raise (KeyError "Bill (€)")) by reflexivity.
  rewrite Hle, (filter_window _ _ _ Hs He Hidx). cbn [rows columns].
  rewrite Hf, Hne', Hget. st_step.
  rewrite (date_le_not_gt _ _ Hle), (filter_window _ _ _ Hs He Hidx). cbn [rows columns].
  rewrite Hf. st_step. rewrite Hne'. st_step. rewrite Hmet. reflexivity.
Qed.

Lemma app_raises_on_loaded_data_witness :
  app world_hours sample_widgets
  = ([ render "render_main_header"; render "sidebar"; render "render_section_header" ],
     Raise (KeyError "Bill (€)")).
Proof.
  apply (app_raises_on_loaded_data world_hours sample_widgets consumption_frame_012
           price_frame_123 (mkts 2025 3 1 1, [2%float])
           (mkts 2025 3 1 1, [5%float; (-3)%float])).
  - reflexivity.
  - reflexivity.
  - reflexivity.
  - reflexivity.
  - reflexivity.
  - apply valid_dateb_spec. reflexivity.
  - apply valid_dateb_spec. reflexivity.
  - reflexivity.
  - right. left. reflexivity.
  - left. reflexivity.
  - reflexivity.
  - reflexivity.
  - reflexivity.
Defined.

(** ** The date-range filter: windows that are inverted or nested *)

Lemma date_in_window_inverted s e r :
  valid_date s -> valid_date e -> date_gt s e = true ->
  date_in_window s e r = false.
Proof.
  intros Hs He Hgt. apply date_gt_ord in Hgt; [|assumption..].
  unfold date_in_window. apply not_true_is_false. intros H.
  apply andb_true_iff in H. destruct H as [H1 H2].
  apply date_le_ord in H1; [|auto using Timestamp_date_valid..].
  apply date_le_ord in H2; [|auto using Timestamp_date_valid..].
  lia.
Qed.

(** On a frame whose index is in ascending order, a window whose start date
    is after its end date, both among the days pandas can take as slice
    bounds, gives the frame with the same columns and no row: the slice does
    not raise. *)
Theorem filter_inverted_window_empty df start_date end_date :
  valid_date start_date -> valid_date end_date ->
  in_bounds start_date -> in_bounds end_date ->
  date_gt start_date end_date = true ->
  is_monotonic_increasing (index df) = true ->
  filter_data_by_date_range df start_date end_date = Return (mkDF (columns df) []).
Proof.
  intros Hs He _ _ Hgt Hm. unfold filter_data_by_date_range.
  rewrite (filter_window df _ _ Hs He Hm). f_equal. f_equal.
  apply filter_nil_iff. intros r _. apply date_in_window_inverted; assumption.
Qed.

Lemma filter_inverted_window_empty_witness :
  filter_data_by_date_range march_2025 (mkdate 2025 3 2) (mkdate 2025 3 1)
  = Return (mkDF (columns march_2025) []).
Proof.
  apply filter_inverted_window_empty.
  - apply valid_dateb_spec. reflexivity.
  - apply valid_dateb_spec. reflexivity.
  - split; vm_compute; discriminate.
  - split; vm_compute; discriminate.
  - reflexivity.
  - reflexivity.
Defined.

Lemma filter_filter_implied {A} (p q : A -> bool) (l : list A) :
  (forall x, q x = true -> p x = true) ->
  List.filter q (List.filter p l) = List.filter q l.
Proof.
  intros H. induction l as [|x l IH]; [reflexivity|].
  cbn [List.filter]. destruct (p x) eqn:Hp.
  - cbn [List.filter]. rewrite IH. reflexivity.
  - destruct (q x) eqn:Hq; [|exact IH].
    apply H in Hq. congruence.
Qed.

Lemma date_in_window_nested s1 e1 s2 e2 r :
  valid_date s1 -> valid_date e1 -> valid_date s2 -> valid_date e2 ->
  date_le s1 s2 = true -> date_le e2 e1 = true ->
  date_in_window s2 e2 r = true -> date_in_window s1 e1 r = true.
Proof.
  intros Hs1 He1 Hs2 He2 Hs He. unfold date_in_window.
  rewrite !andb_true_iff. intros [H1 H2].
  pose proof (Timestamp_date_valid (fst r)) as Hv.
  apply date_le_ord in Hs; [|assumption..]. apply date_le_ord in He; [|assumption..].
  apply date_le_ord in H1; [|assumption..]. apply date_le_ord in H2; [|assumption..].
  split; apply date_le_ord; try assumption; lia.
Qed.

(** Filtering composes: on a frame whose index is in ascending order,
    filtering by a window and then by a window inside it gives what filtering
    by the inner window gives.  With the same window twice, the filter is
    idempotent. *)
Theorem filter_nested_windows df s1 e1 s2 e2 out1 :
  valid_date s1 -> valid_date e1 -> valid_date s2 -> valid_date e2 ->
  date_le s1 s2 = true -> date_le e2 e1 = true ->
  is_monotonic_increasing (index df) = true ->
  filter_data_by_date_range df s1 e1 = Return out1 ->
  filter_data_by_date_range out1 s2 e2 = filter_data_by_date_range df s2 e2.
Proof.
  intros Hs1 He1 Hs2 He2 Hs He Hm H1. unfold filter_data_by_date_range in *.
  rewrite (filter_window df _ _ Hs1 He1 Hm) in H1. injection H1 as <-.
  rewrite (filter_window df _ _ Hs2 He2 Hm).
  rewrite filter_window; [|assumption..|].
  - cbn [columns rows]. f_equal. f_equal. apply filter_filter_implied.
    intros r. apply date_in_window_nested; assumption.
  - unfold index. cbn [rows]. apply filter_monotonic, Hm.
Qed.

Lemma filter_nested_windows_witness :
  filter_data_by_date_range
    (mkDF metric_columns
       [ hourly_row (mkts 2025 3 1 0) 1 2 (-3);
         hourly_row (mkts 2025 3 1 1) 2 4 (-2);
         hourly_row (mkts 2025 3 2 0) 3 6 (-1) ])
    (mkdate 2025 3 1) (mkdate 2025 3 1)
  = filter_data_by_date_range march_2025 (mkdate 2025 3 1) (mkdate 2025 3 1).
Proof.
  apply (filter_nested_windows march_2025 (mkdate 2025 3 1) (mkdate 2025 3 2)
           (mkdate 2025 3 1) (mkdate 2025 3 1));
    try (apply valid_dateb_spec; reflexivity); reflexivity.
Defined.

(** A list in ascending order is cut in two by a bound. *)
Lemma sorted_cut (p : Z -> bool) (l : list (Timestamp * list float)) :
  (forall a b, a <= b -> p b = true -> p a = true) ->
  is_monotonic_increasing (map fst l) = true ->
  l = List.filter (fun r => p (fst r)) l ++ List.filter (fun r => negb (p (fst r))) l.
Proof.
  intros Hp. induction l as [|r l IH]; intros Hm; [reflexivity|].
  cbn [map] in Hm. apply is_monotonic_increasing_cons_iff in Hm. destruct Hm as [Hall Hm].
  cbn [List.filter]. destruct (p (fst r)) eqn:E; cbn [negb].
  - cbn [List.app]. f_equal. apply IH, Hm.
  - assert (Hnone : forall x, In x l -> p (fst x) = false).
    { intros x Hx. apply not_true_is_false. intros Hpx.
      rewrite List.Forall_forall in Hall.
      rewrite (Hp (fst r) (fst x) (Hall _ (in_map fst _ _ Hx)) Hpx) in E. discriminate. }
    rewrite (proj2 (filter_nil_iff _ _) Hnone). cbn [List.app]. f_equal.
    symmetry. apply filter_all. intros x Hx. rewrite (Hnone x Hx). reflexivity.
Qed.

Lemma filter_filter {A} (p q : A -> bool) (l : list A) :
  List.filter q (List.filter p l) = List.filter (fun x => p x && q x) l.
Proof.
  induction l as [|x l IH]; [reflexivity|].
  cbn [List.filter]. destruct (p x); cbn [andb List.filter]; [|exact IH].
  destruct (q x); rewrite IH; reflexivity.
Qed.

(** On a frame whose index is in ascending order, and a window of two days
    that pandas can take as slice bounds, the filter returns one block of
    consecutive rows: the rows of the frame are the rows before the window,
    then the rows returned, then the rows after the window, with no row
    moved or left out in between. *)
Theorem filter_contiguous df start_date end_date :
  valid_date start_date -> valid_date end_date ->
  in_bounds start_date -> in_bounds end_date ->
  is_monotonic_increasing (index df) = true ->
  exists before out after,
    filter_data_by_date_range df start_date end_date = Return (mkDF (columns df) out)
    /\ rows df = before ++ out ++ after
    /\ Forall (fun r => date_lt (Timestamp_date (fst r)) start_date = true) before
    /\ Forall (fun r => date_in_window start_date end_date r = true) out
    /\ Forall (fun r => date_le start_date (Timestamp_date (fst r)) = true
                        /\ date_gt (Timestamp_date (fst r)) end_date = true) after.
Proof.
  intros Hs He _ _ Hm.
  set (lo := day_lower_bound start_date). set (hi := day_upper_bound end_date).
  pose proof (sorted_cut (fun t => t <? lo) (rows df)) as Hcut1.
  cbv beta in Hcut1.
  set (before := List.filter (fun r => fst r <? lo) (rows df)) in *.
  set (rest := List.filter (fun r => negb (fst r <? lo)) (rows df)) in *.
  pose proof (sorted_cut (fun t => t <=? hi) rest) as Hcut2. cbv beta in Hcut2.
  exists before, (List.filter (fun r => fst r <=? hi) rest),
         (List.filter (fun r => negb (fst r <=? hi)) rest).
  assert (Hout : List.filter (fun r => fst r <=? hi) rest
                 = List.filter (date_in_window start_date end_date) (rows df)).
  { unfold rest. rewrite filter_filter. apply filter_ext_rows. intros r.
    rewrite <- (in_range_date_in_window _ _ r Hs He). unfold in_range. fold lo hi.
    f_equal. apply eq_true_iff_eq. rewrite negb_true_iff, Z.ltb_ge, Z.leb_le. reflexivity. }
  split; [|split; [|split; [|split]]].
  - unfold filter_data_by_date_range. rewrite (filter_window df _ _ Hs He Hm).
    rewrite Hout. reflexivity.
  - rewrite <- Hcut2.
    + apply Hcut1; [|exact Hm]. intros a b Hab Hb. apply Z.ltb_lt in Hb. apply Z.ltb_lt. lia.
    + intros a b Hab Hb. apply Z.leb_le in Hb. apply Z.leb_le. lia.
    + apply filter_monotonic, Hm.
  - apply List.Forall_forall. intros r Hr. apply filter_In in Hr. destruct Hr as [_ Hr].
    apply Z.ltb_lt in Hr. rewrite <- date_gt_lt.
    destruct (date_gt start_date (Timestamp_date (fst r))) eqn:E; [reflexivity|].
    exfalso. assert (Hle : date_le start_date (Timestamp_date (fst r)) = true).
    { unfold date_le, date_gt in *. destruct (date_cmp _ _); congruence. }
    apply day_lower_bound_le in Hle; [|exact Hs]. fold lo in Hle. lia.
  - rewrite Hout. apply List.Forall_forall. intros r Hr. apply filter_In in Hr. tauto.
  - apply List.Forall_forall. intros r Hr. apply filter_In in Hr. destruct Hr as [Hr Hhi].
    apply filter_In in Hr. destruct Hr as [_ Hlo].
    apply negb_true_iff in Hlo, Hhi. apply Z.ltb_ge in Hlo. apply Z.leb_gt in Hhi.
    split; [apply day_lower_bound_le; assumption|].
    destruct (date_gt (Timestamp_date (fst r)) end_date) eqn:E; [reflexivity|].
    exfalso. assert (Hle : date_le (Timestamp_date (fst r)) end_date = true).
    { unfold date_le, date_gt in *. destruct (date_cmp _ _); congruence. }
    apply day_upper_bound_ge in Hle; [|exact He]. fold hi in Hle. lia.
Qed.

Lemma filter_contiguous_witness :
  exists before out after,
    filter_data_by_date_range march_2025 (mkdate 2025 3 1) (mkdate 2025 3 2)
    = Return (mkDF (columns march_2025) out)
    /\ rows march_2025 = before ++ out ++ after
    /\ Forall (fun r => date_lt (Timestamp_date (fst r)) (mkdate 2025 3 1) = true) before
    /\ Forall (fun r => date_in_window (mkdate 2025 3 1) (mkdate 2025 3 2) r = true) out
    /\ Forall (fun r => date_le (mkdate 2025 3 1) (Timestamp_date (fst r)) = true
                        /\ date_gt (Timestamp_date (fst r)) (mkdate 2025 3 2) = true) after.
Proof.
  apply filter_contiguous.
  - apply valid_dateb_spec. reflexivity.
  - apply valid_dateb_spec. reflexivity.
  - split; vm_compute; discriminate.
  - split; vm_compute; discriminate.
  - reflexivity.
Defined.

(** ** The metrics engine and the quick statistics *)

Lemma div_zero_not_finite x : PrimFloat.is_finite (x / float_of_Z 0)%float = false.
Proof.
  assert (H : (x / 0)%float = nan \/ (x / 0)%float = infinity
              \/ (x / 0)%float = neg_infinity).
  { destruct (Prim2SF x) as [s|s| |s m e] eqn:E.
    - left. apply Prim2SF_inj. rewrite div_spec, E. reflexivity.
    - right. destruct s; [right | left];
        apply Prim2SF_inj; rewrite div_spec, E; reflexivity.
    - left. apply Prim2SF_inj. rewrite div_spec, E. reflexivity.
    - right. destruct s; [right | left];
        apply Prim2SF_inj; rewrite div_spec, E; reflexivity. }
  change (float_of_Z 0) with 0%float.
  destruct H as [-> | [-> | ->]]; reflexivity.
Qed.

(** The metrics engine does not check the window: when the end date is the
    day before the start date the number of days is 0, and the daily average
    is the total over 0.0, an infinity or NaN.  Nothing is raised. *)
Theorem metrics_over_no_day df s e consumption bill price temperature :
  df_empty df = false ->
  getcol df "Consumption (kWh)" = Return consumption ->
  getcol df "Bill (€)" = Return bill ->
  getcol df "Price (cents/kWh)" = Return price ->
  getcol df "Temperature (°C)" = Return temperature ->
  toordinal e + 1 = toordinal s ->
  exists (m : gmap string pyval) (daily_avg_consumption : float),
    calculate_overall_metrics df s e = Return m
    /\ m !! "num_days_in_filter" = Some (PyInt 0)
    /\ m !! "daily_avg_consumption" = Some (PyFloat daily_avg_consumption)
    /\ PrimFloat.is_finite daily_avg_consumption = false.
Proof.
  intros Hne Hc Hb Hp Ht Hday.
  rewrite (calculate_overall_metrics_eq df s e _ _ _ _ Hne Hc Hb Hp Ht).
  assert (Hn : date_sub_days e s + 1 = 0) by (unfold date_sub_days; lia).
  rewrite Hn. eexists. eexists. split; [reflexivity|].
  split; [reflexivity|]. split; [reflexivity|].
  apply div_zero_not_finite.
Qed.

Lemma metrics_over_no_day_witness :
  exists (m : gmap string pyval) (daily_avg_consumption : float),
    calculate_overall_metrics march_2025 (mkdate 2025 3 2) (mkdate 2025 3 1) = Return m
    /\ m !! "num_days_in_filter" = Some (PyInt 0)
    /\ m !! "daily_avg_consumption" = Some (PyFloat daily_avg_consumption)
    /\ PrimFloat.is_finite daily_avg_consumption = false.
Proof.
  apply (metrics_over_no_day march_2025 (mkdate 2025 3 2) (mkdate 2025 3 1)
           (map (cell 0) (rows march_2025)) (map (cell 3) (rows march_2025))
           (map (cell 1) (rows march_2025)) (map (cell 2) (rows march_2025)));
    reflexivity.
Defined.

(** On a frame with the four columns the engine reads, the dictionary has
    the eleven keys that [render_metrics_display] looks up, or no key at all:
    it is empty exactly when the frame is. *)
Theorem calculate_overall_metrics_keys df s e consumption bill price temperature :
  getcol df "Consumption (kWh)" = Return consumption ->
  getcol df "Bill (€)" = Return bill ->
  getcol df "Price (cents/kWh)" = Return price ->
  getcol df "Temperature (°C)" = Return temperature ->
  exists m : gmap string pyval,
    calculate_overall_metrics df s e = Return m
    /\ dom m = (if df_empty df then ∅ else metric_keys)
    /\ (m = ∅ <-> df_empty df = true).
Proof.
  intros Hc Hb Hp Ht. destruct (df_empty df) eqn:Hne.
  - exists ∅. split; [unfold calculate_overall_metrics; rewrite Hne; reflexivity|].
    split; [apply dom_empty_L | tauto].
  - rewrite (calculate_overall_metrics_eq df s e _ _ _ _ Hne Hc Hb Hp Ht).
    eexists. split; [reflexivity|]. split.
    + rewrite dom_list_to_map_L. cbn [fmap list_fmap fst list_to_set].
      unfold metric_keys. set_solver.
    + split; [|discriminate]. intros H.
      apply (f_equal (fun m : gmap string pyval => m !! "total_consumption")) in H.
      rewrite lookup_empty in H. discriminate H.
Qed.

Lemma calculate_overall_metrics_keys_witness :
  exists m : gmap string pyval,
    calculate_overall_metrics march_2025 (mkdate 2025 3 1) (mkdate 2025 3 2) = Return m
    /\ dom m = (if df_empty march_2025 then ∅ else metric_keys)
    /\ (m = ∅ <-> df_empty march_2025 = true).
Proof.
  apply (calculate_overall_metrics_keys march_2025 (mkdate 2025 3 1) (mkdate 2025 3 2)
           (map (cell 0) (rows march_2025)) (map (cell 3) (rows march_2025))
           (map (cell 1) (rows march_2025)) (map (cell 2) (rows march_2025)));
    reflexivity.
Defined.

(** The quick statistics and the metrics engine on the same slice and
    window: both count the days as end minus start plus one, a count that is
    positive exactly when the start is not after the end.  The daily average
    of the engine is the total consumption over that count, while the
    average of the quick statistics is the total over the number of rows with
    a consumption: a mean by row, not by day. *)
Theorem quick_stats_and_metrics df s e consumption bill price temperature :
  valid_date s -> valid_date e ->
  df_empty df = false ->
  getcol df "Consumption (kWh)" = Return consumption ->
  getcol df "Bill (€)" = Return bill ->
  getcol df "Price (cents/kWh)" = Return price ->
  getcol df "Temperature (°C)" = Return temperature ->
  exists (q : QuickStats) (m : gmap string pyval) (total_consumption : float),
    calculate_quick_stats df s e = Return q
    /\ calculate_overall_metrics df s e = Return m
    /\ m !! "num_days_in_filter" = Some (PyInt (total_days q))
    /\ (0 < total_days q <-> date_le s e = true)
    /\ m !! "total_consumption" = Some (PyFloat total_consumption)
    /\ m !! "daily_avg_consumption"
       = Some (PyFloat (total_consumption / float_of_Z (total_days q))%float)
    /\ avg_consumption q
       = Some (total_consumption / float_of_nat (length (skipna consumption)))%float.
Proof.
  intros Hs He Hne Hc Hb Hp Ht.
  rewrite (calculate_overall_metrics_eq df s e _ _ _ _ Hne Hc Hb Hp Ht).
  unfold calculate_quick_stats. rewrite Hne, Hc. cbn [negb mbind py_bind].
  eexists. eexists. eexists. split; [reflexivity|]. split; [reflexivity|].
  cbn [total_days avg_consumption].
  split; [reflexivity|]. split.
  - rewrite (date_le_ord s e Hs He). unfold date_sub_days. lia.
  - split; [reflexivity|]. split; [reflexivity|].
    rewrite nanmean_eq. reflexivity.
Qed.

Lemma quick_stats_and_metrics_witness :
  exists (q : QuickStats) (m : gmap string pyval) (total_consumption : float),
    calculate_quick_stats march_2025 (mkdate 2025 3 1) (mkdate 2025 3 2) = Return q
    /\ calculate_overall_metrics march_2025 (mkdate 2025 3 1) (mkdate 2025 3 2) = Return m
    /\ m !! "num_days_in_filter" = Some (PyInt (total_days q))
    /\ (0 < total_days q <-> date_le (mkdate 2025 3 1) (mkdate 2025 3 2) = true)
    /\ m !! "total_consumption" = Some (PyFloat total_consumption)
    /\ m !! "daily_avg_consumption"
       = Some (PyFloat (total_consumption / float_of_Z (total_days q))%float)
    /\ avg_consumption q
       = Some (total_consumption
               / float_of_nat (length (skipna (map (cell 0) (rows march_2025)))))%float.
Proof.
  apply (quick_stats_and_metrics march_2025 (mkdate 2025 3 1) (mkdate 2025 3 2)
           (map (cell 0) (rows march_2025)) (map (cell 3) (rows march_2025))
           (map (cell 1) (rows march_2025)) (map (cell 2) (rows march_2025)));
    try (apply valid_dateb_spec; reflexivity); reflexivity.
Defined.

(** ** The charts *)

Lemma column_position_absent name cols :
  ~ In name cols -> column_position name cols = None.
Proof.
  induction cols as [|c cs IH]; intros H; [reflexivity|].
  cbn [column_position]. destruct (String.eqb_spec c name) as [->|_].
  - exfalso. apply H. left. reflexivity.
  - rewrite IH; [reflexivity|]. intros Hin. apply H. right. exact Hin.
Qed.

Lemma filter_metric_column (name c : string) (i : nat) (rs : list (Timestamp * list float)) :
  List.filter (fun row : Timestamp * string * float => String.eqb (snd (fst row)) name)
    (map (fun r => (fst r, c, cell i r)) rs)
  = if String.eqb c name then map (fun r => (fst r, c, cell i r)) rs else [].
Proof.
  induction rs as [|r rs IH]; [destruct (String.eqb c name); reflexivity|].
  cbn [map List.filter fst snd]. rewrite IH.
  destruct (String.eqb c name); reflexivity.
Qed.

Lemma filter_melt_from name rs cols :
  forall k,
    List.NoDup cols ->
    List.filter (fun row : Timestamp * string * float => String.eqb (snd (fst row)) name)
      (flat_map (fun '(i, c) => map (fun r => (fst r, c, cell i r)) rs)
                (combine (seq k (length cols)) cols))
    = match column_position name cols with
      | Some i => map (fun r => (fst r, name, cell (k + i) r)) rs
      | None => []
      end.
Proof.
  induction cols as [|c cs IH]; intros k Hnd; [reflexivity|].
  inversion Hnd as [|? ? Hnotin Hnd']; subst.
  cbn [length seq combine flat_map column_position].
  rewrite List.filter_app, filter_metric_column, (IH (S k) Hnd').
  destruct (String.eqb_spec c name) as [->|Hne].
  - rewrite (column_position_absent _ _ Hnotin), app_nil_r, Nat.add_0_r. reflexivity.
  - destruct (column_position name cs) as [i|]; [|reflexivity].
    cbn [option_map List.app]. rewrite Nat.add_succ_r. reflexivity.
Qed.

Lemma length_melt_from rs (cols : list string) :
  forall k,
    length (flat_map (fun '(i, c) => map (fun r : Timestamp * list float => (fst r, c, cell i r)) rs)
              (combine (seq k (length cols)) cols))
    = (length cols * length rs)%nat.
Proof.
  induction cols as [|c cs IH]; intros k; [reflexivity|].
  cbn [length seq combine flat_map]. rewrite length_app, length_map, (IH (S k)).
  reflexivity.
Qed.

(** What the chart is drawn from.  On the long form of a frame with distinct
    column labels, [filter_chart_data] with the label of a column gives one
    row for each row of the frame, in order, with the value of that column;
    with a name that is no label (and is not the faceted view) it gives no
    row and raises nothing; with the faceted view it gives the whole table,
    which has one row for each column and row of the frame. *)
Theorem filter_chart_data_melt df name :
  List.NoDup (columns df) ->
  name <> "All (Faceted)" ->
  filter_chart_data (melt df) name
  = match column_position name (columns df) with
    | Some i => map (fun r => (fst r, name, cell i r)) (rows df)
    | None => []
    end
  /\ filter_chart_data (melt df) "All (Faceted)" = melt df
  /\ length (melt df) = (length (columns df) * length (rows df))%nat.
Proof.
  intros Hnd Hname. split; [|split].
  - unfold filter_chart_data.
    destruct (String.eqb_spec name "All (Faceted)") as [Heq|_]; [contradiction|].
    cbn [negb]. unfold melt. rewrite (filter_melt_from name (rows df) (columns df) 0 Hnd).
    reflexivity.
  - reflexivity.
  - apply length_melt_from.
Qed.

Lemma filter_chart_data_melt_witness :
  filter_chart_data (melt three_hours) "Bill (€)"
  = match column_position "Bill (€)" (columns three_hours) with
    | Some i => map (fun r => (fst r, "Bill (€)", cell i r)) (rows three_hours)
    | None => []
    end
  /\ filter_chart_data (melt three_hours) "All (Faceted)" = melt three_hours
  /\ length (melt three_hours)
     = (length (columns three_hours) * length (rows three_hours))%nat.
Proof.
  apply filter_chart_data_melt.
  - repeat (constructor; [intros H; repeat (destruct H as [H|H]; [discriminate H|]);
                          destruct H|]).
    constructor.
  - discriminate.
Defined.

(** A grouping tag other than the three of the sidebar is a missing key of
    [group_map]: the aggregator raises [KeyError] with the tag, before it
    reads the frame, and so does [create_chart]. *)
Theorem prepare_chart_data_unknown_tag df group_by :
  (forall g, group_by <> granularity_tag g) ->
  prepare_chart_data df group_by = Raise (KeyError group_by)
  /\ forall chart_type metric_to_display show_trends,
       create_chart df group_by chart_type metric_to_display show_trends
       = Raise (KeyError group_by).
Proof.
  intros H.
  assert (Hp : prepare_chart_data df group_by = Raise (KeyError group_by)).
  { unfold prepare_chart_data, group_map.
    destruct (String.eqb_spec group_by "Daily") as [E|_]; [destruct (H Daily E)|].
    destruct (String.eqb_spec group_by "Weekly") as [E|_]; [destruct (H Weekly E)|].
    destruct (String.eqb_spec group_by "Monthly") as [E|_]; [destruct (H Monthly E)|].
    reflexivity. }
  split; [exact Hp|]. intros ct m st. unfold create_chart. rewrite Hp. reflexivity.
Qed.

Lemma prepare_chart_data_unknown_tag_witness :
  prepare_chart_data three_hours "Hourly" = Raise (KeyError "Hourly")
  /\ forall chart_type metric_to_display show_trends,
       create_chart three_hours "Hourly" chart_type metric_to_display show_trends
       = Raise (KeyError "Hourly").
Proof.
  apply prepare_chart_data_unknown_tag. intros g. destruct g; discriminate.
Defined.

Lemma filter_chart_data_idempotent d m :
  filter_chart_data (filter_chart_data d m) m = filter_chart_data d m.
Proof.
  unfold filter_chart_data. destruct (negb (String.eqb m "All (Faceted)")); [|reflexivity].
  apply filter_filter_implied. auto.
Qed.

(** When the aggregator returns, [create_chart] returns a configured chart,
    and every table the chart is drawn from (the marks, the regression line,
    the facets) is [filter_chart_data] of the aggregated table: filtering a
    second time, as [create_chart] does, changes nothing.  For a single
    metric every row of that table is a row of the metric. *)
Theorem create_chart_tables df group_by chart_type metric_to_display show_trends d :
  prepare_chart_data df group_by = Return d ->
  exists chart,
    create_chart df group_by chart_type metric_to_display show_trends
    = Return (configure chart)
    /\ chart_tables chart <> []
    /\ Forall (fun table => table = filter_chart_data d metric_to_display)
              (chart_tables chart)
    /\ (metric_to_display <> "All (Faceted)" ->
        Forall (fun row => snd (fst row) = metric_to_display)
               (filter_chart_data d metric_to_display)).
Proof.
  intros Hp. unfold create_chart. rewrite Hp. cbn [mbind py_bind].
  pose proof (filter_chart_data_idempotent d metric_to_display) as Hid.
  unfold filter_chart_data at 1 in Hid. rewrite Hid. clear Hid.
  eexists. split; [reflexivity|].
  set (t := filter_chart_data d metric_to_display).
  split; [|split].
  - unfold create_line_chart, create_area_chart, create_bar_chart.
    destruct (String.eqb chart_type "Line Chart"), (String.eqb chart_type "Area Chart"),
      (String.eqb metric_to_display "All (Faceted)"), show_trends; discriminate.
  - unfold create_line_chart, create_area_chart, create_bar_chart.
    destruct (String.eqb chart_type "Line Chart"), (String.eqb chart_type "Area Chart"),
      (String.eqb metric_to_display "All (Faceted)"), show_trends;
      cbn [chart_tables List.app]; repeat constructor.
  - intros Hm. unfold t, filter_chart_data.
    destruct (String.eqb_spec metric_to_display "All (Faceted)") as [E|_]; [contradiction|].
    cbn [negb]. apply List.Forall_forall. intros row Hrow.
    apply filter_In in Hrow. destruct Hrow as [_ Hrow]. apply String.eqb_eq, Hrow.
Qed.

Lemma create_chart_tables_witness :
  exists chart,
    create_chart three_hours "Daily" "Line Chart" "Bill (€)" true
    = Return (configure chart)
    /\ chart_tables chart <> []
    /\ Forall (fun table => table = filter_chart_data three_hours_daily "Bill (€)")
              (chart_tables chart)
    /\ ("Bill (€)" <> "All (Faceted)" ->
        Forall (fun row => snd (fst row) = "Bill (€)")
               (filter_chart_data three_hours_daily "Bill (€)")).
Proof.
  apply create_chart_tables. vm_compute. reflexivity.
Defined.

(** Only the line chart has trend lines: for any other chart type the
    option [show_trends] is ignored, and a type that is neither the line nor
    the area chart gives the bar chart. *)
Theorem create_chart_other_types df group_by chart_type metric_to_display show_trends :
  chart_type <> "Line Chart" ->
  create_chart df group_by chart_type metric_to_display show_trends
  = create_chart df group_by
      (if String.eqb chart_type "Area Chart" then "Area Chart" else "Bar Chart")
      metric_to_display false.
Proof.
  intros H. unfold create_chart.
  destruct (String.eqb_spec chart_type "Line Chart") as [E|_]; [contradiction|].
  destruct (String.eqb chart_type "Area Chart"); reflexivity.
Qed.

Lemma create_chart_other_types_witness :
  create_chart three_hours "Daily" "Scatter" "Bill (€)" true
  = create_chart three_hours "Daily"
      (if String.eqb "Scatter" "Area Chart" then "Area Chart" else "Bar Chart")
      "Bill (€)" false.
Proof.
  apply create_chart_other_types. discriminate.
Defined.

(** ** The aggregator: the bins make up the slice *)

(** Two windows that share a bound, on a list in ascending order. *)
Lemma filter_in_range_app (a b c : Z) (l : list (Timestamp * list float)) :
  a <= b <= c ->
  is_monotonic_increasing (map fst l) = true ->
  List.filter (in_range a (b - 1)) l ++ List.filter (in_range b (c - 1)) l
  = List.filter (in_range a (c - 1)) l.
Proof.
  intros Habc. induction l as [|r l IH]; intros Hm; [reflexivity|].
  cbn [map] in Hm. apply is_monotonic_increasing_cons_iff in Hm. destruct Hm as [Hall Hm].
  specialize (IH Hm). cbn [List.filter].
  assert (Hspec : forall lo hi, in_range lo hi r = true <-> lo <= fst r <= hi).
  { intros lo hi. unfold in_range. rewrite andb_true_iff, !Z.leb_le. reflexivity. }
  pose proof (Hspec a (b - 1)) as H1. pose proof (Hspec b (c - 1)) as H2.
  pose proof (Hspec a (c - 1)) as H3. clear Hspec.
  destruct (in_range a (b - 1) r), (in_range b (c - 1) r), (in_range a (c - 1) r);
    repeat match goal with
    | H : true = true <-> _ |- _ => destruct H as [H _]; specialize (H eq_refl)
    | H : false = true <-> ?P |- _ =>
        assert (~ P) by (let K := fresh in intros K; apply H in K; discriminate K);
        clear H
    end; try (exfalso; lia).
  - cbn [List.app]. f_equal. exact IH.
  - assert (Hnone : List.filter (in_range a (b - 1)) l = []).
    { apply filter_nil_iff. intros x Hx. rewrite List.Forall_forall in Hall.
      pose proof (Hall _ (in_map fst _ _ Hx)) as Hrx. cbv beta in Hrx.
      unfold in_range. apply andb_false_iff. right. apply Z.leb_gt. lia. }
    rewrite Hnone in *. cbn [List.app] in *. f_equal. exact IH.
  - exact IH.
Qed.

Lemma last_cons_default (l : list Z) (x y : Z) : List.last (y :: l) x = List.last l y.
Proof.
  revert x y. induction l as [|z l IH]; intros x y; [reflexivity|].
  change (List.last (y :: z :: l) x) with (List.last (z :: l) x).
  rewrite (IH x z), (IH y z). reflexivity.
Qed.

Lemma last_monotonic (bounds : list Z) :
  forall y, is_monotonic_increasing (y :: bounds) = true -> y <= List.last bounds y.
Proof.
  induction bounds as [|z bounds IH]; intros y Hb; [simpl; lia|].
  apply is_monotonic_increasing_cons_iff in Hb. destruct Hb as [Hall Hb].
  inversion Hall as [|? ? Hyz _]; subst.
  rewrite last_cons_default. specialize (IH z Hb). lia.
Qed.

(** The windows between the neighbours of a list of bounds in ascending
    order make up the window from the first bound to the last. *)
Lemma filter_pairs_concat (l : list (Timestamp * list float)) bounds :
  forall x,
    is_monotonic_increasing (x :: bounds) = true ->
    is_monotonic_increasing (map fst l) = true ->
    concat (map (fun p => List.filter (in_range (fst p) (snd p - 1)) l) (pairs (x :: bounds)))
    = List.filter (in_range x (List.last bounds x - 1)) l.
Proof.
  induction bounds as [|y bounds IH]; intros x Hb Hm.
  - cbn [pairs tl combine map concat List.last]. symmetry. apply filter_nil_iff.
    intros r _. unfold in_range. apply andb_false_iff.
    destruct (Z.leb_spec x (fst r)); [right; apply Z.leb_gt; lia | left; reflexivity].
  - rewrite pairs_cons2. cbn [map concat fst snd].
    apply is_monotonic_increasing_cons_iff in Hb. destruct Hb as [Hall Hb].
    rewrite (IH y Hb Hm), last_cons_default.
    pose proof (last_monotonic bounds y Hb) as Hlast.
    inversion Hall as [|? ? Hxy _]; subst.
    apply filter_in_range_app; [lia | exact Hm].
Qed.

Lemma bin_start_monotonic r a b : a <= b -> bin_start r a <= bin_start r b.
Proof. unfold bin_start. destruct (closed_right r); lia. Qed.

(** The rows of the bins of a binner, one after the other, are the rows from
    the start of its first bin to the start of the bin after its last. *)
Lemma bins_concat r (S : list (Timestamp * list float)) first rest init e :
  first :: rest = init ++ [e] ->
  Forall (edge_aligned r) (first :: rest) ->
  (forall p, In p (pairs (first :: rest)) -> snd p = offset_apply r (fst p)) ->
  is_monotonic_increasing (map fst S) = true ->
  concat (map (fun p => List.filter (in_bucket r (bin_label r p)) S) (pairs (first :: rest)))
  = List.filter (in_range (bin_start r first) (bin_start r e - 1)) S.
Proof.
  intros Hinit Hall Hpairs HS.
  rewrite (map_ext_in _ (fun p => List.filter
                           (in_range (bin_start r (fst p)) (bin_start r (snd p) - 1)) S)).
  2:{ intros p Hp. apply filter_ext_rows. intros row. symmetry.
      apply in_range_in_bucket. apply bucket_of_pair; [|apply Hpairs, Hp].
      rewrite List.Forall_forall in Hall. apply Hall, In_pairs_fst, Hp. }
  pose proof (binner_edges_monotonic r (bin_start r) (first :: rest)
                (bin_start_monotonic r) Hall Hpairs) as Hmono.
  pose proof (filter_pairs_concat S (map (bin_start r) rest) (bin_start r first) Hmono HS)
    as Hcat.
  change (bin_start r first :: map (bin_start r) rest)
    with (map (bin_start r) (first :: rest)) in Hcat.
  rewrite pairs_map, map_map in Hcat. cbn [fst snd] in Hcat. rewrite Hcat.
  rewrite <- (last_cons_default (map (bin_start r) rest) 0 (bin_start r first)).
  change (bin_start r first :: map (bin_start r) rest)
    with (map (bin_start r) (first :: rest)).
  rewrite Hinit, map_app. cbn [map]. rewrite last_last. reflexivity.
Qed.

Lemma insert_row_Permutation r l : Permutation (insert_row r l) (r :: l).
Proof.
  induction l as [|x l IH]; [reflexivity|].
  cbn [insert_row]. destruct (fst r <=? fst x); [reflexivity|].
  rewrite IH. apply perm_swap.
Qed.

Lemma sort_index_Permutation l : Permutation (sort_index l) l.
Proof.
  induction l as [|r l IH]; [reflexivity|].
  cbn [sort_index fold_right]. fold (sort_index l).
  rewrite insert_row_Permutation, IH. reflexivity.
Qed.

(** The aggregator loses no row and counts none twice: for each of the
    three rules, the rows of the bins of the output, bin after bin in the
    order of the labels, are the rows of the slice sorted by timestamp, each
    one once. *)
Theorem resample_partitions_rows g df ci bi pi ti :
  column_position "Consumption (kWh)" (columns df) = Some ci ->
  column_position "Bill (€)" (columns df) = Some bi ->
  column_position "Price (cents/kWh)" (columns df) = Some pi ->
  column_position "Temperature (°C)" (columns df) = Some ti ->
  exists df_grouped,
    resample_agg df (granularity_rule g) agg_spec = Return df_grouped
    /\ concat (map (fun b => List.filter (in_bucket (granularity_rule g) (fst b))
                                         (sort_index (rows df)))
                   (rows df_grouped))
       = sort_index (rows df)
    /\ Permutation (sort_index (rows df)) (rows df)
    /\ (is_monotonic_increasing (index df) = true -> sort_index (rows df) = rows df).
Proof.
  intros Hc Hb Hp Ht.
  generalize (granularity_rule g). intros r.
  assert (Htail : Permutation (sort_index (rows df)) (rows df)
                  /\ (is_monotonic_increasing (index df) = true ->
                      sort_index (rows df) = rows df)).
  { split; [apply sort_index_Permutation | apply sort_index_id]. }
  destruct (rows df) as [|row0 rest0] eqn:Hrows.
  { eexists. split; [|split; [|exact Htail]].
    - unfold resample_agg.
      rewrite (column_positions_agg_spec _ ci bi pi ti Hc Hb Hp Ht).
      cbn [mbind py_bind]. rewrite sorted_rows_eq, Hrows. reflexivity.
    - reflexivity. }
  rewrite <- Hrows in *.
  destruct (resample_agg_eq r df ci bi pi ti row0 rest0 Hc Hb Hp Ht Hrows)
    as (t & ts & binner & rest & init & e & Hax & Hhd & Hinit & Hall & Hpairs
        & Hlo & Hhi & Hagg).
  eexists. split; [exact Hagg|]. split; [|exact Htail].
  cbn [rows]. rewrite map_map. cbn [fst].
  pose proof (sort_index_monotonic (rows df)) as Hmono.
  subst binner.
  rewrite (bins_concat r _ _ rest init e Hinit Hall Hpairs Hmono).
  apply filter_all. intros row Hrow.
  assert (Hin : In (fst row) (t :: ts)) by (rewrite <- Hax; apply in_map, Hrow).
  pose proof (list_min_max_bounds t ts (fst row) Hin) as Hb'.
  unfold in_range. apply andb_true_iff. rewrite !Z.leb_le. lia.
Qed.

Lemma resample_partitions_rows_witness :
  exists df_grouped,
    resample_agg three_hours (granularity_rule Weekly) agg_spec = Return df_grouped
    /\ concat (map (fun b => List.filter (in_bucket (granularity_rule Weekly) (fst b))
                                         (sort_index (rows three_hours)))
                   (rows df_grouped))
       = sort_index (rows three_hours)
    /\ Permutation (sort_index (rows three_hours)) (rows three_hours)
    /\ (is_monotonic_increasing (index three_hours) = true ->
        sort_index (rows three_hours) = rows three_hours).
Proof.
  apply (resample_partitions_rows Weekly three_hours 0 3 1 2); reflexivity.
Defined.

(** ** The aggregator: bins with no gap *)

Lemma pairs_pairs {A} (l : list A) q :
  In q (pairs (pairs l)) ->
  snd (fst q) = fst (snd q) /\ In (fst q) (pairs l) /\ In (snd q) (pairs l).
Proof.
  destruct l as [|a l]; [intros []|]. revert a.
  induction l as [|b l IH]; intros a; [intros []|].
  destruct l as [|c l]; [intros []|].
  rewrite (pairs_cons2 a b (c :: l)), (pairs_cons2 b c l), pairs_cons2.
  intros [<-|Hq].
  - cbn [fst snd]. split; [reflexivity|]. split; [left; reflexivity|].
    right. left. reflexivity.
  - rewrite <- (pairs_cons2 b c l) in Hq. destruct (IH b Hq) as (H1 & H2 & H3).
    split; [exact H1|]. split; right; assumption.
Qed.

Lemma filter_sort_index_nil p l :
  List.filter p l = [] -> List.filter p (sort_index l) = [].
Proof.
  rewrite !filter_nil_iff. intros H x Hx. apply H, sort_index_In, Hx.
Qed.

(** The output of the aggregator has no gap: a slice with a row gives at
    least one bin, the labels go up, and each bin starts where the bin
    before it ends, whether rows fall in it or not.  A bin with no row has
    the sums 0.0 and the means NaN. *)
Theorem resample_buckets_adjacent g df ci bi pi ti :
  column_position "Consumption (kWh)" (columns df) = Some ci ->
  column_position "Bill (€)" (columns df) = Some bi ->
  column_position "Price (cents/kWh)" (columns df) = Some pi ->
  column_position "Temperature (°C)" (columns df) = Some ti ->
  exists df_grouped,
    resample_agg df (granularity_rule g) agg_spec = Return df_grouped
    /\ (rows df <> [] -> rows df_grouped <> [])
    /\ (forall p, In p (pairs (index df_grouped)) ->
          fst p < snd p
          /\ snd (bucket_interval (granularity_rule g) (fst p))
             = fst (bucket_interval (granularity_rule g) (snd p)))
    /\ Forall (fun b =>
         List.filter (in_bucket (granularity_rule g) (fst b)) (rows df) = [] ->
         snd b = [0; 0; nan; nan]%float)
         (rows df_grouped).
Proof.
  intros Hc Hb Hp Ht.
  generalize (granularity_rule g). intros r.
  destruct (rows df) as [|row0 rest0] eqn:Hrows.
  { eexists. split.
    - unfold resample_agg.
      rewrite (column_positions_agg_spec _ ci bi pi ti Hc Hb Hp Ht).
      cbn [mbind py_bind]. rewrite sorted_rows_eq, Hrows. reflexivity.
    - split; [congruence|]. split; [intros p []|constructor]. }
  rewrite <- Hrows.
  destruct (resample_agg_eq r df ci bi pi ti row0 rest0 Hc Hb Hp Ht Hrows)
    as (t & ts & binner & rest & init & e & Hax & Hhd & Hinit & Hall & Hpairs
        & Hlo & Hhi & Hagg).
  eexists. split; [exact Hagg|].
  assert (Hpair : forall p, In p (pairs binner) ->
            snd p = offset_apply r (fst p)
            /\ fst p + NS_PER_DAY <= snd p
            /\ bucket_interval r (bin_label r p)
               = (bin_start r (fst p), bin_start r (snd p))).
  { intros p Hp'. pose proof (Hpairs p Hp') as Hs.
    assert (Ha : edge_aligned r (fst p)).
    { rewrite List.Forall_forall in Hall. apply Hall, In_pairs_fst, Hp'. }
    split; [exact Hs|]. split.
    - rewrite Hs. apply offset_apply_aligned, Ha.
    - apply bucket_of_pair; assumption. }
  unfold index. cbn [rows]. rewrite map_map. cbn [fst].
  split; [|split].
  - intros _. subst binner. destruct rest as [|x rest].
    + exfalso. destruct init as [|y init].
      * injection Hinit as <-. pose proof (list_min_le_max t ts). lia.
      * injection Hinit as _ Hinit. destruct init; discriminate.
    + rewrite pairs_cons2. discriminate.
  - intros p Hp'. rewrite pairs_map in Hp'. apply in_map_iff in Hp'.
    destruct Hp' as (q & <- & Hq). cbn [fst snd].
    destruct (pairs_pairs binner q Hq) as (Hmid & H1 & H2).
    destruct (Hpair _ H1) as (_ & Hlt1 & Hint1).
    destruct (Hpair _ H2) as (_ & Hlt2 & Hint2).
    rewrite Hint1, Hint2. cbn [fst snd]. rewrite Hmid.
    split; [|reflexivity].
    pose proof NS_PER_DAY_pos. unfold bin_label. destruct (label_right r); lia.
  - apply List.Forall_forall. intros b Hb'. apply in_map_iff in Hb'.
    destruct Hb' as (p & <- & Hp'). cbn [fst snd]. intros Hnone.
    destruct (Hpair p Hp') as (_ & _ & Hint).
    rewrite (filter_ext_rows _ (in_bucket r (bin_label r p))).
    2:{ intros row. apply in_range_in_bucket, Hint. }
    rewrite (filter_sort_index_nil _ _ Hnone). reflexivity.
Qed.

Lemma resample_buckets_adjacent_witness :
  exists df_grouped,
    resample_agg march_2025 (granularity_rule Weekly) agg_spec = Return df_grouped
    /\ (rows march_2025 <> [] -> rows df_grouped <> [])
    /\ (forall p, In p (pairs (index df_grouped)) ->
          fst p < snd p
          /\ snd (bucket_interval (granularity_rule Weekly) (fst p))
             = fst (bucket_interval (granularity_rule Weekly) (snd p)))
    /\ Forall (fun b =>
         List.filter (in_bucket (granularity_rule Weekly) (fst b)) (rows march_2025) = [] ->
         snd b = [0; 0; nan; nan]%float)
         (rows df_grouped).
Proof.
  apply (resample_buckets_adjacent Weekly march_2025 0 3 1 2); reflexivity.
Defined.

(** ** The aggregator: the daily bins *)

Lemma list_min_In t ts : In (list_min t ts) (t :: ts).
Proof.
  unfold list_min. revert t. induction ts as [|u ts IH]; intros t; [left; reflexivity|].
  cbn [fold_left]. destruct (IH (Z.min t u)) as [H|H].
  - rewrite <- H. destruct (Z.min_spec t u) as [[_ ->]|[_ ->]].
    + left. reflexivity.
    + right. left. reflexivity.
  - right. right. exact H.
Qed.

Lemma list_max_In t ts : In (list_max t ts) (t :: ts).
Proof.
  unfold list_max. revert t. induction ts as [|u ts IH]; intros t; [left; reflexivity|].
  cbn [fold_left]. destruct (IH (Z.max t u)) as [H|H].
  - rewrite <- H. destruct (Z.max_spec t u) as [[_ ->]|[_ ->]].
    + right. left. reflexivity.
    + left. reflexivity.
  - right. right. exact H.
Qed.

(** The smallest and the largest value of an index do not depend on the
    order of its values. *)
Lemma list_min_max_same t ts t' ts' :
  (forall x, In x (t :: ts) <-> In x (t' :: ts')) ->
  list_min t ts = list_min t' ts' /\ list_max t ts = list_max t' ts'.
Proof.
  intros H.
  pose proof (list_min_max_bounds t ts _ (proj2 (H _) (list_min_In t' ts'))).
  pose proof (list_min_max_bounds t' ts' _ (proj1 (H _) (list_min_In t ts))).
  pose proof (list_min_max_bounds t ts _ (proj2 (H _) (list_max_In t' ts'))).
  pose proof (list_min_max_bounds t' ts' _ (proj1 (H _) (list_max_In t ts))).
  lia.
Qed.

Lemma length_generate_bins right_closed values edges :
  forall j, length (generate_bins right_closed values j edges) = length edges.
Proof.
  induction edges as [|e edges IH]; intros j; [reflexivity|].
  cbn [generate_bins length]. rewrite IH. reflexivity.
Qed.

Lemma length_split_bins {A} (l : list A) bins :
  forall prev, length (split_bins l prev bins) = length bins.
Proof.
  induction bins as [|b bins IH]; intros prev; [reflexivity|].
  cbn [split_bins length]. rewrite IH. reflexivity.
Qed.

Lemma map_fst_combine_le {A B} (l : list A) (l' : list B) :
  (length l <= length l')%nat -> map fst (combine l l') = l.
Proof.
  revert l'. induction l as [|x l IH]; intros l' H; [reflexivity|].
  destruct l' as [|y l']; [simpl in H; lia|].
  cbn [combine map fst]. f_equal. apply IH. simpl in H. lia.
Qed.

(** The labels of the aggregated frame are the labels of the binner. *)
Lemma resample_agg_index df r df_grouped :
  resample_agg df r agg_spec = Return df_grouped ->
  index df_grouped = fst (get_time_bins r (map fst (sort_index (rows df)))).
Proof.
  unfold resample_agg. destruct (column_positions agg_spec (columns df)) as [ps|]; [|discriminate].
  cbn [mbind py_bind]. rewrite sorted_rows_eq.
  assert (Hlen : (length (fst (get_time_bins r (map fst (sort_index (rows df)))))
                  <= length (snd (get_time_bins r (map fst (sort_index (rows df))))))%nat).
  { unfold get_time_bins. destruct (map fst (sort_index (rows df))) as [|t ts]; [reflexivity|].
    destruct (get_timestamp_range_edges r (list_min t ts) (list_max t ts)) as [first last].
    destruct (adjust_bin_edges r (date_range r first last) (list_max t ts))
      as [binner bin_edges].
    cbn [fst snd]. apply firstn_le_length. }
  destruct (get_time_bins r (map fst (sort_index (rows df)))) as [labels bins].
  cbn [fst snd] in *. intros H. injection H as <-.
  unfold index. cbn [rows]. rewrite map_map.
  rewrite (map_ext _ (fun x : Timestamp * list (Timestamp * list float) => fst x)).
  2:{ intros [label group]. reflexivity. }
  apply map_fst_combine_le. rewrite length_split_bins. exact Hlen.
Qed.

Lemma range_chain_days end_ l :
  forall cur,
    range_chain (offset_apply D) cur end_ l ->
    l = map (fun k => cur + Z.of_nat k * NS_PER_DAY) (seq 0 (length l))
    /\ length l = Z.to_nat ((end_ - cur) / NS_PER_DAY + 1).
Proof.
  induction l as [|x l IH]; intros cur Hc; cbn [range_chain] in Hc.
  - split; [reflexivity|]. cbn [length].
    assert ((end_ - cur) / NS_PER_DAY < 0)
      by (apply Z.div_lt_upper_bound; [reflexivity | lia]).
    lia.
  - destruct Hc as (-> & Hle & Hc). cbn [offset_apply] in Hc.
    destruct (IH _ Hc) as [Hl Hlen]. split.
    + cbn [length seq map]. f_equal; [cbn; lia|].
      rewrite <- seq_shift, map_map. rewrite Hl at 1.
      apply map_ext. intros k. rewrite Nat2Z.inj_succ. lia.
    + cbn [length]. rewrite Hlen.
      replace (end_ - (cur + NS_PER_DAY)) with ((end_ - cur) + (-1) * NS_PER_DAY) by lia.
      rewrite Z.div_add by discriminate.
      assert (0 <= (end_ - cur) / NS_PER_DAY)
        by (apply Z.div_pos; [lia | reflexivity]).
      lia.
Qed.

Lemma firstn_seq_succ n : firstn n (seq 0 (S n)) = seq 0 n.
Proof.
  generalize 0%nat. induction n as [|n IH]; intros s; [reflexivity|].
  cbn [seq firstn]. f_equal. apply IH.
Qed.

(** The labels of the daily bins: midnight of each day from the day of the
    smallest value to the day of the largest. *)
Lemma get_time_bins_daily t ts :
  fst (get_time_bins D (t :: ts))
  = map to_datetime_date
      (calendar_days (Timestamp_date (list_min t ts)) (Timestamp_date (list_max t ts))).
Proof.
  unfold get_time_bins. rewrite range_edges_D.
  cbn [adjust_bin_edges closed_right label_right fst snd].
  rewrite length_generate_bins.
  pose proof (list_min_le_max t ts) as Hle.
  set (mn := list_min t ts) in *. set (mx := list_max t ts) in *. clearbody mn mx.
  unfold calendar_days. rewrite !toordinal_Timestamp_date, map_map.
  assert (Ha : edge_aligned D (normalize mn)).
  { split; [|exact I]. destruct (normalize_day_number mn) as [-> _].
    apply Z.mod_mul. discriminate. }
  destruct (range_chain_days _ _ _ (date_range_chain D (normalize mn)
                                      (normalize mx + NS_PER_DAY) Ha)) as [Hl Hlen].
  destruct (normalize_day_number mn) as [Hn _].
  destruct (normalize_day_number mx) as [Hx _].
  rewrite Hn, Hx in *.
  assert (Hq : mn / NS_PER_DAY <= mx / NS_PER_DAY)
    by (apply Z.div_le_mono; [reflexivity | exact Hle]).
  set (q1 := mn / NS_PER_DAY) in *. set (q2 := mx / NS_PER_DAY) in *. clearbody q1 q2.
  clear Hn Hx Ha Hle mn mx.
  replace (q2 * NS_PER_DAY + NS_PER_DAY - q1 * NS_PER_DAY)
    with ((q2 - q1 + 1) * NS_PER_DAY) in Hlen by lia.
  rewrite Z.div_mul in Hlen by discriminate.
  set (binner := date_range D (q1 * NS_PER_DAY) (q2 * NS_PER_DAY + NS_PER_DAY)) in *.
  clearbody binner.
  replace (q2 - q1 + 1 + 1) with (Z.succ (q2 - q1 + 1)) in Hlen by lia.
  rewrite Z2Nat.inj_succ in Hlen by lia.
  replace (q2 + EPOCH_ORDINAL - (q1 + EPOCH_ORDINAL) + 1) with (q2 - q1 + 1) by lia.
  rewrite Hlen in Hl. subst binner. cbn [tl seq map]. rewrite length_map, length_seq.
  set (n := Z.to_nat (q2 - q1 + 1)).
  change (q1 * NS_PER_DAY + Z.of_nat 0 * NS_PER_DAY
          :: map (fun k => q1 * NS_PER_DAY + Z.of_nat k * NS_PER_DAY) (seq 1 n))
    with (map (fun k => q1 * NS_PER_DAY + Z.of_nat k * NS_PER_DAY) (seq 0 (S n))).
  rewrite firstn_map, firstn_seq_succ.
  apply map_ext. intros k. unfold to_datetime_date. rewrite toordinal_fromordinal. lia.
Qed.

(** The rows of the aggregated frame: each label is on a calendar boundary
    and carries the reductions of the rows of its bin. *)
Lemma resample_agg_buckets r df ci bi pi ti :
  column_position "Consumption (kWh)" (columns df) = Some ci ->
  column_position "Bill (€)" (columns df) = Some bi ->
  column_position "Price (cents/kWh)" (columns df) = Some pi ->
  column_position "Temperature (°C)" (columns df) = Some ti ->
  exists df_grouped,
    resample_agg df r agg_spec = Return df_grouped
    /\ Forall (fun b =>
         edge_aligned r (fst b)
         /\ snd b = bucket_values ci bi pi ti
                      (List.filter (in_bucket r (fst b)) (sort_index (rows df))))
         (rows df_grouped).
Proof.
  intros Hc Hb Hp Ht.
  destruct (rows df) as [|row0 rest0] eqn:Hrows.
  { eexists. split.
    - unfold resample_agg.
      rewrite (column_positions_agg_spec _ ci bi pi ti Hc Hb Hp Ht).
      cbn [mbind py_bind]. rewrite sorted_rows_eq, Hrows. reflexivity.
    - constructor. }
  rewrite <- Hrows.
  destruct (resample_agg_eq r df ci bi pi ti row0 rest0 Hc Hb Hp Ht Hrows)
    as (t & ts & binner & rest & init & e & Hax & Hhd & Hinit & Hall & Hpairs
        & Hlo & Hhi & Hagg).
  eexists. split; [exact Hagg|].
  cbn [rows]. apply List.Forall_forall. intros b Hb'. apply in_map_iff in Hb'.
  destruct Hb' as (p & <- & Hp'). cbn [fst snd].
  destruct (bucket_of_pair r p) as [Hal Hint]; [|apply Hpairs, Hp'|].
  { rewrite List.Forall_forall in Hall. apply Hall, In_pairs_fst, Hp'. }
  split; [exact Hal|]. f_equal. apply filter_ext_rows. intros row.
  apply in_range_in_bucket. exact Hint.
Qed.

Lemma Timestamp_date_eq_iff a b :
  Timestamp_date a = Timestamp_date b <-> a / NS_PER_DAY = b / NS_PER_DAY.
Proof.
  split; intros H.
  - apply (f_equal toordinal) in H. rewrite !toordinal_Timestamp_date in H. lia.
  - unfold Timestamp_date. rewrite H. reflexivity.
Qed.

Lemma in_bucket_daily label row :
  label mod NS_PER_DAY = 0 ->
  in_bucket D label row = true <-> Timestamp_date (fst row) = Timestamp_date label.
Proof.
  intros Hmid. rewrite Timestamp_date_eq_iff.
  unfold in_bucket. cbn [bucket_interval fst snd].
  rewrite andb_true_iff, Z.leb_le, Z.ltb_lt.
  generalize (fst row). intros v. clear row.
  unfold NS_PER_DAY in *. Z.div_mod_to_equations. lia.
Qed.

(** The daily grouping gives one row for each calendar day from the day of
    the first timestamp of the slice to the day of the last one, labelled by
    its midnight, whether the day has data or not; a day with no row of the
    slice has the sums 0.0 and the means NaN. *)
Theorem daily_buckets_every_day df ci bi pi ti t ts :
  column_position "Consumption (kWh)" (columns df) = Some ci ->
  column_position "Bill (€)" (columns df) = Some bi ->
  column_position "Price (cents/kWh)" (columns df) = Some pi ->
  column_position "Temperature (°C)" (columns df) = Some ti ->
  index df = t :: ts ->
  exists df_grouped,
    resample_agg df D agg_spec = Return df_grouped
    /\ prepare_chart_data df "Daily" = Return (melt df_grouped)
    /\ index df_grouped
       = map to_datetime_date
           (calendar_days (Timestamp_date (list_min t ts)) (Timestamp_date (list_max t ts)))
    /\ Forall (fun b =>
         (forall row, In row (rows df) ->
                      Timestamp_date (fst row) <> Timestamp_date (fst b)) ->
         snd b = [0; 0; nan; nan]%float)
         (rows df_grouped).
Proof.
  intros Hc Hb Hp Ht Hidx.
  destruct (resample_agg_buckets D df ci bi pi ti Hc Hb Hp Ht) as (dfg & Hagg & Hrows).
  exists dfg. split; [exact Hagg|]. split.
  { unfold prepare_chart_data. cbn [group_map String.eqb mbind py_bind].
    change (group_map "Daily") with (Return D). cbn [mbind py_bind].
    rewrite Hagg. reflexivity. }
  split.
  - rewrite (resample_agg_index df D dfg Hagg).
    assert (Hne : exists r0 l0, rows df = r0 :: l0).
    { unfold index in Hidx. destruct (rows df) as [|r0 l0]; [discriminate|]. eauto. }
    destruct Hne as (r0 & l0 & Hr).
    destruct (sort_index_cons r0 l0) as (t' & ts' & Hs). rewrite <- Hr in Hs.
    rewrite Hs, get_time_bins_daily.
    destruct (list_min_max_same t' ts' t ts) as [-> ->].
    { intros x. rewrite <- Hs, <- Hidx. unfold index. rewrite !in_map_iff.
      split; intros (r & Hx & Hin); exists r; (split; [exact Hx|]);
        apply sort_index_In; exact Hin. }
    reflexivity.
  - eapply List.Forall_impl; [|exact Hrows]. cbv beta.
    intros b [[Hmid _] Hv] Hnone. rewrite Hv.
    rewrite (proj2 (filter_nil_iff _ _)); [reflexivity|].
    intros row Hrow. apply not_true_is_false. intros Hin.
    apply (in_bucket_daily _ _ Hmid) in Hin.
    apply (Hnone row); [apply sort_index_In, Hrow | exact Hin].
Qed.

Lemma daily_buckets_every_day_witness :
  exists df_grouped,
    resample_agg march_2025 D agg_spec = Return df_grouped
    /\ prepare_chart_data march_2025 "Daily" = Return (melt df_grouped)
    /\ index df_grouped
       = map to_datetime_date
           (calendar_days
              (Timestamp_date (list_min (mkts 2025 3 1 0)
                                 [mkts 2025 3 1 1; mkts 2025 3 2 0; mkts 2025 3 15 23]))
              (Timestamp_date (list_max (mkts 2025 3 1 0)
                                 [mkts 2025 3 1 1; mkts 2025 3 2 0; mkts 2025 3 15 23])))
    /\ Forall (fun b =>
         (forall row, In row (rows march_2025) ->
                      Timestamp_date (fst row) <> Timestamp_date (fst b)) ->
         snd b = [0; 0; nan; nan]%float)
         (rows df_grouped).
Proof.
  apply (daily_buckets_every_day march_2025 0 3 1 2); reflexivity.
Defined.

(** ** The aggregator: the monthly bins *)

Lemma month_start_lt_inv i j : month_start i < month_start j -> i < j.
Proof.
  intros H. destruct (Z.lt_ge_cases i j) as [Hlt|Hge]; [exact Hlt|].
  pose proof (month_start_le j i Hge). lia.
Qed.

Lemma month_start_le_inv i j : month_start i <= month_start j -> i <= j.
Proof.
  intros H. destruct (Z.le_gt_cases i j) as [Hle|Hgt]; [exact Hle|].
  pose proof (month_start_lt j i Hgt). pose proof NS_PER_DAY_pos. lia.
Qed.

Lemma month_index_month_start i : month_index (Timestamp_date (month_start i)) = i.
Proof.
  pose proof (aligned_month_start (month_start i) (month_start_aligned i)) as H.
  generalize dependent (month_index (Timestamp_date (month_start i))). intros k H.
  pose proof (month_start_le_inv i k). pose proof (month_start_le_inv k i). lia.
Qed.

Lemma offset_month_start i : offset_apply MS (month_start i) = month_start (i + 1).
Proof.
  change (offset_apply MS (month_start i)) with (shift_month_start (month_start i) 1).
  rewrite shift_month_start_eq by apply month_start_aligned.
  rewrite month_index_month_start. reflexivity.
Qed.

Lemma range_chain_months j l :
  forall i,
    range_chain (offset_apply MS) (month_start i) (month_start j) l ->
    l = map (fun k => month_start (i + Z.of_nat k)) (seq 0 (length l))
    /\ length l = Z.to_nat (j - i + 1).
Proof.
  induction l as [|x l IH]; intros i Hc; cbn [range_chain] in Hc.
  - split; [reflexivity|]. apply month_start_lt_inv in Hc. cbn [length]. lia.
  - destruct Hc as (-> & Hle & Hc). rewrite offset_month_start in Hc.
    apply month_start_le_inv in Hle.
    destruct (IH _ Hc) as [Hl Hlen]. split.
    + cbn [length seq map]. f_equal; [f_equal; lia|].
      rewrite <- seq_shift, map_map. rewrite Hl at 1.
      apply map_ext. intros k. f_equal. lia.
    + cbn [length]. rewrite Hlen. lia.
Qed.

(** The labels of the monthly bins: midnight of the first day of each month
    from the month of the smallest value to the month of the largest. *)
Lemma get_time_bins_monthly t ts :
  fst (get_time_bins MS (t :: ts))
  = map to_datetime_date
      (calendar_months (Timestamp_date (list_min t ts)) (Timestamp_date (list_max t ts))).
Proof.
  unfold get_time_bins. rewrite range_edges_MS.
  cbn [adjust_bin_edges closed_right label_right fst snd].
  rewrite length_generate_bins.
  pose proof (list_min_le_max t ts) as Hle.
  set (mn := list_min t ts) in *. set (mx := list_max t ts) in *. clearbody mn mx.
  unfold calendar_months. rewrite map_map.
  assert (Hq : month_index (Timestamp_date mn) <= month_index (Timestamp_date mx)).
  { pose proof (month_start_bounds mn) as [H1 H2].
    pose proof (month_start_bounds mx) as [H3 H4].
    generalize dependent (month_index (Timestamp_date mn)).
    generalize dependent (month_index (Timestamp_date mx)).
    intros i2 H3 H4 i1 H1 H2.
    destruct (Z.le_gt_cases i1 i2) as [Hok|Hgt]; [exact Hok|].
    pose proof (month_start_le (i2 + 1) i1 ltac:(lia)). lia. }
  generalize dependent (month_index (Timestamp_date mx)).
  generalize dependent (month_index (Timestamp_date mn)).
  intros i1 i2 Hq. clear Hle mn mx.
  destruct (range_chain_months _ _ _
              (date_range_chain MS (month_start i1) (month_start (i2 + 1))
                 (month_start_aligned i1))) as [Hl Hlen].
  set (binner := date_range MS (month_start i1) (month_start (i2 + 1))) in *.
  clearbody binner.
  replace (i2 + 1 - i1 + 1) with (Z.succ (i2 - i1 + 1)) in Hlen by lia.
  rewrite Z2Nat.inj_succ in Hlen by lia.
  rewrite Hlen in Hl. subst binner. cbn [tl seq map]. rewrite length_map, length_seq.
  set (n := Z.to_nat (i2 - i1 + 1)).
  change (month_start (i1 + Z.of_nat 0)
          :: map (fun k => month_start (i1 + Z.of_nat k)) (seq 1 n))
    with (map (fun k => month_start (i1 + Z.of_nat k)) (seq 0 (S n))).
  rewrite firstn_map, firstn_seq_succ.
  apply map_ext. intros k. reflexivity.
Qed.

Lemma in_bucket_monthly label row :
  edge_aligned MS label ->
  in_bucket MS label row = true
  <-> month_index (Timestamp_date (fst row)) = month_index (Timestamp_date label).
Proof.
  intros Ha. pose proof Ha as [Hmid _].
  unfold in_bucket. cbn [bucket_interval fst snd].
  rewrite (shift_month_start_eq label 1 Hmid).
  pose proof (aligned_month_start label Ha) as Hlab.
  pose proof (month_start_bounds (fst row)) as [H1 H2].
  generalize dependent (month_index (Timestamp_date label)).
  generalize dependent (month_index (Timestamp_date (fst row))).
  generalize (fst row). intros v iv H1 H2 i Hlab. subst label. clear Ha Hmid.
  rewrite andb_true_iff, Z.leb_le, Z.ltb_lt. split.
  - intros [H3 H4].
    destruct (Z.lt_trichotomy iv i) as [Hlt|[Heq|Hgt]]; [|exact Heq|].
    + pose proof (month_start_le (iv + 1) i ltac:(lia)). lia.
    + pose proof (month_start_le (i + 1) iv ltac:(lia)). lia.
  - intros ->. lia.
Qed.

(** The monthly grouping gives one row for each calendar month from the
    month of the first timestamp of the slice to the month of the last one,
    labelled by the midnight of its first day, whether the month has data or
    not; a month with no row of the slice has the sums 0.0 and the means
    NaN. *)
Theorem monthly_buckets_every_month df ci bi pi ti t ts :
  column_position "Consumption (kWh)" (columns df) = Some ci ->
  column_position "Bill (€)" (columns df) = Some bi ->
  column_position "Price (cents/kWh)" (columns df) = Some pi ->
  column_position "Temperature (°C)" (columns df) = Some ti ->
  index df = t :: ts ->
  exists df_grouped,
    resample_agg df MS agg_spec = Return df_grouped
    /\ prepare_chart_data df "Monthly" = Return (melt df_grouped)
    /\ index df_grouped
       = map to_datetime_date
           (calendar_months (Timestamp_date (list_min t ts))
                            (Timestamp_date (list_max t ts)))
    /\ Forall (fun b =>
         (forall row, In row (rows df) ->
                      month_index (Timestamp_date (fst row))
                      <> month_index (Timestamp_date (fst b))) ->
         snd b = [0; 0; nan; nan]%float)
         (rows df_grouped).
Proof.
  intros Hc Hb Hp Ht Hidx.
  destruct (resample_agg_buckets MS df ci bi pi ti Hc Hb Hp Ht) as (dfg & Hagg & Hrows).
  exists dfg. split; [exact Hagg|]. split.
  { unfold prepare_chart_data.
    change (group_map "Monthly") with (Return MS). cbn [mbind py_bind].
    rewrite Hagg. reflexivity. }
  split.
  - rewrite (resample_agg_index df MS dfg Hagg).
    assert (Hne : exists r0 l0, rows df = r0 :: l0).
    { unfold index in Hidx. destruct (rows df) as [|r0 l0]; [discriminate|]. eauto. }
    destruct Hne as (r0 & l0 & Hr).
    destruct (sort_index_cons r0 l0) as (t' & ts' & Hs). rewrite <- Hr in Hs.
    rewrite Hs, get_time_bins_monthly.
    destruct (list_min_max_same t' ts' t ts) as [-> ->].
    { intros x. rewrite <- Hs, <- Hidx. unfold index. rewrite !in_map_iff.
      split; intros (r & Hx & Hin); exists r; (split; [exact Hx|]);
        apply sort_index_In; exact Hin. }
    reflexivity.
  - eapply List.Forall_impl; [|exact Hrows]. cbv beta.
    intros b [Hal Hv] Hnone. rewrite Hv.
    rewrite (proj2 (filter_nil_iff _ _)); [reflexivity|].
    intros row Hrow. apply not_true_is_false. intros Hin.
    apply (in_bucket_monthly _ _ Hal) in Hin.
    apply (Hnone row); [apply sort_index_In, Hrow | exact Hin].
Qed.

Lemma monthly_buckets_every_month_witness :
  exists df_grouped,
    resample_agg january_and_march MS agg_spec = Return df_grouped
    /\ prepare_chart_data january_and_march "Monthly" = Return (melt df_grouped)
    /\ index df_grouped
       = map to_datetime_date
           (calendar_months
              (Timestamp_date (list_min (mkts 2025 1 31 23) [mkts 2025 3 1 0]))
              (Timestamp_date (list_max (mkts 2025 1 31 23) [mkts 2025 3 1 0])))
    /\ Forall (fun b =>
         (forall row, In row (rows january_and_march) ->
                      month_index (Timestamp_date (fst row))
                      <> month_index (Timestamp_date (fst b))) ->
         snd b = [0; 0; nan; nan]%float)
         (rows df_grouped).
Proof.
  apply (monthly_buckets_every_month january_and_march 0 3 1 2); reflexivity.
Defined.

(** January, February and March: the month with no row is reported with a
    consumption of 0.0 and no price. *)
Example monthly_gap_is_reported :
  prepare_chart_data january_and_march "Monthly"
  = Return
      [ (mkts 2025 1 1 0, "Consumption (kWh)", 1%float);
        (mkts 2025 2 1 0, "Consumption (kWh)", 0%float);
        (mkts 2025 3 1 0, "Consumption (kWh)", 3%float);
        (mkts 2025 1 1 0, "Bill (€)", (1 * (10 / 100))%float);
        (mkts 2025 2 1 0, "Bill (€)", 0%float);
        (mkts 2025 3 1 0, "Bill (€)", (3 * (30 / 100))%float);
        (mkts 2025 1 1 0, "Price (cents/kWh)", 10%float);
        (mkts 2025 2 1 0, "Price (cents/kWh)", nan);
        (mkts 2025 3 1 0, "Price (cents/kWh)", 30%float);
        (mkts 2025 1 1 0, "Temperature (°C)", (-4)%float);
        (mkts 2025 2 1 0, "Temperature (°C)", nan);
        (mkts 2025 3 1 0, "Temperature (°C)", 0%float) ].
Proof. vm_compute. reflexivity. Qed.

(** ** The loader: the order of the price file *)

(** With distinct timestamps in the right table, the rows the join keeps for
    one row of the left table do not depend on the order of the right
    table. *)
Lemma join_matches_Permutation (a : Timestamp * list float) right right' :
  Permutation right right' ->
  List.NoDup (map fst right) ->
  flat_map (fun b : Timestamp * list float =>
    if (fst b =? fst a) && forallb notna (snd a ++ snd b)
    then [(fst a, snd a ++ snd b)] else []) right
  = flat_map (fun b : Timestamp * list float =>
    if (fst b =? fst a) && forallb notna (snd a ++ snd b)
    then [(fst a, snd a ++ snd b)] else []) right'.
Proof.
  induction 1 as [|x l l' Hp IH|x y l|l l' l'' Hp1 IH1 Hp2 IH2]; intros Hnd.
  - reflexivity.
  - cbn [flat_map]. f_equal. apply IH. cbn [map] in Hnd. inversion Hnd; assumption.
  - cbn [flat_map]. cbn [map] in Hnd. inversion Hnd as [|? ? Hnotin _]; subst.
    destruct (Z.eqb_spec (fst y) (fst a)) as [Hy|_]; [|reflexivity].
    destruct (Z.eqb_spec (fst x) (fst a)) as [Hx|_];
      [|destruct (forallb notna (snd a ++ snd y)); reflexivity].
    exfalso. apply Hnotin. left. congruence.
  - rewrite IH1 by exact Hnd. apply IH2.
    eapply Permutation_NoDup; [|exact Hnd]. apply Permutation_map, Hp1.
Qed.

(** The order of the rows of the price file does not matter when its
    timestamps are distinct: the loader returns the same frame, in the order
    of the consumption file. *)
Theorem load_data_price_order_irrelevant w w' df_cons df_price df_price' :
  load_consumption w = Return df_cons ->
  load_consumption w' = Return df_cons ->
  load_price w = Return df_price ->
  load_price w' = Return df_price' ->
  columns df_cons = ["kWh"] ->
  columns df_price = ["Price"; "Temperature"] ->
  columns df_price' = ["Price"; "Temperature"] ->
  Permutation (rows df_price) (rows df_price') ->
  List.NoDup (index df_price) ->
  load_data w = load_data w'.
Proof.
  intros Hc Hc' Hp Hp' Hcols Hpc Hpc' Hperm Hnd.
  rewrite (load_data_loaded w df_cons df_price Hc Hp Hcols Hpc).
  rewrite (load_data_loaded w' df_cons df_price' Hc' Hp' Hcols Hpc').
  f_equal. f_equal. f_equal. f_equal. unfold inner_join_rows.
  apply flat_map_ext. intros a. apply join_matches_Permutation; assumption.
Qed.

Lemma load_data_price_order_irrelevant_witness :
  load_data world_hours = load_data world_hours_price_312.
Proof.
  apply (load_data_price_order_irrelevant world_hours world_hours_price_312
           consumption_frame_012 price_frame_123 price_frame_312);
    try reflexivity.
  - apply Permutation_sym.
    apply (Permutation_cons_append
             [ (mkts 2025 3 1 1, [5%float; (-3)%float]);
               (mkts 2025 3 1 2, [6%float; (-2)%float]) ]
             (mkts 2025 3 1 3, [7%float; (-1)%float])).
  - apply concrete_NoDup. reflexivity.
Defined.

(** ** The aggregator on the loaded frame *)




(** The two hours loaded from the example files, by week. *)
Example prepare_chart_data_loaded_hours :
  prepare_chart_data loaded_hours "Weekly" = Raise (KeyError agg_missing_message).
Proof. vm_compute. reflexivity. Qed.
